(** * LVMH financial RAG: the query pipeline, its reranker, its confidence
      scorer, its response cache and its metrics.

    A shallow embedding of [src/reranker.py] and [src/rag_pipeline.py].

    Conventions of the embedding.
    - A Python [str] is the list of its code points ([pystr]).
    - A Python [float] is an exact rational ([Q]): decimal literals denote
      the decimals they spell and arithmetic does not round. For the
      additions of the confidence scorer, module [Binary64] replays them in
      IEEE 754 binary64 and [binary64_agrees] compares the two.
    - A Python [int] is a [Z].
    - A [datetime] is a number of microseconds ([Z]), a [timedelta] too.
    - A result dictionary lives in a heap of objects and is handled through
      its reference, so that copies and in-place writes are told apart. The
      values it holds (the answer, the lists of sources and evidence, the
      confidence) are written by nothing in the pipeline and are plain
      values.
    - What the Python runtime or an external collaborator supplies (the
      Unicode lower-casing, the decimal-digit class, MD5, the vector search,
      the language model, the clock) is a parameter. *)

From Stdlib Require Import ZArith QArith Qround Lqa List Lia Sorted Permutation Bool String Ascii.
From Corelib Require Import PrimFloat.
From Corelib Require Import SpecFloat FloatOps.
From stdpp Require Import base list.
Import ListNotations.

Local Open Scope Z_scope.

(* ===================================================================== *)
(** ** Python strings *)
(* ===================================================================== *)

Module Text.

Definition pystr := list N.

Definition pystr_eq_dec : forall a b : pystr, {a = b} + {a <> b} :=
  List.list_eq_dec N.eq_dec.

Definition pystr_eqb (a b : pystr) : bool :=
  if pystr_eq_dec a b then true else false.

(** A literal of the source, written with ASCII characters. *)
Definition lit (s : string) : pystr :=
  List.map N_of_ascii (list_ascii_of_string s).

(** The euro sign, U+20AC. *)
Definition euro : pystr := [8364%N].

(** [str.isspace] on one code point, the class that [str.split()] and
    [str.strip()] use when called without argument. *)
Definition is_space (c : N) : bool :=
  ((9 <=? c) && (c <=? 13) || (28 <=? c) && (c <=? 32)
   || (c =? 133) || (c =? 160) || (c =? 5760)
   || (8192 <=? c) && (c <=? 8202)
   || (c =? 8232) || (c =? 8233) || (c =? 8239) || (c =? 8287)
   || (c =? 12288))%N.

Fixpoint lstrip (s : pystr) : pystr :=
  match s with
  | [] => []
  | c :: s' => if is_space c then lstrip s' else s
  end.

Definition rstrip (s : pystr) : pystr := List.rev (lstrip (List.rev s)).

(** [s.strip()] *)
Definition strip (s : pystr) : pystr := rstrip (lstrip s).

(** [s.split()]: the maximal runs of non-space code points, in order.
    [cur] is the run being read, reversed. *)
Fixpoint split_from (cur : pystr) (s : pystr) : list pystr :=
  match s with
  | [] => match cur with [] => [] | _ => [List.rev cur] end
  | c :: s' =>
      if is_space c
      then match cur with
           | [] => split_from [] s'
           | _ => List.rev cur :: split_from [] s'
           end
      else split_from (c :: cur) s'
  end.

Definition split (s : pystr) : list pystr := split_from [] s.

Fixpoint starts_with (needle hay : pystr) : bool :=
  match needle, hay with
  | [], _ => true
  | _ :: _, [] => false
  | a :: n', b :: h' => (a =? b)%N && starts_with n' h'
  end.

(** [needle in hay] *)
Fixpoint contains (needle hay : pystr) : bool :=
  starts_with needle hay
  || match hay with
     | [] => false
     | _ :: h' => contains needle h'
     end.

(** [set(words)]: the distinct words. *)
Definition to_set (ws : list pystr) : list pystr := List.nodup pystr_eq_dec ws.

Definition mem (w : pystr) (ws : list pystr) : bool :=
  List.existsb (pystr_eqb w) ws.

(** [a & b] on two sets. *)
Definition inter (a b : list pystr) : list pystr :=
  List.filter (fun w => mem w b) a.

(** [x or ""] *)
Definition or_empty (x : option pystr) : pystr :=
  match x with Some s => s | None => [] end.

(** [s[:n]] for a literal [n >= 0]. *)
Definition prefix (n : nat) (s : pystr) : pystr := List.firstn n s.

(** ASCII instances of the two runtime tables, for concrete runs. *)
Definition ascii_lower_cp (c : N) : N :=
  if ((65 <=? c) && (c <=? 90))%N then (c + 32)%N else c.

Definition ascii_lower (s : pystr) : pystr := List.map ascii_lower_cp s.

Definition ascii_digit (c : N) : bool := ((48 <=? c) && (c <=? 57))%N.

End Text.

Import Text.

(* ===================================================================== *)
(** ** Python numbers *)
(* ===================================================================== *)

Module Num.

Local Open Scope Q_scope.

(** [int(x)] on a float: truncation towards zero. *)
Definition py_int (x : Q) : Z :=
  if Qle_bool 0 x then Qfloor x else Qceiling x.

(** Round half to even, to an integer. *)
Definition round_half_even (x : Q) : Z :=
  let f := Qfloor x in
  let r := x - inject_Z f in
  match Qcompare r (1 # 2) with
  | Lt => f
  | Gt => (f + 1)%Z
  | Eq => if Z.even f then f else (f + 1)%Z
  end.

(** [round(x, n)] *)
Definition py_round (x : Q) (n : nat) : Q :=
  inject_Z (round_half_even (x * inject_Z (10 ^ Z.of_nat n)))
  / inject_Z (10 ^ Z.of_nat n).

(** [max(xs)] for a non-empty list given as head and tail. *)
Definition py_max (x : Q) (xs : list Q) : Q :=
  List.fold_left (fun m y => if Qle_bool y m then m else y) xs x.

Definition py_sum (xs : list Q) : Q := List.fold_left Qplus xs 0.

(** [statistics.mean(xs)] for a non-empty list. *)
Definition py_mean (xs : list Q) : Q :=
  py_sum xs / inject_Z (Z.of_nat (length xs)).

Definition Qabs_diff (a b : Z) : Q := inject_Z (Z.abs (a - b)).

(** [l[:k]] for any integer [k]: a negative [k] counts from the end. *)
Definition slice_to {A} (l : list A) (k : Z) : list A :=
  if (0 <=? k)%Z then List.firstn (Z.to_nat k) l
  else List.firstn (length l - Z.to_nat (- k)) l.

End Num.

Import Num.

(* ===================================================================== *)
(** ** Documents and configuration *)
(* ===================================================================== *)

(** A retrieved chunk: its text and the two metadata entries the pipeline
    reads. [None] is a key that the metadata dictionary does not hold. *)
Record Document := mkDocument {
  page_content : pystr;
  meta_page : option Z;
  meta_has_numbers : option bool
}.

(** [Config], the class attributes that the pipeline reads. *)
Record Config := mkConfig {
  top_k_retrieval : Z;
  top_k_final : Z;
  enable_cache : bool;
  cache_ttl : Z;
  cache_max_size : Z
}.

(** The values of [src/config.py]. *)
Definition default_config : Config :=
  {| top_k_retrieval := 10; top_k_final := 5;
     enable_cache := true; cache_ttl := 3600; cache_max_size := 500 |}.

(* ===================================================================== *)
(** ** Reranker ([src/reranker.py]) *)
(* ===================================================================== *)

Module Reranker.

Local Open Scope Q_scope.

Definition sim_weight : Q := 6 # 10.
Definition keyword_weight : Q := 2 # 10.
Definition length_weight : Q := 1 # 10.
Definition financial_weight : Q := 1 # 10.

Definition financial_terms : list pystr :=
  [lit "revenue"; lit "net sales"; lit "sales";
   lit "eur"; euro; lit "million"; lit "billion"].

(** [list.sort(key=lambda x: x[1], reverse=True)]: the stable sort on the
    second component, largest first. An element goes in front of the
    first element that is not strictly larger, so equal elements keep
    the order they came in. *)
Fixpoint insert_desc {A} (x : A * Q) (l : list (A * Q)) : list (A * Q) :=
  match l with
  | [] => [x]
  | y :: l' =>
      if Qlt_le_dec (snd x) (snd y)
      then y :: insert_desc x l'
      else x :: l
  end.

Definition sort_desc {A} (l : list (A * Q)) : list (A * Q) :=
  List.fold_right insert_desc [] l.

Section WithLower.

(** [str.lower] of the Python runtime. *)
Variable lower : pystr -> pystr.

Definition keyword_score (query_words : list pystr) (text : pystr) : Q :=
  let doc_words := to_set (split text) in
  match query_words with
  | [] => 0
  | _ => inject_Z (Z.of_nat (length (inter query_words doc_words)))
         / inject_Z (Z.of_nat (length query_words))
  end.

Definition length_score (doc : Document) : Q :=
  let wc := Z.of_nat (length (split (page_content doc))) in
  1 / (1 + Qabs_diff wc 200 / 200).

Definition financial_boost (doc : Document) (text : pystr) : Q :=
  let financial_boost := 0 in
  let financial_boost :=
    if List.existsb (fun k => contains k text) financial_terms
    then financial_boost + (15 # 100) else financial_boost in
  let financial_boost :=
    if default false (meta_has_numbers doc)
    then financial_boost + (10 # 100) else financial_boost in
  financial_boost.

(** The body of the loop: one passage rescored. *)
Definition rescore (query_words : list pystr) (ds : Document * Q)
  : Document * Q :=
  let '(doc, sim_score) := ds in
  let text := lower (page_content doc) in
  let final_score :=
    sim_weight * sim_score
    + keyword_weight * keyword_score query_words text
    + length_weight * length_score doc
    + financial_weight * financial_boost doc text in
  (doc, final_score).

Definition rerank (query : pystr) (docs_scores : list (Document * Q))
           (top_k : Z) : list (Document * Q) :=
  let query_lower := lower query in
  let query_words := to_set (split query_lower) in
  let rescored :=
    List.fold_left (fun rescored ds => rescored ++ [rescore query_words ds])
                   docs_scores [] in
  slice_to (sort_desc rescored) top_k.

End WithLower.

End Reranker.

(* ===================================================================== *)
(** ** A dictionary in insertion order *)
(* ===================================================================== *)

(** A Python [dict] keyed by strings. Iteration follows insertion order,
    which [min] over the cache observes, so the dictionary is the list of
    its items; no key occurs twice. *)
Module Dict.

Section Ops.
Context {V : Type}.

Definition t := list (pystr * V).

(** [d[key]], with [None] for [key not in d]. *)
Fixpoint get (key : pystr) (d : t) : option V :=
  match d with
  | [] => None
  | (k, v) :: d' => if pystr_eqb key k then Some v else get key d'
  end.

(** [del d[key]]; the source deletes only keys that are there. *)
Fixpoint del (key : pystr) (d : t) : t :=
  match d with
  | [] => []
  | (k, v) :: d' => if pystr_eqb key k then d' else (k, v) :: del key d'
  end.

(** [d[key] = v]: a key already there keeps its place. *)
Fixpoint set (key : pystr) (v : V) (d : t) : t :=
  match d with
  | [] => [(key, v)]
  | (k, w) :: d' =>
      if pystr_eqb key k then (k, v) :: d' else (k, w) :: set key v d'
  end.

(** [min(d, key=rank)] continued from the best key seen so far: a later
    key replaces it only when strictly smaller. *)
Fixpoint min_from (rank : V -> Z) (best : pystr * V) (d : t) : pystr :=
  match d with
  | [] => fst best
  | (k, v) :: d' =>
      if rank v <? rank (snd best)
      then min_from rank (k, v) d'
      else min_from rank best d'
  end.

(** [min(d, key=lambda k: rank(d[k]))]; [None] where Python raises
    [ValueError] on an empty dictionary. *)
Definition min_key (rank : V -> Z) (d : t) : option pystr :=
  match d with
  | [] => None
  | kv :: d' => Some (min_from rank kv d')
  end.

Definition keys (d : t) : list pystr := List.map fst d.

End Ops.

Arguments t : clear implicits.

End Dict.

(* ===================================================================== *)
(** ** Results of a query *)
(* ===================================================================== *)

Inductive Level := LOW | MEDIUM | HIGH.

Inductive Reason :=
| NO_SOURCES
| NO_SCORES
| LOW_TOP_SIMILARITY
| LOW_AVG_SIMILARITY
| SINGLE_PAGE_EVIDENCE
| LOW_NUMERIC_EVIDENCE
| ANSWER_HAS_NUMBERS_WITHOUT_SUPPORT.

Record Confidence := mkConfidence {
  level : Level;
  score : Q;
  reasons : list Reason
}.

(** An item of ["sources"]; a page of [None] is the marker ["?"]. *)
Record Source := mkSource {
  src_page : option Z;
  src_score : Q;
  src_preview : pystr
}.

(** An item of ["evidence"]. *)
Record Evidence := mkEvidence {
  ev_page : option Z;
  ev_score : Q;
  ev_snippet : pystr
}.

(** The dictionary that [query] returns. [timestamp] is the [datetime]
    whose ISO text the source stores. *)
Record QueryResult := mkQueryResult {
  answer : pystr;
  sources : list Source;
  evidence : list Evidence;
  confidence : Confidence;
  latency_ms : Z;
  from_cache : bool;
  timestamp : Z
}.

(** [self.metrics] *)
Record Metrics := mkMetrics {
  total_queries : Z;
  cache_hits : Z;
  total_latency_ms_e2e : Z;
  total_latency_ms_uncached : Z;
  uncached_queries : Z
}.

(** What [get_metrics] returns, the pass-through ["db_stats"] apart. *)
Record MetricsReport := mkMetricsReport {
  r_total_queries : Z;
  r_cache_hits : Z;
  r_cache_hit_rate : Q;
  r_avg_latency_e2e_ms : option Q;
  r_avg_latency_uncached_ms : option Q;
  r_cache_size : Z
}.

(** A reference to a result dictionary: its index in the heap. *)
Definition ref := nat.

(** The pipeline object: the result dictionaries allocated so far,
    [self.cache] (key -> (reference, insertion time)) and [self.metrics]. *)
Record State := mkState {
  heap : list QueryResult;
  cache : Dict.t (ref * Z);
  metrics : Metrics
}.

Definition initial_metrics : Metrics :=
  {| total_queries := 0; cache_hits := 0; total_latency_ms_e2e := 0;
     total_latency_ms_uncached := 0; uncached_queries := 0 |}.

(** The state that [__init__] leaves. *)
Definition initial_state : State :=
  {| heap := []; cache := []; metrics := initial_metrics |}.

(** One block of the context string, [[Page p | score s]\ntext]: the page,
    the score at two decimals and the text. *)
Definition ContextBlock : Type := option Z * Q * pystr.

Inductive Exn := ValueError | RetrievalError.

Inductive Res (A : Type) :=
| Ok (a : A)
| Raise (e : Exn).
Arguments Ok {A} a.
Arguments Raise {A} e.

(** What one call of [query] observes of the outside: the two readings of
    [time.time()], the readings of [datetime.now()] (in [_get_cache], for
    the result's timestamp, in [_set_cache]), the vector store and the
    language model. *)
Record Env := mkEnv {
  t_start : Q;
  t_end : Q;
  now_read : Z;
  now_stamp : Z;
  now_write : Z;
  search : pystr -> Z -> Res (list (Document * Q));
  generate : list ContextBlock -> pystr -> pystr
}.

(** Computations on the pipeline object that may raise. What was written
    before an exception stays written. *)
Definition M (A : Type) : Type := State -> Res A * State.

Definition ret {A} (a : A) : M A := fun s => (Ok a, s).

Definition bind {A B} (m : M A) (k : A -> M B) : M B :=
  fun s => match m s with
           | (Ok a, s') => k a s'
           | (Raise e, s') => (Raise e, s')
           end.

Definition raise {A} (e : Exn) : M A := fun s => (Raise e, s).

Definition lift {A} (r : Res A) : M A := fun s => (r, s).

#[global] Instance M_ret : MRet M := @ret.
#[global] Instance M_bind : MBind M := fun A B k m => bind m k.

(* ===================================================================== *)
(** ** The pipeline ([src/rag_pipeline.py]) *)
(* ===================================================================== *)

Module RAGPipeline.

(** Primitive accesses to the pipeline object. *)
Definition get_cache : M (Dict.t (ref * Z)) := fun s => (Ok (cache s), s).

Definition put_cache (c : Dict.t (ref * Z)) : M unit :=
  fun s => (Ok tt, {| heap := heap s; cache := c; metrics := metrics s |}).

Definition update_metrics (f : Metrics -> Metrics) : M unit :=
  fun s => (Ok tt, {| heap := heap s; cache := cache s;
                      metrics := f (metrics s) |}).

(** A new dictionary object. *)
Definition alloc (r : QueryResult) : M ref :=
  fun s => (Ok (length (heap s)),
            {| heap := heap s ++ [r]; cache := cache s;
               metrics := metrics s |}).

(** Reading an object; a reference to nothing does not occur in a state
    that the pipeline builds, and reads as a [ValueError] here. *)
Definition load (l : ref) : M QueryResult :=
  fun s => match heap s !! l with
           | Some r => (Ok r, s)
           | None => (Raise ValueError, s)
           end.

(** An in-place write [obj[field] = value]. *)
Definition store (l : ref) (f : QueryResult -> QueryResult) : M unit :=
  fun s => match heap s !! l with
           | Some r => (Ok tt, {| heap := <[l := f r]> (heap s);
                                  cache := cache s; metrics := metrics s |})
           | None => (Raise ValueError, s)
           end.

Definition set_from_cache (b : bool) (r : QueryResult) : QueryResult :=
  {| answer := answer r; sources := sources r; evidence := evidence r;
     confidence := confidence r; latency_ms := latency_ms r;
     from_cache := b; timestamp := timestamp r |}.

Definition set_latency_ms (n : Z) (r : QueryResult) : QueryResult :=
  {| answer := answer r; sources := sources r; evidence := evidence r;
     confidence := confidence r; latency_ms := n;
     from_cache := from_cache r; timestamp := timestamp r |}.

Definition set_timestamp (t : Z) (r : QueryResult) : QueryResult :=
  {| answer := answer r; sources := sources r; evidence := evidence r;
     confidence := confidence r; latency_ms := latency_ms r;
     from_cache := from_cache r; timestamp := t |}.

Definition incr_total_queries (m : Metrics) : Metrics :=
  {| total_queries := total_queries m + 1; cache_hits := cache_hits m;
     total_latency_ms_e2e := total_latency_ms_e2e m;
     total_latency_ms_uncached := total_latency_ms_uncached m;
     uncached_queries := uncached_queries m |}.

Definition incr_cache_hits (m : Metrics) : Metrics :=
  {| total_queries := total_queries m; cache_hits := cache_hits m + 1;
     total_latency_ms_e2e := total_latency_ms_e2e m;
     total_latency_ms_uncached := total_latency_ms_uncached m;
     uncached_queries := uncached_queries m |}.

Definition add_latency_e2e (n : Z) (m : Metrics) : Metrics :=
  {| total_queries := total_queries m; cache_hits := cache_hits m;
     total_latency_ms_e2e := total_latency_ms_e2e m + n;
     total_latency_ms_uncached := total_latency_ms_uncached m;
     uncached_queries := uncached_queries m |}.

Definition incr_uncached_queries (m : Metrics) : Metrics :=
  {| total_queries := total_queries m; cache_hits := cache_hits m;
     total_latency_ms_e2e := total_latency_ms_e2e m;
     total_latency_ms_uncached := total_latency_ms_uncached m;
     uncached_queries := uncached_queries m + 1 |}.

Definition add_latency_uncached (n : Z) (m : Metrics) : Metrics :=
  {| total_queries := total_queries m; cache_hits := cache_hits m;
     total_latency_ms_e2e := total_latency_ms_e2e m;
     total_latency_ms_uncached := total_latency_ms_uncached m + n;
     uncached_queries := uncached_queries m |}.

(** [x if x < y else y] and the like: Python's two-argument [min], [max]. *)
Definition py_min2 (a b : Q) : Q := if Qlt_le_dec b a then b else a.
Definition py_max2 (a b : Q) : Q := if Qlt_le_dec a b then b else a.

Definition option_Z_eq_dec : forall a b : option Z, {a = b} + {a <> b}.
Proof. decide equality. apply Z.eq_dec. Defined.

Definition has_numbers (d : Document) : bool :=
  default false (meta_has_numbers d).

(** The microseconds of [timedelta(seconds=n)]. *)
Definition seconds (n : Z) : Z := n * 1000000.

Section WithRuntime.

(** [str.lower], the class [\d] of [re], and the hexadecimal MD5 digest
    of the UTF-8 encoding, of the Python runtime. *)
Variable lower : pystr -> pystr.
Variable is_decimal : N -> bool.
Variable md5_hexdigest : pystr -> pystr.

Variable cfg : Config.

(* ------------------------------------------------------------- *)
(** *** Confidence *)

(** One of the four checks: add [gain], or append [why]. *)
Definition check (cond : bool) (gain : Q) (why : Reason)
           (acc : Q * list Reason) : Q * list Reason :=
  if cond then (fst acc + gain, snd acc)%Q else (fst acc, snd acc ++ [why]).

Definition _compute_confidence
           (docs_scores : list (Document * option Q))
           (answer : option pystr) : Confidence :=
  match docs_scores with
  | [] => {| level := LOW; score := 0; reasons := [NO_SOURCES] |}
  | _ :: _ =>
      let scores := omap snd docs_scores in
      match scores with
      | [] => {| level := LOW; score := 0; reasons := [NO_SCORES] |}
      | s0 :: rest =>
          let top := py_max s0 rest in
          let avg := py_mean scores in
          let has_numbers_answer :=
            List.existsb is_decimal (or_empty answer) in
          let numeric_chunks :=
            length (List.filter (fun ds => has_numbers (fst ds)) docs_scores) in
          let unique_pages :=
            length (List.nodup option_Z_eq_dec
                      (List.map (fun ds => meta_page (fst ds)) docs_scores)) in
          let acc := (0%Q, []) in
          let acc := check (Qle_bool (55 # 100) top) (40 # 100)
                           LOW_TOP_SIMILARITY acc in
          let acc := check (Qle_bool (45 # 100) avg) (20 # 100)
                           LOW_AVG_SIMILARITY acc in
          let acc := check (2 <=? unique_pages)%nat (15 # 100)
                           SINGLE_PAGE_EVIDENCE acc in
          let acc := check (2 <=? numeric_chunks)%nat (15 # 100)
                           LOW_NUMERIC_EVIDENCE acc in
          let acc :=
            if has_numbers_answer && (numeric_chunks =? 0)%nat
            then ((fst acc - (20 # 100))%Q,
                  snd acc ++ [ANSWER_HAS_NUMBERS_WITHOUT_SUPPORT])
            else acc in
          let score := py_max2 0 (py_min2 1 (fst acc)) in
          let level :=
            if Qle_bool (75 # 100) score then HIGH
            else if Qle_bool (50 # 100) score then MEDIUM
            else LOW in
          {| level := level; score := py_round score 3;
             reasons := snd acc |}
      end
  end.

(* ------------------------------------------------------------- *)
(** *** Evidence, sources, context *)

Definition _build_evidence (docs_scores : list (Document * Q))
           (max_items : Z) : list Evidence :=
  List.map (fun ds =>
              {| ev_page := meta_page (fst ds);
                 ev_score := py_round (snd ds) 3;
                 ev_snippet := strip (prefix 240 (page_content (fst ds))) |})
           (slice_to docs_scores max_items).

Definition _format_sources (docs_scores : list (Document * Q))
  : list Source :=
  List.map (fun ds =>
              {| src_page := meta_page (fst ds);
                 src_score := py_round (snd ds) 3;
                 src_preview :=
                   prefix 150 (page_content (fst ds)) ++ lit "..." |})
           docs_scores.

Definition _build_context (docs_scores : list (Document * Q))
  : list ContextBlock :=
  List.map (fun ds => (meta_page (fst ds), py_round (snd ds) 2,
                       page_content (fst ds)))
           docs_scores.

(* ------------------------------------------------------------- *)
(** *** Cache *)

Definition _get_cache_key (question : pystr) : pystr :=
  md5_hexdigest (strip (lower question)).

Definition _get_cache (env : Env) (question : pystr) : M (option ref) :=
  let key := _get_cache_key question in
  c ← get_cache;
  match Dict.get key c with
  | None => mret None
  | Some (cached, ts) =>
      if now_read env - ts >? seconds (cache_ttl cfg)
      then put_cache (Dict.del key c);; mret None
      else mret (Some cached)
  end.

Definition _set_cache (env : Env) (question : pystr) (result : ref)
  : M unit :=
  let key := _get_cache_key question in
  c ← get_cache;
  (if cache_max_size cfg <=? Z.of_nat (length c)
   then match Dict.min_key snd c with
        | None => raise ValueError
        | Some oldest_key => put_cache (Dict.del oldest_key c)
        end
   else mret tt);;
  r ← load result;
  copy ← alloc r;
  c ← get_cache;
  put_cache (Dict.set key (copy, now_write env) c).

(* ------------------------------------------------------------- *)
(** *** The final response builder *)

Definition _finalize (env : Env) (question answer : pystr)
           (docs_scores : list (Document * Q)) (start : Q)
           (from_cache allow_cache_write : bool) : M ref :=
  let latency_ms := py_int ((t_end env - start) * 1000) in
  update_metrics (add_latency_e2e latency_ms);;
  (if negb from_cache
   then update_metrics incr_uncached_queries;;
        update_metrics (add_latency_uncached latency_ms)
   else mret tt);;
  let confidence :=
    _compute_confidence
      (List.map (fun ds => (fst ds, Some (snd ds))) docs_scores)
      (Some answer) in
  let evidence := _build_evidence docs_scores 3 in
  result ← alloc {| answer := answer;
                    sources := _format_sources docs_scores;
                    evidence := evidence;
                    confidence := confidence;
                    latency_ms := latency_ms;
                    from_cache := from_cache;
                    timestamp := now_stamp env |};
  (if allow_cache_write && negb from_cache
   then _set_cache env question result
   else mret tt);;
  mret result.

(* ------------------------------------------------------------- *)
(** *** The public entry point *)

(** The part of [query] after the cache read: retrieval, reranking,
    generation, finalisation. *)
Definition answer_uncached (env : Env) (question_clean : pystr)
           (top_k : option Z) (use_cache use_rerank : bool) (start : Q)
  : M ref :=
  let k := match top_k with
           | Some k => k
           | None => top_k_retrieval cfg
           end in
  docs_scores ← lift (search env question_clean k);
  match docs_scores with
  | [] =>
      _finalize env question_clean
                (lit "No relevant information found in the document.")
                [] start false (use_cache && enable_cache cfg)
  | _ :: _ =>
      let docs_scores :=
        if use_rerank
        then Reranker.rerank lower question_clean docs_scores
                             (top_k_final cfg)
        else slice_to docs_scores (top_k_final cfg) in
      let context := _build_context docs_scores in
      let answer := generate env context question_clean in
      _finalize env question_clean answer docs_scores start false
                (use_cache && enable_cache cfg)
  end.

(** The cache read of [query]: [Some out] when the call returns from
    the cache. *)
Definition answer_cached (env : Env) (question_clean : pystr) (start : Q)
  : M (option ref) :=
  cached ← _get_cache env question_clean;
  match cached with
  | Some cached =>
      update_metrics incr_cache_hits;;
      let latency_ms := py_int ((t_end env - start) * 1000) in
      update_metrics (add_latency_e2e latency_ms);;
      r ← load cached;
      out ← alloc r;
      store out (set_from_cache true);;
      store out (set_latency_ms latency_ms);;
      store out (set_timestamp (now_stamp env));;
      mret (Some out)
  | None => mret None
  end.

Definition query (env : Env) (question : option pystr)
           (top_k : option Z) (use_cache use_rerank : bool) : M ref :=
  let start := t_start env in
  update_metrics incr_total_queries;;
  let question_clean := strip (or_empty question) in
  match question_clean with
  | [] =>
      _finalize env [] (lit "Empty question.") [] start false false
  | _ :: _ =>
      hit ← (if use_cache && enable_cache cfg
             then answer_cached env question_clean start
             else mret None);
      match hit with
      | Some out => mret out
      | None => answer_uncached env question_clean top_k
                                use_cache use_rerank start
      end
  end.

(* ------------------------------------------------------------- *)
(** *** Metrics *)

Definition get_metrics (s : State) : MetricsReport :=
  let m := metrics s in
  let tq := total_queries m in
  let uq := uncached_queries m in
  let avg_e2e :=
    if tq =? 0 then None
    else Some (inject_Z (total_latency_ms_e2e m) / inject_Z tq)%Q in
  let avg_uncached :=
    if uq =? 0 then None
    else Some (inject_Z (total_latency_ms_uncached m) / inject_Z uq)%Q in
  let cache_rate :=
    if tq =? 0 then 0%Q
    else (inject_Z (cache_hits m) / inject_Z tq)%Q in
  {| r_total_queries := tq;
     r_cache_hits := cache_hits m;
     r_cache_hit_rate := py_round cache_rate 3;
     r_avg_latency_e2e_ms := option_map (fun x => py_round x 2) avg_e2e;
     r_avg_latency_uncached_ms :=
       option_map (fun x => py_round x 2) avg_uncached;
     r_cache_size := Z.of_nat (length (cache s)) |}.

End WithRuntime.

End RAGPipeline.

(* ===================================================================== *)
(** ** The specification's formulas, as the specification words them *)
(* ===================================================================== *)

Module Spec.

Local Open Scope Q_scope.

Section WithLower.

Variable lower : pystr -> pystr.

(** Case-folded whitespace tokenisation, as a set of words. *)
Definition words (s : pystr) : list pystr := to_set (split (lower s)).

(** [|queryWords ∩ passageWords| / |queryWords|], 0 when the query has
    no words. *)
Definition keywordOverlap (query : pystr) (passage : Document) : Q :=
  let queryWords := words query in
  let passageWords := words (page_content passage) in
  if (length queryWords =? 0)%nat then 0
  else inject_Z (Z.of_nat (length (inter queryWords passageWords)))
       / inject_Z (Z.of_nat (length queryWords)).

Definition wordCount (passage : Document) : Z :=
  Z.of_nat (length (split (page_content passage))).

(** [1 / (1 + |wordCount − 200| / 200)] *)
Definition lengthFit (passage : Document) : Q :=
  1 / (1 + inject_Z (Z.abs (wordCount passage - 200)) / 200).

Definition mentions_finance (passage : Document) : bool :=
  List.existsb (fun term => contains term (lower (page_content passage)))
               Reranker.financial_terms.

(** 0.15 for a financial term, plus 0.10 for [hasNumbers]. *)
Definition financialBoost (passage : Document) : Q :=
  (if mentions_finance passage then 15 # 100 else 0)
  + (if RAGPipeline.has_numbers passage then 10 # 100 else 0).

(** [0.6*similarity + 0.2*keywordOverlap + 0.1*lengthFit
     + 0.1*financialBoost] *)
Definition finalScore (query : pystr) (passage : Document)
           (similarity : Q) : Q :=
  (6 # 10) * similarity
  + (2 # 10) * keywordOverlap query passage
  + (1 # 10) * lengthFit passage
  + (1 # 10) * financialBoost passage.

Definition rescored (query : pystr) (scoredPassages : list (Document * Q))
  : list (Document * Q) :=
  List.map (fun ps => (fst ps, finalScore query (fst ps) (snd ps)))
           scoredPassages.

End WithLower.


(** Non-increasing scores. *)
Definition descending {A} (l : list (A * Q)) : Prop :=
  StronglySorted (fun a b => snd b <= snd a) l.


End Spec.

(* ===================================================================== *)
(** ** Binary64 arithmetic *)
(* ===================================================================== *)

(** The floats of Python are IEEE 754 binary64 numbers, and every operation
    on them returns the binary64 number nearest to the exact result, ties
    to the even significand. Here a float is the rational it denotes and an
    operation is the exact one followed by [nearest]. The numbers at hand
    are finite and far below 2^1024, where [nearest] would overflow; there
    is no NaN and no infinity among them. *)
Module F64.

Local Open Scope Q_scope.

(** [2^e] *)
Definition pow2 (e : Z) : Q :=
  if (0 <=? e)%Z then inject_Z (2 ^ e) else 1 / inject_Z (2 ^ (- e)).

(** The exponent of the leading bit of a positive rational [a]:
    [2^(ilog2 a) <= a < 2^(ilog2 a + 1)]. *)
Definition ilog2 (a : Q) : Z :=
  let k := (Z.log2 (Qnum a) - Z.log2 (Zpos (Qden a)))%Z in
  if Qle_bool (pow2 k) a then k else (k - 1)%Z.

(** The binary64 number nearest to [x]: a significand of 53 bits, or of
    fewer below 2^-1022, where the numbers are the multiples of
    2^-1074. *)
Definition nearest (x : Q) : Q :=
  let x := Qred x in
  if Qeq_bool x 0 then 0
  else
    let a := if Qle_bool 0 x then x else - x in
    let e := Z.max (ilog2 a - 52) (-1074) in
    let m := round_half_even (a / pow2 e) in
    let r := Qred (inject_Z m * pow2 e) in
    if Qle_bool 0 x then r else Qred (- r).

Definition add (x y : Q) : Q := nearest (x + y).
Definition sub (x y : Q) : Q := nearest (x - y).
Definition mul (x y : Q) : Q := nearest (x * y).
Definition div (x y : Q) : Q := nearest (x / y).

(** [a / b] on two integers. *)
Definition true_div (a b : Z) : Q := nearest (inject_Z a / inject_Z b).

(** [round(x, n)] on a float: the decimal of [n] places nearest to the
    exact value of [x], ties to even, and then the float nearest to that
    decimal. *)
Definition py_round (x : Q) (n : nat) : Q := nearest (Num.py_round x n).

(** [statistics.mean(xs)] on floats: the exact sum, divided by the
    count, rounded once. *)
Definition mean (xs : list Q) : Q :=
  nearest (py_sum xs / inject_Z (Z.of_nat (length xs))).

End F64.

(** The exact value of a primitive float that is finite. *)
Definition float_to_Q (f : float) : option Q :=
  match Prim2SF f with
  | S754_zero _ => Some 0%Q
  | S754_finite s m e =>
      let v := (inject_Z (Zpos m) * F64.pow2 e)%Q in
      Some (Qred (if s then - v else v))%Q
  | _ => None
  end.


(** The confidence scorer of the specification (section 4.3). *)
Module SpecConfidence.

Local Open Scope Q_scope.

(** A check adds a fixed amount when its condition holds... *)
Definition gain (cond : bool) (amount : Q) : Q := if cond then amount else 0.

(** ... and gives its reason code when it does not. *)
Definition unless (cond : bool) (why : Reason) : list Reason :=
  if cond then [] else [why].

Definition clamp01 (x : Q) : Q :=
  if Qlt_le_dec x 0 then 0 else if Qlt_le_dec 1 x then 1 else x.

Definition level_of (s : Q) : Level :=
  if Qle_bool (75 # 100) s then HIGH
  else if Qle_bool (50 # 100) s then MEDIUM
  else LOW.

(** The scores that are present. *)
Definition present_scores (passages : list (Document * option Q)) : list Q :=
  omap snd passages.

Definition distinct_pages (passages : list (Document * option Q)) : nat :=
  length (List.nodup RAGPipeline.option_Z_eq_dec
            (List.map (fun p => meta_page (fst p)) passages)).

Definition numeric_passages (passages : list (Document * option Q)) : nat :=
  length (List.filter (fun p => RAGPipeline.has_numbers (fst p)) passages).

(** The sum of the four checks and the penalty, before clamping. *)
Definition raw_score (top_ok avg_ok pages_ok numeric_ok unsupported : bool)
  : Q :=
  gain top_ok (40 # 100) + gain avg_ok (20 # 100)
  + gain pages_ok (15 # 100) + gain numeric_ok (15 # 100)
  - gain unsupported (20 # 100).

Section WithDigits.

Variable is_decimal : N -> bool.

Definition has_digit (answerText : pystr) : bool :=
  List.existsb is_decimal answerText.

Definition confidence (passages : list (Document * option Q))
           (answerText : pystr) : Confidence :=
  match passages, present_scores passages with
  | [], _ => {| level := LOW; score := 0; reasons := [NO_SOURCES] |}
  | _, [] => {| level := LOW; score := 0; reasons := [NO_SCORES] |}
  | _, s0 :: rest =>
      let top_ok := Qle_bool (55 # 100) (py_max s0 rest) in
      let avg_ok := Qle_bool (45 # 100) (py_mean (s0 :: rest)) in
      let pages_ok := (2 <=? distinct_pages passages)%nat in
      let numeric_ok := (2 <=? numeric_passages passages)%nat in
      let unsupported :=
        has_digit answerText && (numeric_passages passages =? 0)%nat in
      let raw :=
        raw_score top_ok avg_ok pages_ok numeric_ok unsupported in
      {| level := level_of (clamp01 raw);
         score := py_round (clamp01 raw) 3;
         reasons :=
           unless top_ok LOW_TOP_SIMILARITY
           ++ unless avg_ok LOW_AVG_SIMILARITY
           ++ unless pages_ok SINGLE_PAGE_EVIDENCE
           ++ unless numeric_ok LOW_NUMERIC_EVIDENCE
           ++ unless (negb unsupported) ANSWER_HAS_NUMBERS_WITHOUT_SUPPORT |}
  end.

End WithDigits.

End SpecConfidence.

(** The additions of the confidence scorer in IEEE 754 binary64, as Python
    performs them, to compare with the exact rationals of the embedding. *)
Module Binary64.

Import PrimFloat.
Local Open Scope float_scope.
Local Set Warnings "-inexact-float".

Definition check (cond : bool) (gain score : float) : float :=
  if cond then score + gain else score.

(** [min(1.0, x)] and [max(0.0, x)] of Python. *)
Definition min_1 (x : float) : float := if ltb x 1.0 then x else 1.0.
Definition max_0 (x : float) : float := if ltb 0.0 x then x else 0.0.

Definition score (top_ok avg_ok pages_ok numeric_ok unsupported : bool)
  : float :=
  let score := 0.0 in
  let score := check top_ok 0.40 score in
  let score := check avg_ok 0.20 score in
  let score := check pages_ok 0.15 score in
  let score := check numeric_ok 0.15 score in
  let score := if unsupported then score - 0.20 else score in
  max_0 (min_1 score).

Definition level_of (score : float) : Level :=
  if leb 0.75 score then HIGH
  else if leb 0.50 score then MEDIUM
  else LOW.

(** The binary64 number nearest to a rational of small terms. *)
Fixpoint of_pos (p : positive) : float :=
  match p with
  | xH => 1.0
  | xO p => 2.0 * of_pos p
  | xI p => 2.0 * of_pos p + 1.0
  end.

Definition of_Z (z : Z) : float :=
  match z with
  | Z0 => 0.0
  | Zpos p => of_pos p
  | Zneg p => - of_pos p
  end.

Definition of_Q (q : Q) : float := of_Z (Qnum q) / of_pos (Qden q).

(** Within 2^-50 of each other. *)
Definition close (x y : float) : bool := leb (abs (x - y)) 0x1p-50.

End Binary64.

(* ===================================================================== *)
(** ** Runs of the pipeline *)
(* ===================================================================== *)

Module Runs.

Import RAGPipeline.

(** The arguments of one call of [query], with what the call observes. *)
Record Call := mkCall {
  call_env : Env;
  call_question : option pystr;
  call_top_k : option Z;
  call_use_cache : bool;
  call_use_rerank : bool
}.

(** A read of the cache, or a write of a result dictionary that the
    caller has just built. *)
Inductive CacheOp :=
| CacheGet (env : Env) (question : pystr)
| CacheSet (env : Env) (question : pystr) (result : QueryResult).

(** The metrics after a call that did not return from the cache... *)
Definition count_finalize (latency : Z) (m : Metrics) : Metrics :=
  add_latency_uncached latency
    (incr_uncached_queries (add_latency_e2e latency m)).

Definition count_fresh (latency : Z) (m : Metrics) : Metrics :=
  count_finalize latency (incr_total_queries m).

(** ... and after a call that did. *)
Definition count_hit (latency : Z) (m : Metrics) : Metrics :=
  add_latency_e2e latency (incr_cache_hits (incr_total_queries m)).

(** What a cache hit hands out: the stored fields, with the three that
    must be of now overwritten. *)
Definition stamped (env : Env) (latency : Z) (stored : QueryResult)
  : QueryResult :=
  set_timestamp (now_stamp env)
    (set_latency_ms latency (set_from_cache true stored)).

Definition with_cache (c : Dict.t (ref * Z)) (s : State) : State :=
  {| heap := heap s; cache := c; metrics := metrics s |}.

Definition with_metrics (m : Metrics) (s : State) : State :=
  {| heap := heap s; cache := cache s; metrics := m |}.

(** A cache fit for a heap of [n] objects: no key twice, and every entry
    refers to one of the objects. *)
Definition valid_cache (n : nat) (c : Dict.t (ref * Z)) : Prop :=
  List.NoDup (Dict.keys c)
  /\ forall k stored ts, In (k, (stored, ts)) c -> (stored < n)%nat.

Definition well_formed (s : State) : Prop :=
  valid_cache (length (heap s)) (cache s).

(** [s'] holds every object of [s], unchanged. *)
Definition keeps_objects (s s' : State) : Prop :=
  forall l r, heap s !! l = Some r -> heap s' !! l = Some r.

(** The result of the empty-question path. *)
Definition empty_result (env : Env) : QueryResult :=
  {| answer := lit "Empty question.";
     sources := [];
     evidence := [];
     confidence := {| level := LOW; score := 0; reasons := [NO_SOURCES] |};
     latency_ms := py_int ((t_end env - t_start env) * 1000);
     from_cache := false;
     timestamp := now_stamp env |}.

(** The latency that a call measures. *)
Definition measured (env : Env) : Z :=
  py_int ((t_end env - t_start env) * 1000).

Section WithRuntime.

Variable lower : pystr -> pystr.
Variable is_decimal : N -> bool.
Variable md5_hexdigest : pystr -> pystr.
Variable cfg : Config.

(** The last two statements of [_set_cache]: copy the result, store the
    copy under the key of the question. *)
Definition insert_copy (env : Env) (question : pystr) (result : ref)
           (c : Dict.t (ref * Z)) (s : State) : Res unit * State :=
  match heap s !! result with
  | Some r =>
      (Ok tt, {| heap := heap s ++ [r];
                 cache := Dict.set (V := ref * Z)
                                   (_get_cache_key lower md5_hexdigest question)
                                   (length (heap s), now_write env) c;
                 metrics := metrics s |})
  | None => (Raise ValueError, with_cache c s)
  end.

(** The dictionary that [_finalize] builds for a call that did not
    return from the cache. *)
Definition fresh_result (env : Env) (answer : pystr)
           (docs_scores : list (Document * Q)) : QueryResult :=
  {| answer := answer;
     sources := _format_sources docs_scores;
     evidence := _build_evidence docs_scores 3;
     confidence :=
       _compute_confidence is_decimal
         (List.map (fun ds => (fst ds, Some (snd ds))) docs_scores)
         (Some answer);
     latency_ms := measured env;
     from_cache := false;
     timestamp := now_stamp env |}.

(** The passages kept for the answer and the answer itself, from what
    the vector store returned. *)
Definition final_passages (question_clean : pystr) (use_rerank : bool)
           (docs_scores : list (Document * Q)) : list (Document * Q) :=
  match docs_scores with
  | [] => []
  | _ :: _ =>
      if use_rerank
      then Reranker.rerank lower question_clean docs_scores (top_k_final cfg)
      else slice_to docs_scores (top_k_final cfg)
  end.

Definition final_answer (env : Env) (question_clean : pystr)
           (use_rerank : bool) (docs_scores : list (Document * Q)) : pystr :=
  match docs_scores with
  | [] => lit "No relevant information found in the document."
  | _ :: _ =>
      generate env
               (_build_context
                  (final_passages question_clean use_rerank docs_scores))
               question_clean
  end.

Definition retrieval_count (top_k : option Z) : Z :=
  match top_k with
  | Some k => k
  | None => top_k_retrieval cfg
  end.

Definition run_call (c : Call) : M ref :=
  query lower is_decimal md5_hexdigest cfg (call_env c) (call_question c)
        (call_top_k c) (call_use_cache c) (call_use_rerank c).

(** The pipeline object after a sequence of calls, whether they return
    or raise. *)
Definition after_calls (calls : list Call) (s : State) : State :=
  List.fold_left (fun s c => snd (run_call c s)) calls s.

Definition run_op (op : CacheOp) (s : State) : State :=
  match op with
  | CacheGet env question =>
      snd (_get_cache lower md5_hexdigest cfg env question s)
  | CacheSet env question result =>
      snd ((r ← alloc result;
            _set_cache lower md5_hexdigest cfg env question r) s)
  end.

(** The pipeline object after a sequence of cache reads and writes. *)
Definition after_ops (ops : list CacheOp) (s : State) : State :=
  List.fold_left (fun s op => run_op op s) ops s.


End WithRuntime.

(** Unfolding of the monad. *)
Ltac run :=
  unfold mbind, mret, M_bind, M_ret, bind, ret, raise, lift,
    update_metrics, get_cache, put_cache, alloc, load, store;
  cbn [fst snd heap cache metrics].

End Runs.

(* ===================================================================== *)
(** ** Concrete inputs *)
(* ===================================================================== *)

(** The documents of [tests/test_rag_pipeline.py], a vector store that
    returns them, a language model that returns the fixed answer of the
    tests, and clocks. The runtime tables are the ASCII ones and the digest
    is the identity, which is injective as MD5 is meant to be. *)
Module Samples.

Import RAGPipeline Runs.

Definition doc10 : Document :=
  {| page_content := lit "Revenue 2023: 86,153 million euros.";
     meta_page := Some 10; meta_has_numbers := None |}.

Definition doc11 : Document :=
  {| page_content := lit "2023 growth was 13% compared to 2022.";
     meta_page := Some 11; meta_has_numbers := None |}.

Definition doc49 : Document :=
  {| page_content := lit "LVMH has more than 5,000 stores worldwide.";
     meta_page := Some 49; meta_has_numbers := None |}.

Definition fake_search (query : pystr) (k : Z)
  : Res (list (Document * Q)) :=
  Ok [(doc10, 90 # 100); (doc11, 85 # 100); (doc49, 80 # 100)]%Q.

Definition fake_generate (context : list ContextBlock) (question : pystr)
  : pystr :=
  lit "LVMH revenue in 2023 was 86,153 million euros [Page 10].".

(** A call that starts at [t0] seconds, ends [ms] milliseconds later, and
    reads the wall clock at [now] microseconds. *)
Definition env_at (now : Z) (ms : Z) : Env :=
  {| t_start := 0; t_end := inject_Z ms / 1000;
     now_read := now; now_stamp := now; now_write := now;
     search := fake_search; generate := fake_generate |}.

Definition identity_digest (s : pystr) : pystr := s.

Definition sample_query :=
  query ascii_lower ascii_digit identity_digest default_config.

Definition revenue_question : pystr := lit "What was LVMH revenue in 2023?".

Definition ask (now ms : Z) (question : pystr) : Call :=
  {| call_env := env_at now ms; call_question := Some question;
     call_top_k := None; call_use_cache := true; call_use_rerank := true |}.

(** A configuration with room for two cache entries. *)
Definition small_config : Config :=
  {| top_k_retrieval := 10; top_k_final := 5;
     enable_cache := true; cache_ttl := 3600; cache_max_size := 2 |}.


(** The passages of the worked example: similarities 0.90, 0.85, 0.80,
    pages 10, 11, 49, all flagged [has_numbers], any texts. *)
Definition worked_example (t1 t2 t3 : pystr)
  : list (Document * option Q) :=
  [({| page_content := t1; meta_page := Some 10%Z;
       meta_has_numbers := Some true |}, Some (90 # 100));
   ({| page_content := t2; meta_page := Some 11%Z;
       meta_has_numbers := Some true |}, Some (85 # 100));
   ({| page_content := t3; meta_page := Some 49%Z;
       meta_has_numbers := Some true |}, Some (80 # 100))].


(** The pipeline after the revenue question was asked once. *)
Definition after_first : State :=
  snd (sample_query (env_at 0 7) (Some revenue_question) None true true
                    initial_state).

(** A pipeline whose cache of two entries is full. *)
Definition full_cache : State :=
  after_calls ascii_lower ascii_digit identity_digest small_config
              [ask 0 7 revenue_question; ask 5000000 7 (lit "How many stores?")]
              initial_state.

Definition staff_question : pystr := lit "How many employees?".

(** The pipeline after a blank question: one result, an empty cache. *)
Definition blank_asked : State :=
  snd (sample_query (env_at 0 7) (Some []) None true true initial_state).

(** The same after its result was written to the cache at time 0 under
    the revenue question. *)
Definition written : State :=
  snd (_set_cache ascii_lower identity_digest default_config (env_at 0 7)
                  revenue_question 0%nat blank_asked).

(** Three writes of the cache, of three results, under three questions. *)
Definition three_writes : list CacheOp :=
  [CacheSet (env_at 1 1) revenue_question (empty_result (env_at 1 1));
   CacheSet (env_at 2 1) staff_question (empty_result (env_at 2 1));
   CacheGet (env_at 3 1) revenue_question;
   CacheSet (env_at 4 1) (lit "How many stores?") (empty_result (env_at 4 1))].

End Samples.

(* ===================================================================== *)
(** ** The vector store ([src/vector_store.py]) *)
(* ===================================================================== *)

Module VectorStore.

Local Open Scope Q_scope.

(** What [search] can raise: [ValueError("DB pas chargée!")], the
    [ZeroDivisionError] of [1.0 / (1.0 + dist)] at a distance of -1, and
    whatever the Chroma collection raises. *)
Inductive Error := DbNotLoaded | ZeroDivisionError | ChromaError.

Inductive Result (A : Type) :=
| Found (a : A)
| Failed (e : Error).
Arguments Found {A} a.
Arguments Failed {A} e.

(** [self.db.similarity_search_with_score]: a query and a count give
    passages with their distances, or raise ([None]). *)
Definition Collection : Type :=
  pystr -> Z -> option (list (Document * Q)).

(** [self.db] is [None] until the collection is loaded. *)
Record Store := mkStore { db : option Collection }.

(** [1.0 / (1.0 + dist)] for every result, in order; the first division
    by zero raises. *)
Fixpoint to_similarities (results : list (Document * Q))
  : Result (list (Document * Q)) :=
  match results with
  | [] => Found []
  | (doc, dist) :: results' =>
      if Qeq_bool (1 + dist) 0 then Failed ZeroDivisionError
      else match to_similarities results' with
           | Found sims => Found ((doc, 1 / (1 + dist)) :: sims)
           | Failed e => Failed e
           end
  end.

(** [k or Config.top_k_retrieval] *)
Definition effective_k (cfg : Config) (k : option Z) : Z :=
  match k with
  | Some k' => if k' =? 0 then top_k_retrieval cfg else k'
  | None => top_k_retrieval cfg
  end.

Definition search (cfg : Config) (store : Store) (query : pystr)
           (k : option Z) : Result (list (Document * Q)) :=
  match db store with
  | None => Failed DbNotLoaded
  | Some similarity_search_with_score =>
      let k := effective_k cfg k in
      match similarity_search_with_score query k with
      | None => Failed ChromaError
      | Some results =>
          match to_similarities results with
          | Found results_sim => Found (Reranker.sort_desc results_sim)
          | Failed e => Failed e
          end
      end
  end.

(** [search] as the pipeline calls it, [self.vector_store.search(q, k=k)],
    its exceptions being those of the pipeline: the [ValueError] is one,
    the others are the pipeline's other exception. *)
Definition as_pipeline_search (cfg : Config) (store : Store)
           (query : pystr) (k : Z) : Res (list (Document * Q)) :=
  match search cfg store query (Some k) with
  | Found results => Ok results
  | Failed DbNotLoaded => Raise ValueError
  | Failed _ => Raise RetrievalError
  end.

(** Distances that do not decrease, as a nearest-first collection
    returns them. *)
Definition nearest_first (results : list (Document * Q)) : Prop :=
  StronglySorted (fun a b => snd a <= snd b) results.

End VectorStore.

(* ===================================================================== *)
(** ** The PDF processor ([src/pdf_processor.py]) *)
(* ===================================================================== *)

Module PDFProcessor.

(** What [process] can raise: the [UnboundLocalError] of a local variable
    read before it is assigned, and whatever the loader raises. *)
Inductive Error := UnboundLocalError | LoaderError.

Inductive Result (A : Type) :=
| Done (a : A)
| Failed (e : Error).
Arguments Done {A} a.
Arguments Failed {A} e.

(** A chunk with the metadata that [process] adds. *)
Record Chunk := mkChunk {
  chunk_text : pystr;
  chunk_page : option Z;
  chunk_id : Z;
  chunk_has_numbers : bool;
  chunk_word_count : Z
}.

(** Reading a local variable of a function: a variable that the function
    assigns somewhere is local from the start, and unbound ([None]) until
    its first assignment is executed. *)
Definition read_local {A} (x : option A) : Result A :=
  match x with
  | Some v => Done v
  | None => Failed UnboundLocalError
  end.

(** [re.sub(r'\s+', ' ', s)]: every maximal run of white space becomes one
    space. [in_run] tells that the previous code point was white space. *)
Fixpoint collapse_spaces (in_run : bool) (s : pystr) : pystr :=
  match s with
  | [] => []
  | c :: s' =>
      if is_space c
      then if in_run then collapse_spaces true s'
           else 32%N :: collapse_spaces true s'
      else c :: collapse_spaces false s'
  end.

Section WithRuntime.

(** [str.replace], [str.isprintable] on one code point and the class
    [\d] of the Python runtime; the PDF loader and the text splitter of
    LangChain. *)
Variable str_replace : pystr -> pystr -> pystr -> pystr.
Variable is_printable : N -> bool.
Variable is_decimal : N -> bool.
Variable load : unit -> option (list (pystr * option Z)).
Variable split_documents :
  list (pystr * option Z) -> list (pystr * option Z).

(** The cleaning of one page, step 2 of [process]. *)
Definition clean (page_content : pystr) : pystr :=
  let text := collapse_spaces false page_content in
  let text :=
    List.filter (fun c => is_printable c || (c =? 10)%N || (c =? 9)%N) text in
  strip text.

(** The metadata of step 4, for the chunks numbered from [i]. *)
Fixpoint enrich (i : Z) (chunks : list (pystr * option Z)) : list Chunk :=
  match chunks with
  | [] => []
  | (content, page) :: chunks' =>
      {| chunk_text := content;
         chunk_page := page;
         chunk_id := i;
         chunk_has_numbers := List.existsb is_decimal content;
         chunk_word_count := Z.of_nat (length (split content)) |}
      :: enrich (i + 1) chunks'
  end.

(** [process]. [text] is a local variable of the function, assigned in
    the cleaning loop, and the first two statements read it before any
    assignment. *)
Definition process : Result (list Chunk) :=
  let text : option pystr := None in
  match read_local text with
  | Failed e => Failed e
  | Done t =>
      let text := Some (str_replace t (lit "EUR millions") (lit "EUR million")) in
      match read_local text with
      | Failed e => Failed e
      | Done t =>
          let text := Some (str_replace t euro (lit " EUR ")) in
          match load tt with
          | None => Failed LoaderError
          | Some pages =>
              let cleaned :=
                List.map (fun page => (clean (fst page), snd page)) pages in
              let chunks := split_documents cleaned in
              Done (enrich 0 chunks)
          end
      end
  end.

(** [VectorStore.create(force)]: nothing when the database exists and
    [force] is not set; otherwise the PDF is processed, and the chunks
    go to Chroma ([Done] of them stands for the database built). *)
Definition create (exists_db force : bool) : Result (option (list Chunk)) :=
  if exists_db && negb force then Done None
  else match process with
       | Done docs => Done (Some docs)
       | Failed e => Failed e
       end.

(** The start of [RAGPipeline.__init__]: the database is created when
    it does not exist. *)
Definition pipeline_init (exists_db : bool)
  : Result (option (list Chunk)) :=
  if negb exists_db then create exists_db false else Done None.

End WithRuntime.

End PDFProcessor.

(* ===================================================================== *)
(** ** The language-model client ([src/llm_client.py]) *)
(* ===================================================================== *)

Module LLMClient.

Definition fallback : pystr :=
  lit "The answer could not be generated due to a system error. Please try again or refine the question.".

(** [generate]: the content of the model's response, trimmed, or the
    fallback when formatting the prompt or invoking the model raises
    ([None]). *)
Definition generate {Context} (invoke : Context -> pystr -> option pystr)
           (context : Context) (question : pystr) : pystr :=
  match invoke context question with
  | Some content => strip content
  | None => fallback
  end.

End LLMClient.

(* ===================================================================== *)
(** ** The evaluation ([evaluation/metrics.py]) *)
(* ===================================================================== *)

Module Evaluation.

Local Open Scope Q_scope.

(** An item of the golden dataset; [None] is a key that the item does not
    hold. *)
Record Item := mkItem {
  item_question : pystr;
  item_expected_keywords : option (list pystr);
  item_id : option Z;
  item_category : option pystr;
  item_difficulty : option pystr
}.

(** An entry of ["details"]. *)
Record Detail := mkDetail {
  d_id : Z;
  d_question : pystr;
  d_answer : pystr;
  d_category : pystr;
  d_difficulty : pystr;
  d_keyword_match : Q;
  d_latency_ms : Z
}.

(** An entry of ["by_category"] or ["by_difficulty"]. *)
Record Group := mkGroup {
  g_count : Z;
  g_avg_keyword_match : Q;
  g_avg_latency_ms : Q
}.

Record Report := mkReport {
  total_questions : Z;
  avg_keyword_match : Q;
  avg_latency_ms : Q;
  by_category : list (pystr * Group);
  by_difficulty : list (pystr * Group);
  details : list Detail
}.

(** What [evaluate_rag] raises: [FileNotFoundError] for a missing
    dataset, what opening and loading the file raises, what the
    constructor of the pipeline raises, and what a call of [query]
    raises. *)
Inductive Error :=
| FileNotFoundError
| DatasetError
| PipelineError
| QueryError (e : Exn).

(** [evaluate_rag] returns a report, having used a pipeline, or raises. *)
Inductive Outcome :=
| Returned (report : Report) (rag : State)
| Failed (e : Error).

(** The order of Python on strings: code point by code point, a proper
    prefix first. *)
Fixpoint str_leb (a b : pystr) : bool :=
  match a, b with
  | [], _ => true
  | _ :: _, [] => false
  | x :: a', y :: b' =>
      if (x <? y)%N then true
      else if (y <? x)%N then false
      else str_leb a' b'
  end.

Fixpoint insert_str (x : pystr) (l : list pystr) : list pystr :=
  match l with
  | [] => [x]
  | y :: l' => if str_leb x y then x :: l else y :: insert_str x l'
  end.

(** [sorted(set(xs))] *)
Definition sorted_set (xs : list pystr) : list pystr :=
  List.fold_right insert_str [] (to_set xs).

Definition sum_Q (xs : list Q) : Q := List.fold_left Qplus xs 0.
Definition sum_Z (xs : list Z) : Z := List.fold_left Z.add xs 0%Z.

(** One entry of a breakdown: the details that [select] keeps. *)
Definition group_of (select : Detail -> bool) (results : list Detail)
  : Group :=
  let items := List.filter select results in
  let n := inject_Z (Z.of_nat (length items)) in
  {| g_count := Z.of_nat (length items);
     g_avg_keyword_match := sum_Q (List.map d_keyword_match items) / n;
     g_avg_latency_ms :=
       py_round (inject_Z (sum_Z (List.map d_latency_ms items)) / n) 2 |}.

Definition breakdown (field : Detail -> pystr) (results : list Detail)
  : list (pystr * Group) :=
  List.map (fun name =>
              (name, group_of (fun r => pystr_eqb (field r) name) results))
           (sorted_set (List.map field results)).

Section WithRuntime.

Variable lower : pystr -> pystr.
Variable is_decimal : N -> bool.
Variable md5_hexdigest : pystr -> pystr.
Variable cfg : Config.

(** [keyword_match_score] *)
Definition keyword_match_score (answer : option pystr)
           (keywords : list pystr) : Q :=
  let answer_lower := lower (or_empty answer) in
  match keywords with
  | [] => 0
  | _ :: _ =>
      let hits :=
        length (List.filter (fun kw => contains (lower kw) answer_lower)
                            keywords) in
      inject_Z (Z.of_nat hits) / inject_Z (Z.of_nat (length keywords))
  end.

(** The loop of [evaluate_rag]: each item is asked with the cache off,
    from the pipeline that the items before it left; [idx] counts from
    1. The first call that raises ends the evaluation. *)
Fixpoint run_items (idx : Z) (dataset : list (Item * Env))
  : M (list Detail) :=
  match dataset with
  | [] => mret []
  | (item, env) :: dataset' =>
      let question := item_question item in
      let expected_kw :=
        match item_expected_keywords item with
        | Some kws => kws
        | None => []
        end in
      output ← RAGPipeline.query lower is_decimal md5_hexdigest cfg env
                 (Some question) None false true;
      out ← RAGPipeline.load output;
      let km := keyword_match_score (Some (answer out)) expected_kw in
      let result :=
        {| d_id := match item_id item with Some i => i | None => idx end;
           d_question := question;
           d_answer := answer out;
           d_category :=
             match item_category item with
             | Some c => c
             | None => lit "unknown"
             end;
           d_difficulty :=
             match item_difficulty item with
             | Some c => c
             | None => lit "unknown"
             end;
           d_keyword_match := km;
           d_latency_ms := latency_ms out |} in
      results ← run_items (idx + 1) dataset';
      mret (result :: results)
  end.

(** An item whose call cannot raise: its question is blank, or the
    vector store returns for it. *)
Definition answerable (ie : Item * Env) : Prop :=
  strip (item_question (fst ie)) = []
  \/ exists docs_scores,
      search (snd ie) (strip (item_question (fst ie))) (top_k_retrieval cfg)
      = Ok docs_scores.

(** The loop and the aggregates of [evaluate_rag], on the loaded
    dataset, each item with what its call observes, and the new
    pipeline. *)
Definition evaluate_dataset (dataset : list (Item * Env))
  : Res Report * State :=
  let total := Z.of_nat (length dataset) in
  match run_items 1 dataset initial_state with
  | (Raise e, s) => (Raise e, s)
  | (Ok results, s) =>
      let avg_kw :=
        if (total =? 0)%Z then 0
        else sum_Q (List.map d_keyword_match results) / inject_Z total in
      let avg_lat :=
        if (total =? 0)%Z then 0
        else inject_Z (sum_Z (List.map d_latency_ms results))
             / inject_Z total in
      (Ok {| total_questions := total;
             avg_keyword_match := py_round avg_kw 3;
             avg_latency_ms := py_round avg_lat 2;
             by_category := breakdown d_category results;
             by_difficulty := breakdown d_difficulty results;
             details := results |}, s)
  end.

(** [evaluate_rag]. [path_exists] is [dataset_path.exists()];
    [json_load] is what opening and loading the file gives, [None]
    where that raises; [pipeline_built] tells whether [RAGPipeline()]
    returns a new pipeline or raises, as it does where the database
    does not exist yet. *)
Definition evaluate_rag (path_exists : bool)
           (json_load : option (list (Item * Env)))
           (pipeline_built : bool) : Outcome :=
  if negb path_exists then Failed FileNotFoundError
  else match json_load with
       | None => Failed DatasetError
       | Some dataset =>
           if negb pipeline_built then Failed PipelineError
           else match evaluate_dataset dataset with
                | (Ok report, rag) => Returned report rag
                | (Raise e, _) => Failed (QueryError e)
                end
       end.

End WithRuntime.

End Evaluation.

(* ===================================================================== *)
(** ** Calls that do not return from the cache *)
(* ===================================================================== *)

Module Paths.

Import RAGPipeline Runs.

(** [str.encode("utf-8")] returns for the texts that hold no surrogate
    code point (U+D800 to U+DFFF), and raises [UnicodeEncodeError] on the
    others. *)
Definition is_surrogate (c : N) : bool :=
  ((55296 <=? c) && (c <=? 57343))%N.

Definition utf8_encodable (s : pystr) : bool :=
  List.forallb (fun c => negb (is_surrogate c)) s.

Section WithRuntime.

Variable lower : pystr -> pystr.
Variable md5_hexdigest : pystr -> pystr.
Variable cfg : Config.

(** The cache read of a call finds nothing to return: the cache is not
    in use, or it holds no entry for the question, or one that has
    outlived the TTL. *)
Definition no_live_entry (env : Env) (question_clean : pystr)
           (use_cache : bool) (s : State) : Prop :=
  use_cache && enable_cache cfg = true ->
  forall cached ts,
    Dict.get (_get_cache_key lower md5_hexdigest question_clean) (cache s)
    = Some (cached, ts) ->
    seconds (cache_ttl cfg) < now_read env - ts.

(** The key of the question can be computed when the cache is in use:
    [_get_cache_key] encodes the lower-cased, stripped question, which
    raises [UnicodeEncodeError] where it cannot be encoded. With the
    cache off no key is computed. *)
Definition key_computable (question_clean : pystr) (use_cache : bool)
  : Prop :=
  use_cache && enable_cache cfg = true ->
  utf8_encodable (strip (lower question_clean)) = true.

(** The pipeline after a fresh answer: the result and, when the cache is
    written, its copy, stored in [c] under the key of the question. *)
Definition after_fresh (env : Env) (question_clean : pystr) (write : bool)
           (result : QueryResult) (c : Dict.t (ref * Z)) (s : State)
  : State :=
  if write
  then {| heap := (heap s ++ [result]) ++ [result];
          cache := Dict.set (V := ref * Z)
                     (_get_cache_key lower md5_hexdigest question_clean)
                     (length (heap s ++ [result]), now_write env) c;
          metrics := count_fresh (measured env) (metrics s) |}
  else {| heap := heap s ++ [result];
          cache := cache s;
          metrics := count_fresh (measured env) (metrics s) |}.

End WithRuntime.

(** Scores that do not increase down the list of passages... *)
Definition ranked (l : list (Document * Q)) : Prop :=
  StronglySorted (fun a b => (snd b <= snd a)%Q) l.

(** ... and of sources. *)
Definition best_first (l : list Source) : Prop :=
  StronglySorted (fun a b => (src_score b <= src_score a)%Q) l.

End Paths.

(* ===================================================================== *)
(** ** More concrete inputs *)
(* ===================================================================== *)

Module Cases.

Import RAGPipeline Runs Samples.

(** A vector store that finds nothing, and one that fails. *)
Definition empty_search (query : pystr) (k : Z)
  : Res (list (Document * Q)) := Ok [].

Definition failing_search (query : pystr) (k : Z)
  : Res (list (Document * Q)) := Raise RetrievalError.

(** The calls of [Samples.env_at], over another vector store. *)
Definition env_over (search : pystr -> Z -> Res (list (Document * Q)))
           (generate : list ContextBlock -> pystr -> pystr)
           (now ms : Z) : Env :=
  {| t_start := 0; t_end := inject_Z ms / 1000;
     now_read := now; now_stamp := now; now_write := now;
     search := search; generate := generate |}.

(** A configuration whose cache has no room. *)
Definition no_room_config : Config :=
  {| top_k_retrieval := 10; top_k_final := 5;
     enable_cache := true; cache_ttl := 3600; cache_max_size := 0 |}.

(** A configuration with the cache switched off. *)
Definition no_cache_config : Config :=
  {| top_k_retrieval := 10; top_k_final := 5;
     enable_cache := false; cache_ttl := 3600; cache_max_size := 500 |}.

Definition shouted_question : pystr :=
  lit "  WHAT WAS LVMH REVENUE IN 2023?  ".

(** Three passages as the reranker receives them. *)
Definition retrieved : list (Document * Q) :=
  [(doc49, 80 # 100); (doc10, 90 # 100); (doc11, 85 # 100)]%Q.

(** Passages without numbers, for an answer that holds some. *)
Definition plain_passages : list (Document * option Q) :=
  [({| page_content := lit "LVMH is a luxury group.";
       meta_page := Some 3; meta_has_numbers := Some false |},
    Some (90 # 100)%Q);
   ({| page_content := lit "It owns many houses.";
       meta_page := Some 4; meta_has_numbers := None |},
    Some (80 # 100)%Q)].

(** A collection that returns the three documents of the tests nearest
    first, at distances 1/9, 1/4 and 1/2, cut at [k]. *)
Definition sample_collection : VectorStore.Collection :=
  fun query k =>
    Some (slice_to [(doc10, 1 # 9); (doc11, 1 # 4); (doc49, 1 # 2)]%Q k).

Definition sample_store : VectorStore.Store :=
  {| VectorStore.db := Some sample_collection |}.

(** The same distances, farthest first. *)
Definition reversed_collection : VectorStore.Collection :=
  fun query k =>
    Some (slice_to [(doc49, 1 # 2); (doc11, 1 # 4); (doc10, 1 # 9)]%Q k).

(** A call over the sample store. *)
Definition store_env (now ms : Z) : Env :=
  env_over (VectorStore.as_pipeline_search default_config sample_store)
           fake_generate now ms.

(** A language model that fails, and the client over it. *)
Definition failing_model (context : list ContextBlock) (question : pystr)
  : option pystr := None.

Definition failing_model_env (now ms : Z) : Env :=
  env_over fake_search (LLMClient.generate failing_model) now ms.

(** A golden dataset of three questions, two of one category. *)
Definition golden : list (Evaluation.Item * Env) :=
  [({| Evaluation.item_question := revenue_question;
       Evaluation.item_expected_keywords :=
         Some [lit "86,153"; lit "Million"];
       Evaluation.item_id := Some 7;
       Evaluation.item_category := Some (lit "revenue");
       Evaluation.item_difficulty := Some (lit "easy") |},
    env_at 0 7);
   ({| Evaluation.item_question := lit "How many stores?";
       Evaluation.item_expected_keywords := Some [lit "5,000"];
       Evaluation.item_id := None;
       Evaluation.item_category := Some (lit "stores");
       Evaluation.item_difficulty := None |},
    env_at 1000000 9);
   ({| Evaluation.item_question := lit "What was the growth?";
       Evaluation.item_expected_keywords := None;
       Evaluation.item_id := None;
       Evaluation.item_category := Some (lit "revenue");
       Evaluation.item_difficulty := Some (lit "easy") |},
    env_at 2000000 8)].

End Cases.

(* ===================================================================== *)
(** ** The reranker in binary64 ([src/reranker.py]) *)
(* ===================================================================== *)

(** [Reranker] with the arithmetic of Python: every weight and bonus is the
    float of its literal, and every operation is rounded. *)
Module RerankerF64.

Local Open Scope Q_scope.

Definition sim_weight : Q := F64.nearest (6 # 10).
Definition keyword_weight : Q := F64.nearest (2 # 10).
Definition length_weight : Q := F64.nearest (1 # 10).
Definition financial_weight : Q := F64.nearest (1 # 10).

Section WithLower.

Variable lower : pystr -> pystr.

Definition keyword_score (query_words : list pystr) (text : pystr) : Q :=
  let doc_words := to_set (split text) in
  match query_words with
  | [] => 0
  | _ => F64.true_div (Z.of_nat (length (inter query_words doc_words)))
                      (Z.of_nat (length query_words))
  end.

Definition length_score (doc : Document) : Q :=
  let wc := Z.of_nat (length (split (page_content doc))) in
  F64.div 1 (F64.add 1 (F64.true_div (Z.abs (wc - 200)) 200)).

Definition financial_boost (doc : Document) (text : pystr) : Q :=
  let financial_boost := 0 in
  let financial_boost :=
    if List.existsb (fun k => contains k text) Reranker.financial_terms
    then F64.add financial_boost (F64.nearest (15 # 100))
    else financial_boost in
  let financial_boost :=
    if default false (meta_has_numbers doc)
    then F64.add financial_boost (F64.nearest (10 # 100))
    else financial_boost in
  financial_boost.

(** The body of the loop: one passage rescored. The sum is taken from
    the left. *)
Definition rescore (query_words : list pystr) (ds : Document * Q)
  : Document * Q :=
  let '(doc, sim_score) := ds in
  let text := lower (page_content doc) in
  let final_score :=
    F64.add
      (F64.add
         (F64.add (F64.mul sim_weight sim_score)
                  (F64.mul keyword_weight (keyword_score query_words text)))
         (F64.mul length_weight (length_score doc)))
      (F64.mul financial_weight (financial_boost doc text)) in
  (doc, final_score).

Definition rerank (query : pystr) (docs_scores : list (Document * Q))
           (top_k : Z) : list (Document * Q) :=
  let query_lower := lower query in
  let query_words := to_set (split query_lower) in
  let rescored :=
    List.fold_left (fun rescored ds => rescored ++ [rescore query_words ds])
                   docs_scores [] in
  slice_to (Reranker.sort_desc rescored) top_k.

End WithLower.

End RerankerF64.

(* ===================================================================== *)
(** ** The confidence scorer and the metrics in binary64
       ([src/rag_pipeline.py]) *)
(* ===================================================================== *)

Module PipelineF64.

Import RAGPipeline.
Local Open Scope Q_scope.

(** One of the four checks: add [gain], or append [why]. *)
Definition check (cond : bool) (gain : Q) (why : Reason)
           (acc : Q * list Reason) : Q * list Reason :=
  if cond then (F64.add (fst acc) gain, snd acc)
  else (fst acc, snd acc ++ [why]).

Section WithDigits.

Variable is_decimal : N -> bool.

Definition _compute_confidence
           (docs_scores : list (Document * option Q))
           (answer : option pystr) : Confidence :=
  match docs_scores with
  | [] => {| level := LOW; score := 0; reasons := [NO_SOURCES] |}
  | _ :: _ =>
      let scores := omap snd docs_scores in
      match scores with
      | [] => {| level := LOW; score := 0; reasons := [NO_SCORES] |}
      | s0 :: rest =>
          let top := py_max s0 rest in
          let avg := F64.mean scores in
          let has_numbers_answer :=
            List.existsb is_decimal (or_empty answer) in
          let numeric_chunks :=
            length (List.filter (fun ds => has_numbers (fst ds)) docs_scores) in
          let unique_pages :=
            length (List.nodup option_Z_eq_dec
                      (List.map (fun ds => meta_page (fst ds)) docs_scores)) in
          let acc := (0, []) in
          let acc := check (Qle_bool (F64.nearest (55 # 100)) top)
                           (F64.nearest (40 # 100))
                           LOW_TOP_SIMILARITY acc in
          let acc := check (Qle_bool (F64.nearest (45 # 100)) avg)
                           (F64.nearest (20 # 100))
                           LOW_AVG_SIMILARITY acc in
          let acc := check (2 <=? unique_pages)%nat
                           (F64.nearest (15 # 100))
                           SINGLE_PAGE_EVIDENCE acc in
          let acc := check (2 <=? numeric_chunks)%nat
                           (F64.nearest (15 # 100))
                           LOW_NUMERIC_EVIDENCE acc in
          let acc :=
            if has_numbers_answer && (numeric_chunks =? 0)%nat
            then (F64.sub (fst acc) (F64.nearest (20 # 100)),
                  snd acc ++ [ANSWER_HAS_NUMBERS_WITHOUT_SUPPORT])
            else acc in
          let score := py_max2 0 (py_min2 1 (fst acc)) in
          let level :=
            if Qle_bool (F64.nearest (75 # 100)) score then HIGH
            else if Qle_bool (F64.nearest (50 # 100)) score then MEDIUM
            else LOW in
          {| level := level; score := F64.py_round score 3;
             reasons := snd acc |}
      end
  end.

End WithDigits.

(** [get_metrics]: the quotients are those of two integers, rounded to
    the nearest float, and [round] works on that float. *)
Definition get_metrics (s : State) : MetricsReport :=
  let m := metrics s in
  let tq := total_queries m in
  let uq := uncached_queries m in
  let avg_e2e :=
    if (tq =? 0)%Z then None
    else Some (F64.true_div (total_latency_ms_e2e m) tq) in
  let avg_uncached :=
    if (uq =? 0)%Z then None
    else Some (F64.true_div (total_latency_ms_uncached m) uq) in
  let cache_rate :=
    if (tq =? 0)%Z then 0
    else F64.true_div (cache_hits m) tq in
  {| r_total_queries := tq;
     r_cache_hits := cache_hits m;
     r_cache_hit_rate := F64.py_round cache_rate 3;
     r_avg_latency_e2e_ms := option_map (fun x => F64.py_round x 2) avg_e2e;
     r_avg_latency_uncached_ms :=
       option_map (fun x => F64.py_round x 2) avg_uncached;
     r_cache_size := Z.of_nat (length (cache s)) |}.

End PipelineF64.

(* ===================================================================== *)
(** ** The reranker and the scorer in words *)
(* ===================================================================== *)

(** The two functions as their descriptions read once the arithmetic is
    named: sets of words, the list of financial terms, the largest score
    and the mean, with sums and quotients in binary64. Nothing here is
    taken from the definitions above. *)
Module SpecF64.

Local Open Scope Q_scope.

(** [w] is one of [ws]. *)
Definition occurs (w : pystr) (ws : list pystr) : bool :=
  if List.in_dec pystr_eq_dec w ws then true else false.

(** The terms of the financial boost. *)
Definition financialTerms : list pystr :=
  [lit "revenue"; lit "net sales"; lit "sales"; lit "eur"; [8364%N];
   lit "million"; lit "billion"].

Section WithLower.

Variable lower : pystr -> pystr.

(** Case-folded whitespace tokenisation: the distinct words. *)
Definition words (s : pystr) : list pystr :=
  List.nodup pystr_eq_dec (split (lower s)).

(** [|queryWords ∩ passageWords| / |queryWords|], 0 when the query has
    no words. *)
Definition keywordOverlap (query : pystr) (passage : Document) : Q :=
  let queryWords := words query in
  let passageWords := words (page_content passage) in
  let shared := List.filter (fun w => occurs w passageWords) queryWords in
  match queryWords with
  | [] => 0
  | _ :: _ => F64.true_div (Z.of_nat (length shared))
                           (Z.of_nat (length queryWords))
  end.

Definition wordCount (passage : Document) : Z :=
  Z.of_nat (length (split (page_content passage))).

(** [1 / (1 + |wordCount − 200| / 200)] *)
Definition lengthFit (passage : Document) : Q :=
  F64.div 1 (F64.add 1 (F64.true_div (Z.abs (wordCount passage - 200)) 200)).

Definition mentions_finance (passage : Document) : bool :=
  List.existsb (fun term => contains term (lower (page_content passage)))
               financialTerms.

Definition flagged_has_numbers (passage : Document) : bool :=
  match meta_has_numbers passage with
  | Some true => true
  | _ => false
  end.

(** 0.15 for a financial term, plus 0.10 for [hasNumbers]. *)
Definition financialBoost (passage : Document) : Q :=
  F64.add (if mentions_finance passage then F64.nearest (15 # 100) else 0)
          (if flagged_has_numbers passage then F64.nearest (10 # 100)
           else 0).

(** [0.6*similarity + 0.2*keywordOverlap + 0.1*lengthFit
     + 0.1*financialBoost], summed from the left. *)
Definition finalScore (query : pystr) (passage : Document)
           (similarity : Q) : Q :=
  F64.add
    (F64.add
       (F64.add (F64.mul (F64.nearest (6 # 10)) similarity)
                (F64.mul (F64.nearest (2 # 10))
                         (keywordOverlap query passage)))
       (F64.mul (F64.nearest (1 # 10)) (lengthFit passage)))
    (F64.mul (F64.nearest (1 # 10)) (financialBoost passage)).

Definition rescored (query : pystr) (scoredPassages : list (Document * Q))
  : list (Document * Q) :=
  List.map (fun ps => (fst ps, finalScore query (fst ps) (snd ps)))
           scoredPassages.

End WithLower.

(** [max(scores)]: the largest of a score and those after it. *)
Fixpoint maximum (x : Q) (xs : list Q) : Q :=
  match xs with
  | [] => x
  | y :: ys => let m := maximum y ys in if Qle_bool m x then x else m
  end.

(** [mean(scores)]: the float nearest to the sum over the count. *)
Definition mean (xs : list Q) : Q :=
  F64.nearest (List.fold_right Qplus 0 xs / inject_Z (Z.of_nat (length xs))).

(** A check adds the float of its amount when its condition holds. *)
Definition gain (cond : bool) (amount : Q) (sum : Q) : Q :=
  if cond then F64.add sum (F64.nearest amount) else sum.

Definition penalty (cond : bool) (amount : Q) (sum : Q) : Q :=
  if cond then F64.sub sum (F64.nearest amount) else sum.

Definition clamp01 (x : Q) : Q :=
  if Qlt_le_dec x 0 then 0 else if Qlt_le_dec 1 x then 1 else x.

Definition level_of (s : Q) : Level :=
  if Qle_bool (F64.nearest (75 # 100)) s then HIGH
  else if Qle_bool (F64.nearest (50 # 100)) s then MEDIUM
  else LOW.

Definition distinct_pages (passages : list (Document * option Q)) : nat :=
  length (List.nodup (fun a b : option Z => decide (a = b))
            (List.map (fun p => meta_page (fst p)) passages)).

Definition numeric_passages (passages : list (Document * option Q)) : nat :=
  length (List.filter (fun p => flagged_has_numbers (fst p)) passages).

Section WithDigits.

Variable is_decimal : N -> bool.

Definition confidence (passages : list (Document * option Q))
           (answerText : pystr) : Confidence :=
  match passages, omap snd passages with
  | [], _ => {| level := LOW; score := 0; reasons := [NO_SOURCES] |}
  | _, [] => {| level := LOW; score := 0; reasons := [NO_SCORES] |}
  | _, s0 :: rest =>
      let top_ok := Qle_bool (F64.nearest (55 # 100)) (maximum s0 rest) in
      let avg_ok := Qle_bool (F64.nearest (45 # 100)) (mean (s0 :: rest)) in
      let pages_ok := (2 <=? distinct_pages passages)%nat in
      let numeric_ok := (2 <=? numeric_passages passages)%nat in
      let unsupported :=
        List.existsb is_decimal answerText
        && (numeric_passages passages =? 0)%nat in
      let raw :=
        penalty unsupported (20 # 100)
          (gain numeric_ok (15 # 100)
             (gain pages_ok (15 # 100)
                (gain avg_ok (20 # 100)
                   (gain top_ok (40 # 100) 0)))) in
      {| level := level_of (clamp01 raw);
         score := F64.py_round (clamp01 raw) 3;
         reasons :=
           SpecConfidence.unless top_ok LOW_TOP_SIMILARITY
           ++ SpecConfidence.unless avg_ok LOW_AVG_SIMILARITY
           ++ SpecConfidence.unless pages_ok SINGLE_PAGE_EVIDENCE
           ++ SpecConfidence.unless numeric_ok LOW_NUMERIC_EVIDENCE
           ++ SpecConfidence.unless (negb unsupported)
                ANSWER_HAS_NUMBERS_WITHOUT_SUPPORT |}
  end.

End WithDigits.

End SpecF64.

(* ===================================================================== *)
(** ** Inputs at the edge of the arithmetic *)
(* ===================================================================== *)

Module Edges.

Local Open Scope Q_scope.

Definition passage (text : string) : Document :=
  {| page_content := lit text; meta_page := None;
     meta_has_numbers := None |}.

(** Two passages that the exact weighted sum ties, at 58831/198500, for
    the query [a b c d e]. *)
Definition tied : list (Document * Q) :=
  [(passage "x y z", 41 # 100); (passage "a b c", 21 # 100)].

(** The floats of a list of similarities. *)
Definition floats (docs_scores : list (Document * Q))
  : list (Document * Q) :=
  List.map (fun ds => (fst ds, F64.nearest (snd ds))) docs_scores.

(** The float 0.45 and the float just below it. *)
Definition f045 : Q := F64.nearest (45 # 100).
Definition below_f045 : Q := f045 - F64.pow2 (-54).

(** Three passages whose exact mean lies below 0.45 and whose binary64
    mean is the float 0.45. *)
Definition near_045 : list (Document * option Q) :=
  [(passage "a", Some below_f045); (passage "b", Some f045);
   (passage "c", Some f045)].

(** A pipeline that has answered 79 questions afresh and 1 from the
    cache. *)
Definition eighty : State :=
  {| heap := []; cache := [];
     metrics := {| total_queries := 80; cache_hits := 1;
                   total_latency_ms_e2e := 800;
                   total_latency_ms_uncached := 790;
                   uncached_queries := 79 |} |}.

End Edges.

(* ===================================================================== *)
(** * Properties *)
(* ===================================================================== *)

(** ** The reranker *)

Module RerankerFacts.

Import Reranker Spec.
Local Open Scope Q_scope.

Section Sorting.
Context {A : Type}.
Implicit Types (x y : A * Q) (l : list (A * Q)).

Lemma insert_desc_perm x l : Permutation (insert_desc x l) (x :: l).
Proof.
  induction l as [|y l IH]; simpl; [reflexivity|].
  destruct (Qlt_le_dec (snd x) (snd y)); [|reflexivity].
  rewrite IH. apply perm_swap.
Qed.

Lemma sort_desc_perm l : Permutation (sort_desc l) l.
Proof.
  induction l as [|x l IH]; simpl; [reflexivity|].
  rewrite insert_desc_perm. now constructor.
Qed.

Lemma insert_desc_descending x l :
  descending l -> descending (insert_desc x l).
Proof.
  unfold descending.
  induction l as [|y l IH]; simpl; intros Hl.
  - repeat constructor.
  - apply StronglySorted_inv in Hl as [Hl Hy].
    destruct (Qlt_le_dec (snd x) (snd y)) as [Hlt|Hle].
    + constructor; [now apply IH|].
      eapply Permutation_Forall; [symmetry; apply insert_desc_perm|].
      constructor; [now apply Qlt_le_weak|assumption].
    + constructor; [now constructor|].
      constructor; [assumption|].
      eapply List.Forall_impl; [|exact Hy].
      intros z Hz. simpl in Hz. now apply Qle_trans with (snd y).
Qed.

Lemma sort_desc_descending l : descending (sort_desc l).
Proof.
  induction l as [|x l IH]; simpl.
  - constructor.
  - now apply insert_desc_descending.
Qed.






Lemma firstn_incl {B} n (l : list B) z : In z (firstn n l) -> In z l.
Proof.
  revert n. induction l as [|x l IH]; intros [|n]; simpl; try tauto.
  intros [->|Hz]; [now left|right; eauto].
Qed.

Lemma descending_firstn n l : descending l -> descending (firstn n l).
Proof.
  unfold descending. revert n.
  induction l as [|x l IH]; intros [|n] Hl; simpl; try constructor.
  - apply IH. now apply StronglySorted_inv in Hl.
  - apply StronglySorted_inv in Hl as [_ Hx].
    rewrite List.Forall_forall in *. intros y Hy. apply Hx.
    eapply firstn_incl; eauto.
Qed.

End Sorting.

Lemma fold_left_append {B C} (f : B -> C) (l : list B) (acc : list C) :
  List.fold_left (fun acc b => acc ++ [f b]) l acc = acc ++ List.map f l.
Proof.
  revert acc. induction l as [|b l IH]; intros acc; simpl.
  - now rewrite app_nil_r.
  - rewrite IH. now rewrite <- app_assoc.
Qed.

Lemma Qdiv_nonneg (a b : Q) : 0 <= a -> 0 <= b -> 0 <= a / b.
Proof.
  intros Ha Hb. unfold Qdiv.
  apply Qmult_le_0_compat; [assumption|now apply Qinv_le_0_compat].
Qed.

Lemma inject_nat_nonneg (n : nat) : 0 <= inject_Z (Z.of_nat n).
Proof. unfold Qle. simpl. lia. Qed.

Section WithLower.

Variable lower : pystr -> pystr.

Lemma keyword_score_spec query doc :
  keyword_score (to_set (split (lower query))) (lower (page_content doc))
  = keywordOverlap lower query doc.
Proof.
  unfold keyword_score, keywordOverlap, words.
  now destruct (to_set (split (lower query))).
Qed.

Lemma length_score_spec doc : length_score doc = lengthFit doc.
Proof. reflexivity. Qed.

Lemma financial_boost_spec doc :
  financial_boost doc (lower (page_content doc)) = financialBoost lower doc.
Proof.
  unfold financial_boost, financialBoost, mentions_finance,
    RAGPipeline.has_numbers.
  destruct (List.existsb _ _), (default false _); reflexivity.
Qed.

(** The loop body computes the specification's weighted sum. *)
Lemma rescore_spec query ds :
  rescore lower (to_set (split (lower query))) ds
  = (fst ds, finalScore lower query (fst ds) (snd ds)).
Proof.
  destruct ds as [doc sim]. unfold rescore, finalScore. simpl.
  now rewrite keyword_score_spec, length_score_spec, financial_boost_spec.
Qed.

Lemma rerank_unfold query docs_scores top_k :
  rerank lower query docs_scores top_k
  = slice_to (sort_desc (rescored lower query docs_scores)) top_k.
Proof.
  unfold rerank, rescored. rewrite fold_left_append. simpl.
  do 2 f_equal. apply List.map_ext. intros ds. apply rescore_spec.
Qed.

Lemma financialBoost_le doc : financialBoost lower doc <= 25 # 100.
Proof.
  unfold financialBoost.
  destruct (mentions_finance _ _), (RAGPipeline.has_numbers _);
    vm_compute; discriminate.
Qed.

Lemma keywordOverlap_nonneg query doc : 0 <= keywordOverlap lower query doc.
Proof.
  unfold keywordOverlap.
  destruct (length (words lower query) =? 0)%nat; [apply Qle_refl|].
  apply Qdiv_nonneg; apply inject_nat_nonneg.
Qed.

Lemma lengthFit_nonneg doc : 0 <= lengthFit doc.
Proof.
  unfold lengthFit. apply Qdiv_nonneg; [discriminate|].
  assert (0 <= inject_Z (Z.abs (wordCount doc - 200)) / 200).
  { apply Qdiv_nonneg; [|discriminate].
    unfold Qle. simpl. lia. }
  lra.
Qed.

Lemma financialBoost_nonneg doc : 0 <= financialBoost lower doc.
Proof.
  unfold financialBoost.
  destruct (mentions_finance _ _), (RAGPipeline.has_numbers _);
    vm_compute; discriminate.
Qed.

Lemma keywordOverlap_le_1 query doc : keywordOverlap lower query doc <= 1.
Proof.
  unfold keywordOverlap.
  destruct (length (words lower query) =? 0)%nat eqn:E; [discriminate|].
  apply Nat.eqb_neq in E.
  apply Qle_shift_div_r.
  - unfold Qlt. simpl. lia.
  - rewrite Qmult_1_l. rewrite <- Zle_Qle. apply inj_le.
    unfold inter. apply List.filter_length_le.
Qed.

Lemma lengthFit_le_1 doc : lengthFit doc <= 1.
Proof.
  unfold lengthFit.
  assert (H : 0 <= inject_Z (Z.abs (wordCount doc - 200)) / 200).
  { apply Qdiv_nonneg; [|discriminate]. unfold Qle. simpl. lia. }
  apply Qle_shift_div_r; lra.
Qed.

(** A similarity within [0, 1] gives a final score within [0, 0.925]:
    the boost weighs 0.1 and is at most 0.25. *)
Lemma finalScore_range query doc similarity :
  0 <= similarity <= 1 ->
  0 <= finalScore lower query doc similarity <= 925 # 1000.
Proof.
  intros [H0 H1]. unfold finalScore.
  pose proof (keywordOverlap_nonneg query doc).
  pose proof (keywordOverlap_le_1 query doc).
  pose proof (lengthFit_nonneg doc).
  pose proof (lengthFit_le_1 doc).
  pose proof (financialBoost_nonneg doc).
  pose proof (financialBoost_le doc).
  split; lra.
Qed.


End WithLower.


End RerankerFacts.

(** ** Rounding *)

Module NumFacts.

Local Open Scope Q_scope.

Lemma round_half_even_bounds x :
  (Qfloor x <= round_half_even x <= Qfloor x + 1)%Z.
Proof.
  unfold round_half_even.
  destruct (Qcompare _ _); [destruct (Z.even _)| |]; lia.
Qed.

Lemma round_half_even_mono x y :
  x <= y -> (round_half_even x <= round_half_even y)%Z.
Proof.
  intros Hxy. pose proof (Qfloor_resp_le _ _ Hxy) as Hf.
  destruct (Z.eq_dec (Qfloor x) (Qfloor y)) as [Heq|Hne].
  - unfold round_half_even. rewrite <- Heq.
    set (f := Qfloor x).
    assert (Hr : x - inject_Z f <= y - inject_Z f) by lra.
    destruct (Qcompare (x - inject_Z f) (1 # 2)) eqn:Ex;
      destruct (Qcompare (y - inject_Z f) (1 # 2)) eqn:Ey;
      try (destruct (Z.even f)); try lia; exfalso;
      repeat match goal with
             | H : Qcompare _ _ = Eq |- _ => apply Qeq_alt in H
             | H : Qcompare _ _ = Lt |- _ => apply Qlt_alt in H
             | H : Qcompare _ _ = Gt |- _ => apply Qgt_alt in H
             end; lra.
  - pose proof (round_half_even_bounds x).
    pose proof (round_half_even_bounds y). lia.
Qed.

Lemma round_half_even_integer (z : Z) : round_half_even (inject_Z z) = z.
Proof.
  unfold round_half_even. rewrite Qfloor_Z.
  assert (H : inject_Z z - inject_Z z == 0) by ring.
  destruct (Qcompare _ _) eqn:E; [apply Qeq_alt in E|reflexivity
                                  |apply Qgt_alt in E];
    rewrite H in E; vm_compute in E; discriminate E.
Qed.

Lemma pow10_pos (n : nat) : 0 < inject_Z (10 ^ Z.of_nat n).
Proof.
  replace 0 with (inject_Z 0) by reflexivity. rewrite <- Zlt_Qlt.
  apply Z.pow_pos_nonneg; lia.
Qed.

(** [round] is monotone. *)
Lemma py_round_mono x y n : x <= y -> py_round x n <= py_round y n.
Proof.
  intros Hxy. unfold py_round. pose proof (pow10_pos n) as Hp.
  apply Qmult_le_compat_r.
  - rewrite <- Zle_Qle. apply round_half_even_mono.
    apply Qmult_le_compat_r; [exact Hxy|now apply Qlt_le_weak].
  - apply Qlt_le_weak. now apply Qinv_lt_0_compat.
Qed.

(** [round] leaves an integer as it is. *)
Lemma py_round_integer (z : Z) n : py_round (inject_Z z) n == inject_Z z.
Proof.
  unfold py_round. pose proof (pow10_pos n) as Hp.
  rewrite <- inject_Z_mult, round_half_even_integer, inject_Z_mult.
  field. intros H0. rewrite H0 in Hp. now apply Qlt_irrefl in Hp.
Qed.

Lemma py_round_unit x n : 0 <= x <= 1 -> 0 <= py_round x n <= 1.
Proof.
  intros [H0 H1]. split.
  - rewrite <- (py_round_integer 0 n). now apply py_round_mono.
  - rewrite <- (py_round_integer 1 n). now apply py_round_mono.
Qed.

End NumFacts.

(** ** The reranker: what it returns *)

Module RerankerRange.

Import Reranker Spec RerankerFacts.
Local Open Scope Q_scope.

Lemma slice_to_split {B} (l : list B) (k : Z) :
  exists n, slice_to l k = firstn n l
            /\ n = (if (0 <=? k)%Z then Z.to_nat k
                    else (length l - Z.to_nat (- k))%nat).
Proof.
  unfold slice_to. destruct (0 <=? k)%Z; eexists; split; reflexivity.
Qed.

Lemma map_fst_rescored lower query (docs : list (Document * Q)) :
  List.map fst (rescored lower query docs) = List.map fst docs.
Proof.
  unfold rescored. rewrite List.map_map. now apply List.map_ext.
Qed.

(** [X1] Whatever the query and [top_k], when every retrieved similarity
    lies in [0, 1] every score that [rerank] returns lies in
    [0, 0.925]: the keyword, length and financial parts add at most
    0.325 to 0.6 times the similarity. *)
Theorem rerank_scores_stay_in_range
        (lower : pystr -> pystr) (query : pystr)
        (docs_scores : list (Document * Q)) (top_k : Z) :
  List.Forall (fun ds => 0 <= snd ds <= 1) docs_scores ->
  List.Forall (fun ds => 0 <= snd ds <= 925 # 1000)
              (rerank lower query docs_scores top_k).
Proof.
  intros Hin. rewrite rerank_unfold.
  destruct (slice_to_split (sort_desc (rescored lower query docs_scores))
                           top_k) as (n & -> & _).
  rewrite List.Forall_forall in *. intros ds Hds.
  apply firstn_incl in Hds.
  apply (Permutation_in _ (sort_desc_perm _)) in Hds.
  unfold rescored in Hds. apply List.in_map_iff in Hds.
  destruct Hds as (ps & <- & Hps). cbn [snd].
  apply finalScore_range. now apply Hin.
Qed.

(** [X2] [rerank] returns passages of its input and nothing else: what
    it returns, with the passages it drops, is the input reordered. It
    returns [min top_k n] of the [n] passages for [top_k >= 0], and all
    but the last [-top_k] of the sorted ones for a negative [top_k]. *)
Theorem rerank_returns_passages_of_the_input
        (lower : pystr -> pystr) (query : pystr)
        (docs_scores : list (Document * Q)) (top_k : Z) :
  length (rerank lower query docs_scores top_k)
  = (if (0 <=? top_k)%Z
     then Nat.min (Z.to_nat top_k) (length docs_scores)
     else (length docs_scores - Z.to_nat (- top_k))%nat)
  /\ exists dropped,
       Permutation (List.map fst (rerank lower query docs_scores top_k)
                    ++ dropped)
                   (List.map fst docs_scores).
Proof.
  rewrite rerank_unfold.
  set (sorted := sort_desc (rescored lower query docs_scores)).
  assert (Hlen : length sorted = length docs_scores).
  { unfold sorted. rewrite (Permutation_length (sort_desc_perm _)).
    unfold rescored. apply List.length_map. }
  split.
  - unfold slice_to. destruct (0 <=? top_k)%Z.
    + rewrite List.length_firstn. now rewrite Hlen.
    + rewrite List.length_firstn, Hlen. lia.
  - destruct (slice_to_split sorted top_k) as (n & -> & _).
    exists (List.map fst (skipn n sorted)).
    rewrite <- List.map_app, List.firstn_skipn.
    rewrite <- (map_fst_rescored lower query docs_scores).
    apply Permutation_map. apply sort_desc_perm.
Qed.

End RerankerRange.

(** ** The confidence scorer *)

Module ConfidenceFacts.

Import RAGPipeline SpecConfidence.
Local Open Scope Q_scope.

(** [max] returns an element that no element exceeds. *)
Lemma py_max_ge_acc (xs : list Q) (m : Q) : m <= py_max m xs.
Proof.
  unfold py_max. revert m.
  induction xs as [|y xs IH]; intros m; simpl; [apply Qle_refl|].
  destruct (Qle_bool y m) eqn:E; [apply IH|].
  apply Qle_trans with y; [|apply IH].
  destruct (Qlt_le_dec m y) as [H|H]; [now apply Qlt_le_weak|].
  apply Qle_bool_iff in H. congruence.
Qed.

Lemma py_max_upper (xs : list Q) (m : Q) :
  List.Forall (fun x => x <= py_max m xs) (m :: xs).
Proof.
  constructor; [apply py_max_ge_acc|].
  unfold py_max. revert m.
  induction xs as [|y xs IH]; intros m; simpl; constructor.
  - destruct (Qle_bool y m) eqn:E.
    + apply Qle_bool_iff in E.
      apply Qle_trans with m; [assumption|apply py_max_ge_acc].
    + apply py_max_ge_acc.
  - apply IH.
Qed.

Lemma py_max_in (xs : list Q) (m : Q) : In (py_max m xs) (m :: xs).
Proof.
  unfold py_max. revert m.
  induction xs as [|y xs IH]; intros m; simpl; [now left|].
  destruct (Qle_bool y m).
  - destruct (IH m) as [H|H]; [now left|now right; right].
  - destruct (IH y) as [H|H]; [now right; left|now right; right].
Qed.

(** Python's binary64 additions land on the same side of both level
    thresholds as the exact sums, and within 2^-50 of them: the level and
    the score at three decimals do not depend on the rounding of the
    additions. *)
Lemma binary64_agrees top_ok avg_ok pages_ok numeric_ok unsupported :
  Binary64.level_of
    (Binary64.score top_ok avg_ok pages_ok numeric_ok unsupported)
  = level_of (clamp01 (raw_score top_ok avg_ok pages_ok numeric_ok unsupported))
  /\ Binary64.close
       (Binary64.score top_ok avg_ok pages_ok numeric_ok unsupported)
       (Binary64.of_Q
          (clamp01 (raw_score top_ok avg_ok pages_ok numeric_ok unsupported)))
     = true.
Proof.
  destruct top_ok, avg_ok, pages_ok, numeric_ok, unsupported;
    split; vm_compute; reflexivity.
Qed.

Section WithDigits.

Variable is_decimal : N -> bool.




End WithDigits.


End ConfidenceFacts.

(** ** The confidence scorer: what its outcomes rule out *)

Module ConfidenceLevels.

Import RAGPipeline.
Local Open Scope Q_scope.

(** The outcomes of the scorer: the two early returns, and one outcome
    for each result of the five tests, [numeric] being the count of
    passages with numbers. *)
Lemma compute_confidence_cases
      (is_decimal : N -> bool)
      (docs_scores : list (Document * option Q)) (answer : option pystr)
      (P : Confidence -> Prop) :
  P {| level := LOW; score := 0; reasons := [NO_SOURCES] |} ->
  P {| level := LOW; score := 0; reasons := [NO_SCORES] |} ->
  (forall (top_ok avg_ok pages_ok digits : bool) (numeric : nat),
      let acc := (0, []) in
      let acc := check top_ok (40 # 100) LOW_TOP_SIMILARITY acc in
      let acc := check avg_ok (20 # 100) LOW_AVG_SIMILARITY acc in
      let acc := check pages_ok (15 # 100) SINGLE_PAGE_EVIDENCE acc in
      let acc := check (2 <=? numeric)%nat (15 # 100)
                       LOW_NUMERIC_EVIDENCE acc in
      let acc :=
        if digits && (numeric =? 0)%nat
        then (fst acc - (20 # 100),
              snd acc ++ [ANSWER_HAS_NUMBERS_WITHOUT_SUPPORT])
        else acc in
      let score := py_max2 0 (py_min2 1 (fst acc)) in
      P {| level := if Qle_bool (75 # 100) score then HIGH
                    else if Qle_bool (50 # 100) score then MEDIUM
                    else LOW;
           score := py_round score 3;
           reasons := snd acc |}) ->
  P (_compute_confidence is_decimal docs_scores answer).
Proof.
  intros Hnone Hscores Hcases. unfold _compute_confidence.
  destruct docs_scores as [|ds0 docs_scores]; [exact Hnone|].
  destruct (omap snd (ds0 :: docs_scores)) as [|s0 rest]; [exact Hscores|].
  apply Hcases.
Qed.

Ltac scorer_cases :=
  apply compute_confidence_cases;
  [| |intros [] [] [] [] [|[|numeric]]];
  vm_compute;
  repeat match goal with
         | |- _ /\ _ => split
         | |- _ <-> _ => split
         | |- _ -> _ => intro
         | H : _ \/ _ |- _ => destruct H
         | H : False |- _ => destruct H
         | H : ?a = ?a -> False |- _ => destruct (H eq_refl)
         | H : _ = _ |- _ => discriminate H
         end;
  try solve [reflexivity | lia | auto 8].

(** [X3] An answer with digits over passages that hold no number is never
    rated HIGH: whenever [ANSWER_HAS_NUMBERS_WITHOUT_SUPPORT] is among the
    reasons, [LOW_NUMERIC_EVIDENCE] is too, the score is at most 0.55 and
    the level is MEDIUM or LOW. *)
Theorem unsupported_numbers_never_rate_high
        (is_decimal : N -> bool)
        (docs_scores : list (Document * option Q)) (answer : option pystr) :
  In ANSWER_HAS_NUMBERS_WITHOUT_SUPPORT
     (reasons (_compute_confidence is_decimal docs_scores answer)) ->
  In LOW_NUMERIC_EVIDENCE
     (reasons (_compute_confidence is_decimal docs_scores answer))
  /\ score (_compute_confidence is_decimal docs_scores answer) <= 55 # 100
  /\ level (_compute_confidence is_decimal docs_scores answer) <> HIGH.
Proof.
  pattern (_compute_confidence is_decimal docs_scores answer).
  scorer_cases.
Qed.

(** [X4] A HIGH level means that both similarity checks passed, that the
    penalty did not apply, and that at most one reason is reported: one of
    the page and numeric checks may have failed, not both. *)
Theorem high_level_needs_both_similarity_checks
        (is_decimal : N -> bool)
        (docs_scores : list (Document * option Q)) (answer : option pystr) :
  level (_compute_confidence is_decimal docs_scores answer) = HIGH ->
  ~ In LOW_TOP_SIMILARITY
       (reasons (_compute_confidence is_decimal docs_scores answer))
  /\ ~ In LOW_AVG_SIMILARITY
       (reasons (_compute_confidence is_decimal docs_scores answer))
  /\ ~ In ANSWER_HAS_NUMBERS_WITHOUT_SUPPORT
       (reasons (_compute_confidence is_decimal docs_scores answer))
  /\ (length (reasons (_compute_confidence is_decimal docs_scores answer))
      <= 1)%nat.
Proof.
  pattern (_compute_confidence is_decimal docs_scores answer).
  scorer_cases.
Qed.

(** [X5] The reported score never exceeds 0.9, and the level can be read
    off the reported score: HIGH exactly from 0.75, LOW exactly below
    0.5. *)
Theorem level_agrees_with_reported_score
        (is_decimal : N -> bool)
        (docs_scores : list (Document * option Q)) (answer : option pystr) :
  score (_compute_confidence is_decimal docs_scores answer) <= 9 # 10
  /\ (level (_compute_confidence is_decimal docs_scores answer) = HIGH
      <-> 75 # 100 <= score (_compute_confidence is_decimal docs_scores answer))
  /\ (level (_compute_confidence is_decimal docs_scores answer) = LOW
      <-> score (_compute_confidence is_decimal docs_scores answer) < 50 # 100).
Proof.
  pattern (_compute_confidence is_decimal docs_scores answer).
  scorer_cases.
Qed.

(** [X6] A single passage never rates HIGH: it is one page and at most
    one passage with numbers, so the score is at most 0.6. *)
Theorem single_passage_never_rates_high
        (is_decimal : N -> bool)
        (ds : Document * option Q) (answer : option pystr) :
  score (_compute_confidence is_decimal [ds] answer) <= 6 # 10
  /\ level (_compute_confidence is_decimal [ds] answer) <> HIGH.
Proof.
  unfold _compute_confidence, check.
  destruct ds as [doc [s|]]; cbn [omap]; [|vm_compute; split; discriminate].
  cbn -[py_max py_mean Qle_bool py_round py_max2 py_min2 Qplus Qminus
        has_numbers].
  destruct (Qle_bool (55 # 100) _), (Qle_bool (45 # 100) _),
    (List.existsb _ _), (has_numbers doc);
    cbn [reasons score level fst snd andb app Nat.leb Nat.eqb length];
    vm_compute; split; discriminate.
Qed.

End ConfidenceLevels.

(** ** Evidence and sources *)

Module EvidenceFacts.

Import RAGPipeline.

Lemma lstrip_head s c t : lstrip s = c :: t -> is_space c = false.
Proof.
  induction s as [|a s IH]; simpl; [discriminate|].
  destruct (is_space a) eqn:E; [exact IH|].
  intros [= <- _]. exact E.
Qed.

Lemma lstrip_suffix s : exists dropped, s = dropped ++ lstrip s.
Proof.
  induction s as [|a s [d IH]]; simpl; [now exists []|].
  destruct (is_space a).
  - exists (a :: d). simpl. now f_equal.
  - now exists [].
Qed.

Lemma rstrip_prefix s : exists dropped, s = rstrip s ++ dropped.
Proof.
  unfold rstrip. destruct (lstrip_suffix (List.rev s)) as [d Hd].
  exists (List.rev d).
  rewrite <- List.rev_app_distr, <- Hd. now rewrite List.rev_involutive.
Qed.

Lemma rstrip_last s c : last (rstrip s) = Some c -> is_space c = false.
Proof.
  unfold rstrip. destruct (lstrip (List.rev s)) as [|a t] eqn:E;
    [discriminate|].
  simpl. rewrite last_snoc. intros [= <-]. eapply lstrip_head, E.
Qed.

Lemma strip_length s : (length (strip s) <= length s)%nat.
Proof.
  unfold strip.
  destruct (rstrip_prefix (lstrip s)) as [d1 H1].
  destruct (lstrip_suffix s) as [d2 H2].
  apply (f_equal (@length N)) in H1, H2.
  rewrite length_app in H1, H2. lia.
Qed.

Lemma strip_head s c : head (strip s) = Some c -> is_space c = false.
Proof.
  unfold strip. destruct (rstrip_prefix (lstrip s)) as [d Hd].
  destruct (rstrip (lstrip s)) as [|a t]; [discriminate|].
  intros [= <-]. eapply lstrip_head. exact Hd.
Qed.

Lemma strip_last s c : last (strip s) = Some c -> is_space c = false.
Proof. apply rstrip_last. Qed.

Lemma slice_to_map {A B} (f : A -> B) (l : list A) (k : Z) :
  slice_to (List.map f l) k = List.map f (slice_to l k).
Proof.
  unfold slice_to. rewrite List.length_map.
  destruct (0 <=? k); now rewrite List.firstn_map.
Qed.

Lemma format_sources_length (docs_scores : list (Document * Q)) :
  length (_format_sources docs_scores) = length docs_scores.
Proof. apply List.length_map. Qed.

Lemma build_evidence_length (docs_scores : list (Document * Q)) :
  length (_build_evidence docs_scores 3) = Nat.min 3 (length docs_scores).
Proof.
  unfold _build_evidence. rewrite List.length_map. unfold slice_to.
  cbn [Z.leb Z.compare]. now rewrite List.length_firstn.
Qed.

(** [X7] The sources are the passages in their order, one for one, and
    the evidence is cut from the same list: for every [max_items] its
    pages and scores are those of the first [max_items] sources. With
    the 3 of [_finalize] there are [min 3 n] evidence entries. *)
Theorem evidence_follows_the_sources
        (docs_scores : list (Document * Q)) (max_items : Z) :
  length (_format_sources docs_scores) = length docs_scores
  /\ List.map (fun e => (ev_page e, ev_score e))
              (_build_evidence docs_scores max_items)
     = slice_to (List.map (fun s => (src_page s, src_score s))
                          (_format_sources docs_scores))
                max_items
  /\ length (_build_evidence docs_scores 3)
     = Nat.min 3 (length docs_scores).
Proof.
  split; [apply format_sources_length|].
  split; [|apply build_evidence_length].
  unfold _format_sources, _build_evidence.
  rewrite !List.map_map. cbn [ev_page ev_score src_page src_score].
  now rewrite slice_to_map.
Qed.

(** [X8] A snippet holds at most 240 code points and neither starts nor
    ends with white space; a preview holds at most 153 and always ends
    with the three dots, whether the text was cut or not. *)
Theorem snippets_are_trimmed_and_previews_marked
        (docs_scores : list (Document * Q)) (max_items : Z) :
  List.Forall (fun e =>
                 (length (ev_snippet e) <= 240)%nat
                 /\ (forall c, head (ev_snippet e) = Some c ->
                               is_space c = false)
                 /\ (forall c, last (ev_snippet e) = Some c ->
                               is_space c = false))
              (_build_evidence docs_scores max_items)
  /\ List.Forall (fun s =>
                    (length (src_preview s) <= 153)%nat
                    /\ exists text, src_preview s = text ++ lit "...")
                 (_format_sources docs_scores).
Proof.
  unfold _format_sources, _build_evidence. split.
  - apply List.Forall_forall. intros e He.
    apply List.in_map_iff in He. destruct He as (ds & <- & _).
    cbn [ev_snippet]. split; [|split].
    + etransitivity; [apply strip_length|]. unfold prefix.
      rewrite List.length_firstn. lia.
    + apply strip_head.
    + apply strip_last.
  - apply List.Forall_forall. intros s Hs.
    apply List.in_map_iff in Hs. destruct Hs as (ds & <- & _).
    cbn [src_preview]. split; [|now eexists].
    rewrite length_app. unfold prefix. rewrite List.length_firstn.
    cbn [lit length List.map list_ascii_of_string]. lia.
Qed.

End EvidenceFacts.

(** ** The dictionary and the heap *)

Module DictFacts.

Lemma pystr_eqb_true a b : pystr_eqb a b = true <-> a = b.
Proof. unfold pystr_eqb. destruct (pystr_eq_dec a b); split; congruence. Qed.

Lemma pystr_eqb_refl a : pystr_eqb a a = true.
Proof. now apply pystr_eqb_true. Qed.

Lemma pystr_eqb_false a b : pystr_eqb a b = false <-> a <> b.
Proof. unfold pystr_eqb. destruct (pystr_eq_dec a b); split; congruence. Qed.

Section Dict.
Context {V : Type}.
Implicit Types (d : Dict.t V) (k : pystr) (v : V).

Lemma get_set_eq k v d : Dict.get k (Dict.set k v d) = Some v.
Proof.
  induction d as [|[k' w] d IH]; simpl.
  - now rewrite pystr_eqb_refl.
  - destruct (pystr_eqb k k') eqn:E; simpl; rewrite E; [reflexivity|exact IH].
Qed.

Lemma get_set_ne k k' v d :
  k <> k' -> Dict.get k' (Dict.set k v d) = Dict.get k' d.
Proof.
  intros Hne. induction d as [|[k0 w] d IH]; simpl.
  - destruct (pystr_eqb k' k) eqn:E; [|reflexivity].
    apply pystr_eqb_true in E. congruence.
  - destruct (pystr_eqb k k0) eqn:E; simpl.
    + apply pystr_eqb_true in E. subst k0.
      destruct (pystr_eqb k' k) eqn:E'; [|reflexivity].
      apply pystr_eqb_true in E'. congruence.
    + now rewrite IH.
Qed.

Lemma get_in k v d : Dict.get k d = Some v -> In (k, v) d.
Proof.
  induction d as [|[k' w] d IH]; simpl; [discriminate|].
  destruct (pystr_eqb k k') eqn:E.
  - apply pystr_eqb_true in E. intros [= ->]. subst. now left.
  - intros H. right. now apply IH.
Qed.

Lemma in_keys k v d : In (k, v) d -> In k (Dict.keys d).
Proof. intros H. unfold Dict.keys. apply in_map_iff. now exists (k, v). Qed.

(** With no key twice, an item of the dictionary is what its key gets. *)
Lemma in_get k v d :
  List.NoDup (Dict.keys d) -> In (k, v) d -> Dict.get k d = Some v.
Proof.
  induction d as [|[k' w] d IH]; simpl; intros Hnd; [tauto|].
  apply List.NoDup_cons_iff in Hnd as [Hin Hnd].
  intros [[= -> ->]|H].
  - now rewrite pystr_eqb_refl.
  - destruct (pystr_eqb k k') eqn:E; [|now apply IH].
    apply pystr_eqb_true in E. subst k'.
    exfalso. apply Hin. eapply in_keys; eauto.
Qed.

Lemma get_none_keys k d : Dict.get k d = None <-> ~ In k (Dict.keys d).
Proof.
  induction d as [|[k' w] d IH]; simpl; [tauto|].
  destruct (pystr_eqb k k') eqn:E.
  - apply pystr_eqb_true in E. subst. split; [discriminate|tauto].
  - apply pystr_eqb_false in E. rewrite IH. split; [|tauto].
    intros H [H'|H']; [congruence|tauto].
Qed.

Lemma length_set_le k v d : (length (Dict.set k v d) <= S (length d))%nat.
Proof.
  induction d as [|[k' w] d IH]; simpl; [lia|].
  destruct (pystr_eqb k k'); simpl; lia.
Qed.

Lemma length_del k d :
  length (Dict.del k d)
  = match Dict.get k d with
    | Some _ => pred (length d)
    | None => length d
    end.
Proof.
  induction d as [|[k' w] d IH]; simpl; [reflexivity|].
  destruct (pystr_eqb k k'); simpl; [reflexivity|].
  rewrite IH. destruct (Dict.get k d) eqn:E; [|reflexivity].
  destruct d; [discriminate|reflexivity].
Qed.

Lemma length_del_le k d : (length (Dict.del k d) <= length d)%nat.
Proof. rewrite length_del. destruct (Dict.get k d); lia. Qed.

Lemma keys_del_incl k k' d :
  In k' (Dict.keys (Dict.del k d)) -> In k' (Dict.keys d).
Proof.
  induction d as [|[k0 w] d IH]; simpl; [tauto|].
  destruct (pystr_eqb k k0); simpl; tauto.
Qed.

Lemma NoDup_keys_del k d :
  List.NoDup (Dict.keys d) -> List.NoDup (Dict.keys (Dict.del k d)).
Proof.
  induction d as [|[k0 w] d IH]; simpl; intros Hnd; [constructor|].
  apply List.NoDup_cons_iff in Hnd as [Hin Hnd].
  destruct (pystr_eqb k k0); simpl; [assumption|].
  apply List.NoDup_cons_iff. split; [|now apply IH].
  intros H. apply Hin. eapply keys_del_incl; eauto.
Qed.

(** Once deleted, a key is not in the dictionary. *)
Lemma get_del_eq k d :
  List.NoDup (Dict.keys d) -> Dict.get k (Dict.del k d) = None.
Proof.
  induction d as [|[k0 w] d IH]; simpl; intros Hnd; [reflexivity|].
  apply List.NoDup_cons_iff in Hnd as [Hin Hnd].
  destruct (pystr_eqb k k0) eqn:E; simpl.
  - apply pystr_eqb_true in E. subst. now apply get_none_keys.
  - rewrite E. now apply IH.
Qed.

Lemma get_del_ne k k' d :
  k <> k' -> Dict.get k' (Dict.del k d) = Dict.get k' d.
Proof.
  intros Hne. induction d as [|[k0 w] d IH]; simpl; [reflexivity|].
  destruct (pystr_eqb k k0) eqn:E; simpl.
  - apply pystr_eqb_true in E. subst k0.
    destruct (pystr_eqb k' k) eqn:E'; [|reflexivity].
    apply pystr_eqb_true in E'. congruence.
  - now rewrite IH.
Qed.

Lemma keys_set k v d :
  Dict.keys (Dict.set k v d)
  = match Dict.get k d with
    | Some _ => Dict.keys d
    | None => Dict.keys d ++ [k]
    end.
Proof.
  induction d as [|[k0 w] d IH]; simpl; [reflexivity|].
  destruct (pystr_eqb k k0) eqn:E; simpl; [reflexivity|].
  rewrite IH. now destruct (Dict.get k d).
Qed.

Lemma NoDup_keys_set k v d :
  List.NoDup (Dict.keys d) -> List.NoDup (Dict.keys (Dict.set k v d)).
Proof.
  intros Hnd. rewrite keys_set.
  destruct (Dict.get k d) eqn:E; [assumption|].
  apply get_none_keys in E.
  apply List.NoDup_app; try assumption.
  - repeat constructor. simpl. tauto.
  - intros x Hx [<-|[]]. tauto.
Qed.

Lemma in_set k v k' v' d :
  In (k', v') (Dict.set k v d) -> (k' = k /\ v' = v) \/ In (k', v') d.
Proof.
  induction d as [|[k0 w] d IH]; simpl.
  - intros [[= <- <-]|[]]. now left.
  - destruct (pystr_eqb k k0) eqn:E; simpl.
    + apply pystr_eqb_true in E. subst k0.
      intros [[= <- <-]|H]; [now left|now right; right].
    + intros [H|H]; [now right; left|].
      destruct (IH H) as [H'|H']; [now left|now right; right].
Qed.

Lemma in_del k k' v' d : In (k', v') (Dict.del k d) -> In (k', v') d.
Proof.
  induction d as [|[k0 w] d IH]; simpl; [tauto|].
  destruct (pystr_eqb k k0); simpl; tauto.
Qed.

(** [min] returns the key of an item whose rank no item undercuts. *)
Lemma min_from_spec (rank : V -> Z) best d :
  exists v,
    In (Dict.min_from rank best d, v) (best :: d)
    /\ (rank v <= rank (snd best))%Z
    /\ forall k' v', In (k', v') d -> (rank v <= rank v')%Z.
Proof.
  revert best. induction d as [|[k0 w] d IH]; intros [kb vb]; simpl.
  - exists vb. repeat split; [now left|lia|tauto].
  - destruct (rank w <? rank vb)%Z eqn:E.
    + destruct (IH (k0, w)) as (v & Hin & Hle & Hmin). simpl in *.
      apply Z.ltb_lt in E.
      exists v. repeat split; [tauto|lia|].
      intros k' v' [[= <- <-]|H]; [assumption|eauto].
    + destruct (IH (kb, vb)) as (v & Hin & Hle & Hmin). simpl in *.
      apply Z.ltb_ge in E.
      exists v. repeat split; [tauto|lia|].
      intros k' v' [[= <- <-]|H]; [lia|eauto].
Qed.

Lemma min_key_spec (rank : V -> Z) d oldest :
  Dict.min_key rank d = Some oldest ->
  exists v,
    In (oldest, v) d
    /\ forall k' v', In (k', v') d -> (rank v <= rank v')%Z.
Proof.
  destruct d as [|[kb vb] d]; simpl; [discriminate|].
  intros [= <-].
  destruct (min_from_spec rank (kb, vb) d) as (v & Hin & Hle & Hmin).
  exists v. split; [exact Hin|].
  intros k' v' [[= <- <-]|H]; [exact Hle|eauto].
Qed.

Lemma min_key_get (rank : V -> Z) d oldest :
  Dict.min_key rank d = Some oldest -> Dict.get oldest d <> None.
Proof.
  intros H. destruct (min_key_spec _ _ _ H) as (v & Hin & _).
  intros Hnone. apply get_none_keys in Hnone. apply Hnone.
  unfold Dict.keys. apply in_map_iff. now exists (oldest, v).
Qed.

Lemma min_key_none (rank : V -> Z) d :
  Dict.min_key rank d = None <-> d = [].
Proof. destruct d; simpl; split; congruence. Qed.

End Dict.

Section Heap.
Context {A : Type}.

Lemma lookup_snoc (h : list A) (x : A) : (h ++ [x]) !! length h = Some x.
Proof. induction h; simpl; auto. Qed.

Lemma lookup_snoc_old (h : list A) (x : A) (l : nat) (y : A) :
  h !! l = Some y -> (h ++ [x]) !! l = Some y.
Proof. revert l. induction h; intros [|l]; simpl; try discriminate; auto. Qed.

Lemma insert_snoc (h : list A) (x y : A) :
  <[length h := y]> (h ++ [x]) = h ++ [y].
Proof. induction h; simpl; [reflexivity|]. now f_equal. Qed.

Lemma lookup_valid (h : list A) (l : nat) :
  (l < length h)%nat -> exists y, h !! l = Some y.
Proof.
  revert l. induction h; intros [|l]; simpl; intros H; try lia; eauto.
  apply IHh. lia.
Qed.

Lemma lookup_some_lt (h : list A) (l : nat) (y : A) :
  h !! l = Some y -> (l < length h)%nat.
Proof.
  revert l. induction h; intros [|l]; simpl; try discriminate; try lia.
  intros H. apply IHh in H. lia.
Qed.

End Heap.

End DictFacts.

(** ** The query pipeline *)

Module PipelineFacts.

Import RAGPipeline Runs.

Section WithRuntime.

Variable lower : pystr -> pystr.
Variable is_decimal : N -> bool.
Variable md5_hexdigest : pystr -> pystr.
Variable cfg : Config.

Local Abbreviation query := (query lower is_decimal md5_hexdigest cfg).
Local Abbreviation _get_cache := (_get_cache lower md5_hexdigest cfg).
Local Abbreviation _set_cache := (_set_cache lower md5_hexdigest cfg).

Local Abbreviation key := (_get_cache_key lower md5_hexdigest).
Local Abbreviation insert_copy := (insert_copy lower md5_hexdigest).
Local Abbreviation _finalize := (_finalize lower is_decimal md5_hexdigest cfg).
Local Abbreviation answer_cached := (answer_cached lower md5_hexdigest cfg).
Local Abbreviation answer_uncached :=
  (answer_uncached lower is_decimal md5_hexdigest cfg).

(** [_get_cache], run. *)
Lemma get_cache_run env question s :
  _get_cache env question s
  = match Dict.get (key question) (cache s) with
    | None => (Ok None, s)
    | Some (cached, ts) =>
        if now_read env - ts >? seconds (cache_ttl cfg)
        then (Ok None, with_cache (Dict.del (key question) (cache s)) s)
        else (Ok (Some cached), s)
    end.
Proof.
  unfold RAGPipeline._get_cache. run.
  destruct (Dict.get _ _) as [[cached ts]|]; [|reflexivity].
  destruct (_ >? _); reflexivity.
Qed.

(** [_set_cache], run. *)
Lemma set_cache_run env question result s :
  _set_cache env question result s
  = if cache_max_size cfg <=? Z.of_nat (length (cache s))
    then match Dict.min_key snd (cache s) with
         | None => (Raise ValueError, s)
         | Some oldest_key =>
             insert_copy env question result
                         (Dict.del oldest_key (cache s)) s
         end
    else insert_copy env question result (cache s) s.
Proof.
  unfold RAGPipeline._set_cache, Runs.insert_copy, with_cache. run.
  destruct s as [h c m]. cbn [heap cache metrics].
  destruct (_ <=? _).
  - destruct (Dict.min_key snd c); [|reflexivity].
    cbn [heap cache metrics]. destruct (h !! result); reflexivity.
  - cbn [heap cache metrics]. destruct (h !! result); reflexivity.
Qed.

(** The empty-question path, run. *)
Lemma query_empty env question top_k use_cache use_rerank s :
  strip (or_empty question) = [] ->
  query env question top_k use_cache use_rerank s
  = (Ok (length (heap s)),
     {| heap := heap s ++ [empty_result env];
        cache := cache s;
        metrics := count_fresh (measured env) (metrics s) |}).
Proof.
  intros Hq. unfold RAGPipeline.query. rewrite Hq.
  unfold RAGPipeline._finalize. run. reflexivity.
Qed.

(** [_finalize] for a call that did not return from the cache, run: the
    metrics are counted, the result is allocated and, when the cache may
    be written, a copy of it is stored. *)
Lemma finalize_run env question answer docs_scores allow s :
  _finalize env question answer docs_scores (t_start env) false allow s
  = let result := fresh_result is_decimal env answer docs_scores in
    let s1 := {| heap := heap s ++ [result];
                 cache := cache s;
                 metrics := count_finalize (measured env) (metrics s) |} in
    if allow
    then match _set_cache env question (length (heap s)) s1 with
         | (Ok _, s2) => (Ok (length (heap s)), s2)
         | (Raise e, s2) => (Raise e, s2)
         end
    else (Ok (length (heap s)), s1).
Proof.
  unfold RAGPipeline._finalize. run. cbn [negb andb].
  destruct allow; cbn [andb]; [|reflexivity].
  run. destruct (_set_cache _ _ _ _) as [[[]|e] s2]; reflexivity.
Qed.

(** The cache read of [query], run. *)
Lemma answer_cached_run env question_clean s :
  answer_cached env question_clean (t_start env) s
  = match Dict.get (key question_clean) (cache s) with
    | None => (Ok None, s)
    | Some (cached, ts) =>
        if now_read env - ts >? seconds (cache_ttl cfg)
        then (Ok None,
              with_cache (Dict.del (key question_clean) (cache s)) s)
        else
          let m := add_latency_e2e (measured env)
                                   (incr_cache_hits (metrics s)) in
          match heap s !! cached with
          | Some stored =>
              (Ok (Some (length (heap s))),
               {| heap := heap s ++ [stamped env (measured env) stored];
                  cache := cache s; metrics := m |})
          | None => (Raise ValueError, with_metrics m s)
          end
    end.
Proof.
  unfold RAGPipeline.answer_cached.
  unfold mbind at 1. unfold M_bind, bind. rewrite get_cache_run.
  destruct (Dict.get _ _) as [[cached ts]|]; [|reflexivity].
  destruct (_ >? _); [reflexivity|].
  destruct s as [h c m]. run. unfold with_metrics. cbn [heap cache metrics].
  destruct (h !! cached) as [stored|]; [|reflexivity].
  cbn [heap cache metrics].
  rewrite DictFacts.lookup_snoc. cbn [heap cache metrics].
  rewrite DictFacts.insert_snoc, DictFacts.lookup_snoc.
  cbn [heap cache metrics].
  rewrite DictFacts.insert_snoc, DictFacts.lookup_snoc.
  cbn [heap cache metrics].
  rewrite DictFacts.insert_snoc. reflexivity.
Qed.

(** Retrieval, reranking, generation and finalisation, run. *)
Lemma answer_uncached_run env question_clean top_k use_cache use_rerank s :
  answer_uncached env question_clean top_k use_cache use_rerank
                  (t_start env) s
  = match search env question_clean (retrieval_count cfg top_k) with
    | Raise e => (Raise e, s)
    | Ok docs_scores =>
        _finalize env question_clean
          (final_answer lower cfg env question_clean use_rerank docs_scores)
          (final_passages lower cfg question_clean use_rerank docs_scores)
          (t_start env) false (use_cache && enable_cache cfg) s
    end.
Proof.
  unfold RAGPipeline.answer_uncached, retrieval_count.
  unfold mbind at 1. unfold M_bind, bind, lift.
  destruct (search env _ _) as [[|ds docs]|e]; reflexivity.
Qed.

(** [query] on a question that is not blank, run. *)
Lemma query_run env question top_k use_cache use_rerank s :
  strip (or_empty question) <> [] ->
  query env question top_k use_cache use_rerank s
  = let question_clean := strip (or_empty question) in
    let s0 := with_metrics (incr_total_queries (metrics s)) s in
    if use_cache && enable_cache cfg
    then match answer_cached env question_clean (t_start env) s0 with
         | (Ok (Some out), s1) => (Ok out, s1)
         | (Ok None, s1) =>
             answer_uncached env question_clean top_k use_cache use_rerank
                             (t_start env) s1
         | (Raise e, s1) => (Raise e, s1)
         end
    else answer_uncached env question_clean top_k use_cache use_rerank
                         (t_start env) s0.
Proof.
  intros Hq. unfold RAGPipeline.query.
  destruct (strip (or_empty question)) as [|c0 qc]; [congruence|].
  unfold mbind at 1. unfold M_bind, bind, update_metrics.
  fold (with_metrics (incr_total_queries (metrics s)) s).
  unfold mbind at 1. unfold M_bind, bind.
  destruct (use_cache && enable_cache cfg).
  - destruct (answer_cached _ _ _ _) as [[[out|]|e] s1]; reflexivity.
  - reflexivity.
Qed.

(** A write of the cache that returns: the result was there to be
    copied, the copy is the newest object, and it is stored under the
    key of the question in the cache that remains after the eviction,
    if there was one. *)
Lemma set_cache_ok env question result s s' :
  _set_cache env question result s = (Ok tt, s') ->
  exists c r,
    heap s !! result = Some r
    /\ s' = {| heap := heap s ++ [r];
               cache := Dict.set (V := ref * Z) (key question)
                                 (length (heap s), now_write env) c;
               metrics := metrics s |}
    /\ ((cache_max_size cfg <=? Z.of_nat (length (cache s))) = false
          /\ c = cache s
        \/ exists oldest_key,
            (cache_max_size cfg <=? Z.of_nat (length (cache s))) = true
            /\ Dict.min_key snd (cache s) = Some oldest_key
            /\ c = Dict.del oldest_key (cache s)).
Proof.
  rewrite set_cache_run. unfold Runs.insert_copy.
  destruct (_ <=? _) eqn:Hfull.
  - destruct (Dict.min_key snd (cache s)) as [oldest_key|] eqn:Hmin;
      [|discriminate].
    destruct (heap s !! result) as [r|]; [|discriminate].
    intros [= <-]. exists (Dict.del oldest_key (cache s)), r.
    repeat split. right. now exists oldest_key.
  - destruct (heap s !! result) as [r|]; [|discriminate].
    intros [= <-]. exists (cache s), r. repeat split. now left.
Qed.

(** A write stamps its entry with the clock reading of the write. *)
Lemma set_cache_stamps env_w question result s0 s1 :
  _set_cache env_w question result s0 = (Ok tt, s1) ->
  exists copy,
    Dict.get (key question) (cache s1) = Some (copy, now_write env_w)
    /\ heap s1 !! copy = heap s0 !! result.
Proof.
  intros Hset.
  destruct (set_cache_ok _ _ _ _ _ Hset) as (c & r & Hr & -> & _).
  exists (length (heap s0)). cbn [heap cache].
  split; [apply DictFacts.get_set_eq|].
  now rewrite DictFacts.lookup_snoc.
Qed.

(** C5, as amended. The insertion time T of an entry is the clock
    reading of its write. The entry is served by every read at a time up
    to and including T + TTL, the pipeline being left as it was, and is
    treated as absent, and deleted by that read, at every time strictly
    after T + TTL: the source compares [now - ts > ttl]. *)
Theorem cache_entry_expires_strictly_after_ttl
        env_r question s stored T :
  List.NoDup (Dict.keys (cache s)) ->
  Dict.get (key question) (cache s) = Some (stored, T) ->
  (forall env_w result s0 s1,
      _set_cache env_w question result s0 = (Ok tt, s1) ->
      exists copy,
        Dict.get (key question) (cache s1) = Some (copy, now_write env_w)
        /\ heap s1 !! copy = heap s0 !! result)
  /\ (T + seconds (cache_ttl cfg) < now_read env_r ->
        _get_cache env_r question s
        = (Ok None, with_cache (Dict.del (key question) (cache s)) s)
        /\ Dict.get (key question) (Dict.del (key question) (cache s))
           = None
        /\ S (length (Dict.del (key question) (cache s)))
           = length (cache s))
  /\ (now_read env_r <= T + seconds (cache_ttl cfg) ->
        _get_cache env_r question s = (Ok (Some stored), s)).
Proof.
  intros Hnd Hget.
  split; [intros env_w result s0 s1; apply set_cache_stamps|].
  split.
  - intros Hlate. rewrite get_cache_run, Hget.
    assert (Hgt : (now_read env_r - T >? seconds (cache_ttl cfg)) = true)
      by (apply Z.gtb_lt; lia).
    rewrite Hgt. split; [reflexivity|].
    split; [now apply DictFacts.get_del_eq|].
    rewrite DictFacts.length_del, Hget.
    apply DictFacts.get_in in Hget.
    destruct (cache s); [destruct Hget|reflexivity].
  - intros Hearly. rewrite get_cache_run, Hget.
    assert (Hle : (now_read env_r - T >? seconds (cache_ttl cfg)) = false).
    { rewrite Z.gtb_ltb. apply Z.ltb_ge. lia. }
    now rewrite Hle.
Qed.

(** *** The size of the cache *)

Lemma set_cache_bounded env question result s :
  Z.of_nat (length (cache s)) <= cache_max_size cfg ->
  Z.of_nat (length (cache (snd (_set_cache env question result s))))
  <= cache_max_size cfg.
Proof.
  intros Hs. rewrite set_cache_run. unfold Runs.insert_copy.
  destruct (_ <=? _) eqn:Hfull.
  - destruct (Dict.min_key snd (cache s)) as [oldest_key|] eqn:Hmin;
      [|assumption].
    pose proof (DictFacts.min_key_get _ _ _ Hmin) as Hget.
    pose proof (DictFacts.length_del oldest_key (cache s)) as Hlen.
    destruct (Dict.get oldest_key (cache s)); [|congruence].
    assert (Hpos : (0 < length (cache s))%nat).
    { destruct (cache s); [discriminate|simpl; lia]. }
    destruct (heap s !! result) as [r|];
      cbn [snd with_cache cache].
    + pose proof (DictFacts.length_set_le (V := (ref * Z)%type)
                    (key question)
                    (length (heap s), now_write env)
                    (Dict.del oldest_key (cache s))). lia.
    + lia.
  - apply Z.leb_gt in Hfull.
    destruct (heap s !! result) as [r|];
      cbn [snd with_cache cache]; [|assumption].
    pose proof (DictFacts.length_set_le (V := (ref * Z)%type)
                    (key question)
                  (length (heap s), now_write env) (cache s)). lia.
Qed.

Lemma get_cache_bounded env question s :
  Z.of_nat (length (cache s)) <= cache_max_size cfg ->
  Z.of_nat (length (cache (snd (_get_cache env question s))))
  <= cache_max_size cfg.
Proof.
  intros Hs. rewrite get_cache_run.
  destruct (Dict.get _ _) as [[cached ts]|]; [|assumption].
  destruct (_ >? _); [|assumption].
  cbn [snd with_cache cache].
  pose proof (DictFacts.length_del_le (key question) (cache s)). lia.
Qed.

(** A read or a write of the cache keeps the size under the maximum. *)
Lemma run_op_bounded op s :
  Z.of_nat (length (cache s)) <= cache_max_size cfg ->
  Z.of_nat (length (cache (run_op lower md5_hexdigest cfg op s)))
  <= cache_max_size cfg.
Proof.
  intros Hs. destruct op as [env question|env question result];
    unfold run_op.
  - now apply get_cache_bounded.
  - run. now apply set_cache_bounded.
Qed.

Lemma after_ops_bounded ops s :
  Z.of_nat (length (cache s)) <= cache_max_size cfg ->
  Z.of_nat (length (cache (after_ops lower md5_hexdigest cfg ops s)))
  <= cache_max_size cfg.
Proof.
  revert s. induction ops as [|op ops IH]; intros s Hs; [exact Hs|].
  simpl. apply IH. now apply run_op_bounded.
Qed.

Lemma finalize_bounded env question answer docs_scores allow s :
  Z.of_nat (length (cache s)) <= cache_max_size cfg ->
  Z.of_nat (length (cache (snd (_finalize env question answer docs_scores
                                          (t_start env) false allow s))))
  <= cache_max_size cfg.
Proof.
  intros Hs. rewrite finalize_run. cbv zeta.
  set (s1 := {| heap := heap s ++ _; cache := cache s; metrics := _ |}).
  destruct allow; [|exact Hs].
  pose proof (set_cache_bounded env question (length (heap s)) s1 Hs) as H2.
  destruct (_set_cache _ _ _ s1) as [[[]|e] s2]; exact H2.
Qed.

(** A call of [query] keeps the size of the cache under the maximum. *)
Lemma query_bounded env question top_k use_cache use_rerank s :
  Z.of_nat (length (cache s)) <= cache_max_size cfg ->
  Z.of_nat (length (cache (snd (query env question top_k use_cache
                                      use_rerank s))))
  <= cache_max_size cfg.
Proof.
  intros Hs.
  assert (Hmiss : forall s1,
             Z.of_nat (length (cache s1)) <= cache_max_size cfg ->
             Z.of_nat
               (length (cache (snd (answer_uncached
                                      env (strip (or_empty question)) top_k
                                      use_cache use_rerank (t_start env)
                                      s1))))
             <= cache_max_size cfg).
  { intros s1 H1. rewrite answer_uncached_run.
    destruct (search env _ _); [now apply finalize_bounded|exact H1]. }
  destruct (strip (or_empty question)) as [|c0 qc] eqn:Hq.
  - now rewrite (query_empty _ _ _ _ _ _ Hq).
  - rewrite query_run by congruence. rewrite Hq. cbv zeta.
    set (s0 := with_metrics _ s).
    destruct (use_cache && enable_cache cfg); [|now apply Hmiss].
    rewrite answer_cached_run.
    destruct (Dict.get _ (cache s0)) as [[cached ts]|];
      [|now apply Hmiss].
    destruct (_ >? _).
    + apply Hmiss. cbn [with_cache cache].
      pose proof (DictFacts.length_del_le (key (c0 :: qc)) (cache s0)).
      change (cache s0) with (cache s) in *. lia.
    + cbv zeta. destruct (heap s0 !! cached); exact Hs.
Qed.

Lemma after_calls_bounded calls s :
  Z.of_nat (length (cache s)) <= cache_max_size cfg ->
  Z.of_nat
    (length (cache (after_calls lower is_decimal md5_hexdigest cfg calls s)))
  <= cache_max_size cfg.
Proof.
  revert s. induction calls as [|c calls IH]; intros s Hs; [exact Hs|].
  simpl. apply IH. now apply query_bounded.
Qed.

(** C6. A write that finds the cache at its maximum size or above evicts
    exactly one entry before it inserts the new one, and the evicted
    entry has the earliest insertion time of the cache. So, from the
    empty cache, no sequence of reads and writes of the cache, and no
    sequence of calls of [query], takes the size of the cache above the
    maximum (a count, hence not negative). *)
Theorem cache_write_evicts_oldest_and_size_is_bounded
        env question result s s' ops calls :
  0 <= cache_max_size cfg ->
  (List.NoDup (Dict.keys (cache s)) ->
   cache_max_size cfg <= Z.of_nat (length (cache s)) ->
   _set_cache env question result s = (Ok tt, s') ->
   exists oldest_key stored ts copy,
     Dict.get oldest_key (cache s) = Some (stored, ts)
     /\ (forall k r t, In (k, (r, t)) (cache s) -> ts <= t)
     /\ Dict.get oldest_key (Dict.del oldest_key (cache s)) = None
     /\ (forall k, k <> oldest_key ->
                   Dict.get k (Dict.del oldest_key (cache s))
                   = Dict.get k (cache s))
     /\ S (length (Dict.del oldest_key (cache s))) = length (cache s)
     /\ cache s' = Dict.set (V := ref * Z) (key question)
                            (copy, now_write env)
                            (Dict.del oldest_key (cache s)))
  /\ Z.of_nat (length (cache (after_ops lower md5_hexdigest cfg ops
                                        initial_state)))
     <= cache_max_size cfg
  /\ Z.of_nat (length (cache (after_calls lower is_decimal md5_hexdigest
                                          cfg calls initial_state)))
     <= cache_max_size cfg.
Proof.
  intros Hmax.
  split; [|split; [now apply after_ops_bounded
                  |now apply after_calls_bounded]].
  intros Hnd Hfull Hset.
  destruct (set_cache_ok _ _ _ _ _ Hset) as (c & r & Hr & -> & Hc).
  destruct Hc as [[Hlt _]|(oldest_key & _ & Hmin & ->)].
  { apply Z.leb_gt in Hlt. lia. }
  destruct (DictFacts.min_key_spec _ _ _ Hmin) as ([stored ts] & Hin & Hle).
  pose proof (DictFacts.in_get _ _ _ Hnd Hin) as Hget.
  exists oldest_key, stored, ts, (length (heap s)).
  split; [exact Hget|]. split.
  { intros k r0 t Hk. exact (Hle k (r0, t) Hk). }
  split; [now apply DictFacts.get_del_eq|].
  split.
  { intros k Hk. apply DictFacts.get_del_ne. congruence. }
  split; [|reflexivity].
  rewrite DictFacts.length_del, Hget.
  destruct (cache s); [destruct Hin|reflexivity].
Qed.

(** What the caller of [query] sees on a blank question. *)
Lemma empty_path_outcome env question top_k use_cache use_rerank s :
  strip (or_empty question) = [] ->
  exists out r s',
    query env question top_k use_cache use_rerank s = (Ok out, s')
    /\ heap s' !! out = Some r
    /\ answer r = lit "Empty question."
    /\ sources r = []
    /\ evidence r = []
    /\ level (confidence r) = LOW
    /\ from_cache r = false
    /\ cache s' = cache s
    /\ metrics s' = count_fresh (measured env) (metrics s).
Proof.
  intros Hq. rewrite (query_empty _ _ _ _ _ _ Hq).
  eexists _, (empty_result env), _. split; [reflexivity|].
  cbn [heap cache metrics]. rewrite DictFacts.lookup_snoc.
  repeat split.
Qed.

(** C3. A question that is empty or blank once trimmed does not make
    [query] raise: the call returns a result whose answer is
    "Empty question.", with no source and no evidence, confidence LOW,
    [from_cache] false; the cache is left as it was, so its size does not
    change. *)
Theorem blank_question_gets_canned_result
        env (question : pystr) top_k use_cache use_rerank s :
  strip question = [] ->
  exists out r s',
    query env (Some question) top_k use_cache use_rerank s = (Ok out, s')
    /\ heap s' !! out = Some r
    /\ answer r = lit "Empty question."
    /\ sources r = []
    /\ evidence r = []
    /\ level (confidence r) = LOW
    /\ from_cache r = false
    /\ cache s' = cache s
    /\ length (cache s') = length (cache s).
Proof.
  intros Hq.
  destruct (empty_path_outcome env (Some question) top_k use_cache
              use_rerank s Hq)
    as (out & r & s' & Hrun & Hout & Ha & Hs & He & Hl & Hf & Hc & _).
  exists out, r, s'. rewrite Hc. repeat split; assumption.
Qed.

(** C10. [query] called with [None] for the question does not raise:
    [None] is read as the empty string and the call takes the
    empty-question path, with the "Empty question." answer, no source, no
    evidence, confidence LOW, [from_cache] false and the cache left as it
    was. *)
Theorem none_question_gets_canned_result
        env top_k use_cache use_rerank s :
  or_empty None = []
  /\ exists out r s',
    query env None top_k use_cache use_rerank s = (Ok out, s')
    /\ heap s' !! out = Some r
    /\ answer r = lit "Empty question."
    /\ sources r = []
    /\ evidence r = []
    /\ level (confidence r) = LOW
    /\ from_cache r = false
    /\ cache s' = cache s.
Proof.
  split; [reflexivity|].
  destruct (empty_path_outcome env None top_k use_cache use_rerank s
              eq_refl)
    as (out & r & s' & Hrun & Hout & Ha & Hs & He & Hl & Hf & Hc & _).
  exists out, r, s'. repeat split; assumption.
Qed.

(** C4, as amended. A call of [query] on a question that is empty once
    trimmed adds one to [total_queries] and its latency to the
    end-to-end sum, and also adds one to [uncached_queries] and its
    latency to the uncached sum: the empty-question path goes through
    [_finalize] with [from_cache] false, and [_finalize] counts every
    such call as uncached. The cache-hit counter is left alone. *)
Theorem blank_question_counts_as_uncached
        env question top_k use_cache use_rerank s :
  strip (or_empty question) = [] ->
  let m := metrics s in
  let m' := metrics (snd (query env question top_k use_cache use_rerank s)) in
  total_queries m' = total_queries m + 1
  /\ total_latency_ms_e2e m' = total_latency_ms_e2e m + measured env
  /\ uncached_queries m' = uncached_queries m + 1
  /\ total_latency_ms_uncached m'
     = total_latency_ms_uncached m + measured env
  /\ cache_hits m' = cache_hits m.
Proof.
  intros Hq. rewrite (query_empty _ _ _ _ _ _ Hq).
  cbn [snd metrics]. repeat split.
Qed.


(** *** Objects are never overwritten *)

Lemma keeps_objects_refl s : keeps_objects s s.
Proof. intros l r H. exact H. Qed.

Lemma keeps_objects_trans s1 s2 s3 :
  keeps_objects s1 s2 -> keeps_objects s2 s3 -> keeps_objects s1 s3.
Proof. intros H12 H23 l r H. apply H23, H12, H. Qed.

Lemma keeps_objects_snoc s h' c m x :
  h' = heap s ++ [x] ->
  keeps_objects s {| heap := h'; cache := c; metrics := m |}.
Proof.
  intros -> l r H. cbn [heap]. now apply DictFacts.lookup_snoc_old.
Qed.

Lemma keeps_objects_same s s' : heap s' = heap s -> keeps_objects s s'.
Proof. intros Hh l r H. now rewrite Hh. Qed.

Lemma set_cache_keeps env question result s :
  keeps_objects s (snd (_set_cache env question result s)).
Proof.
  rewrite set_cache_run. unfold Runs.insert_copy.
  destruct (_ <=? _).
  - destruct (Dict.min_key snd (cache s)); [|apply keeps_objects_refl].
    destruct (heap s !! result); cbn [snd].
    + now eapply keeps_objects_snoc.
    + now apply keeps_objects_same.
  - destruct (heap s !! result); cbn [snd].
    + now eapply keeps_objects_snoc.
    + now apply keeps_objects_same.
Qed.

Lemma finalize_keeps env question answer docs_scores allow s :
  keeps_objects s
    (snd (_finalize env question answer docs_scores (t_start env) false
                    allow s)).
Proof.
  rewrite finalize_run. cbv zeta.
  set (s1 := {| heap := heap s ++ _; cache := cache s; metrics := _ |}).
  assert (H1 : keeps_objects s s1) by now eapply keeps_objects_snoc.
  destruct allow; [|exact H1].
  pose proof (set_cache_keeps env question (length (heap s)) s1) as H2.
  destruct (_set_cache _ _ _ s1) as [[[]|e] s2]; cbn [snd] in *;
    exact (keeps_objects_trans _ _ _ H1 H2).
Qed.

Lemma answer_uncached_keeps env question_clean top_k use_cache use_rerank s :
  keeps_objects s
    (snd (answer_uncached env question_clean top_k use_cache use_rerank
                          (t_start env) s)).
Proof.
  rewrite answer_uncached_run.
  destruct (search env _ _); [apply finalize_keeps|apply keeps_objects_refl].
Qed.

Lemma answer_cached_keeps env question_clean s :
  keeps_objects s (snd (answer_cached env question_clean (t_start env) s)).
Proof.
  rewrite answer_cached_run.
  destruct (Dict.get _ _) as [[cached ts]|]; [|apply keeps_objects_refl].
  destruct (_ >? _); [now apply keeps_objects_same|].
  cbv zeta. destruct (heap s !! cached); cbn [snd].
  - now eapply keeps_objects_snoc.
  - now apply keeps_objects_same.
Qed.

(** A call of [query], whether it returns or raises, leaves every
    object that existed before it as it was. *)
Lemma query_keeps env question top_k use_cache use_rerank s :
  keeps_objects s (snd (query env question top_k use_cache use_rerank s)).
Proof.
  destruct (strip (or_empty question)) as [|c0 qc] eqn:Hq.
  - rewrite (query_empty _ _ _ _ _ _ Hq). cbn [snd].
    now eapply keeps_objects_snoc.
  - rewrite query_run by congruence. rewrite Hq. cbv zeta.
    set (s0 := with_metrics _ s).
    assert (H0 : keeps_objects s s0) by now apply keeps_objects_same.
    destruct (use_cache && enable_cache cfg).
    + pose proof (answer_cached_keeps env (c0 :: qc) s0) as H1.
      destruct (answer_cached _ _ _ s0) as [[[out|]|e] s1]; cbn [snd] in *.
      * exact (keeps_objects_trans _ _ _ H0 H1).
      * eapply keeps_objects_trans; [|apply answer_uncached_keeps].
        exact (keeps_objects_trans _ _ _ H0 H1).
      * exact (keeps_objects_trans _ _ _ H0 H1).
    + eapply keeps_objects_trans; [exact H0|apply answer_uncached_keeps].
Qed.

Lemma after_calls_keeps calls s :
  keeps_objects s (after_calls lower is_decimal md5_hexdigest cfg calls s).
Proof.
  revert s. induction calls as [|c calls IH]; intros s;
    [apply keeps_objects_refl|].
  simpl. eapply keeps_objects_trans; [|apply IH].
  apply query_keeps.
Qed.

(** *** Cache hits *)

(** A call that finds a live entry for its question, run. *)
Lemma query_hit env question top_k use_rerank s cached ts stored :
  strip (or_empty question) <> [] ->
  enable_cache cfg = true ->
  Dict.get (key (strip (or_empty question))) (cache s) = Some (cached, ts) ->
  now_read env - ts <= seconds (cache_ttl cfg) ->
  heap s !! cached = Some stored ->
  query env question top_k true use_rerank s
  = (Ok (length (heap s)),
     {| heap := heap s ++ [stamped env (measured env) stored];
        cache := cache s;
        metrics := count_hit (measured env) (metrics s) |}).
Proof.
  intros Hq Hen Hget Hlive Hstored.
  rewrite query_run by assumption. cbv zeta. rewrite Hen. cbn [andb].
  rewrite answer_cached_run. unfold with_metrics. cbn [heap cache metrics].
  rewrite Hget.
  assert (Hle : (now_read env - ts >? seconds (cache_ttl cfg)) = false).
  { rewrite Z.gtb_ltb. apply Z.ltb_ge. lia. }
  rewrite Hle, Hstored. reflexivity.
Qed.

(** C7. On a cache hit the caller receives a new dictionary, a copy of
    the stored one with [from_cache] true and with the latency and the
    timestamp of this call; the hit counter goes up by one and the
    latency is added to the end-to-end sum; [uncached_queries] and the
    uncached sum do not move; the cache and the stored dictionary, with
    its own [from_cache], [latency_ms] and [timestamp], are as they were
    before the call, as is every other object. *)
Theorem cache_hit_returns_stamped_copy
        env question top_k use_rerank s cached ts stored :
  strip (or_empty question) <> [] ->
  enable_cache cfg = true ->
  Dict.get (key (strip (or_empty question))) (cache s) = Some (cached, ts) ->
  now_read env - ts <= seconds (cache_ttl cfg) ->
  heap s !! cached = Some stored ->
  exists out s' r,
    query env question top_k true use_rerank s = (Ok out, s')
    /\ heap s' !! out = Some r
    /\ out <> cached
    /\ heap s !! out = None
    /\ from_cache r = true
    /\ latency_ms r = measured env
    /\ timestamp r = now_stamp env
    /\ answer r = answer stored
    /\ sources r = sources stored
    /\ evidence r = evidence stored
    /\ confidence r = confidence stored
    /\ heap s' !! cached = Some stored
    /\ keeps_objects s s'
    /\ cache s' = cache s
    /\ total_queries (metrics s') = total_queries (metrics s) + 1
    /\ cache_hits (metrics s') = cache_hits (metrics s) + 1
    /\ total_latency_ms_e2e (metrics s')
       = total_latency_ms_e2e (metrics s) + measured env
    /\ uncached_queries (metrics s') = uncached_queries (metrics s)
    /\ total_latency_ms_uncached (metrics s')
       = total_latency_ms_uncached (metrics s).
Proof.
  intros Hq Hen Hget Hlive Hstored.
  rewrite (query_hit _ _ _ _ _ _ _ _ Hq Hen Hget Hlive Hstored).
  eexists _, _, _. split; [reflexivity|]. cbn [heap cache metrics].
  split; [apply DictFacts.lookup_snoc|].
  pose proof (DictFacts.lookup_some_lt _ _ _ Hstored) as Hlt.
  split; [lia|].
  split; [apply lookup_ge_None; lia|].
  repeat split.
  - now apply DictFacts.lookup_snoc_old.
  - now eapply keeps_objects_snoc.
Qed.

(** *** Calls that return *)

(** A call that went through retrieval and returned: the result is the
    newest object but for its cached copy, the call is counted as
    uncached, and, when the cache may be written, the copy is in the
    cache under the key of the question. *)
Lemma answer_uncached_ok env question_clean top_k use_cache use_rerank
      s out s' :
  answer_uncached env question_clean top_k use_cache use_rerank
                  (t_start env) s = (Ok out, s') ->
  exists result,
    heap s' !! out = Some result
    /\ from_cache result = false
    /\ metrics s' = count_finalize (measured env) (metrics s)
    /\ (use_cache && enable_cache cfg = true ->
        exists copy,
          Dict.get (key question_clean) (cache s')
          = Some (copy, now_write env)
          /\ heap s' !! copy = Some result).
Proof.
  rewrite answer_uncached_run.
  destruct (search env _ _) as [docs_scores|e]; [|discriminate].
  rewrite finalize_run. cbv zeta.
  set (result := fresh_result _ _ _ _).
  destruct (use_cache && enable_cache cfg).
  - set (s1 := {| heap := heap s ++ [result]; cache := cache s;
                  metrics := _ |}).
    destruct (_set_cache _ _ _ s1) as [[[]|e] s2] eqn:Hset; [|discriminate].
    intros [= <- <-].
    destruct (set_cache_ok _ _ _ _ _ Hset) as (c & r & Hr & -> & _).
    subst s1. cbn [heap cache metrics] in *.
    rewrite DictFacts.lookup_snoc in Hr. injection Hr as <-.
    exists result. split.
    { apply DictFacts.lookup_snoc_old, DictFacts.lookup_snoc. }
    split; [reflexivity|]. split; [reflexivity|].
    intros _. exists (length (heap s ++ [result])).
    split; [apply DictFacts.get_set_eq|apply DictFacts.lookup_snoc].
  - intros [= <- <-]. exists result. cbn [heap cache metrics].
    split; [apply DictFacts.lookup_snoc|].
    split; [reflexivity|]. split; [reflexivity|discriminate].
Qed.

(** Every call that returns is a cache hit, which hands out a stamped
    copy of a stored dictionary and is counted as a hit, or a fresh
    answer, which is counted as uncached. *)
Lemma query_ok env question top_k use_cache use_rerank s out s' :
  query env question top_k use_cache use_rerank s = (Ok out, s') ->
  exists r,
    heap s' !! out = Some r
    /\ ((from_cache r = true
         /\ metrics s' = count_hit (measured env) (metrics s)
         /\ cache s' = cache s
         /\ exists cached ts stored,
             Dict.get (key (strip (or_empty question))) (cache s)
             = Some (cached, ts)
             /\ heap s' !! cached = Some stored
             /\ answer r = answer stored)
        \/ (from_cache r = false
            /\ metrics s' = count_fresh (measured env) (metrics s)
            /\ (strip (or_empty question) <> [] ->
                use_cache && enable_cache cfg = true ->
                exists copy,
                  Dict.get (key (strip (or_empty question))) (cache s')
                  = Some (copy, now_write env)
                  /\ heap s' !! copy = Some r))).
Proof.
  destruct (strip (or_empty question)) as [|c0 qc] eqn:Hq.
  - rewrite (query_empty _ _ _ _ _ _ Hq). intros [= <- <-].
    exists (empty_result env). cbn [heap cache metrics].
    split; [apply DictFacts.lookup_snoc|]. right.
    split; [reflexivity|]. split; [reflexivity|congruence].
  - rewrite query_run by congruence. rewrite Hq. cbv zeta.
    set (s0 := with_metrics _ s).
    assert (Hmiss : forall s1,
               metrics s1 = metrics s0 ->
               answer_uncached env (c0 :: qc) top_k use_cache use_rerank
                               (t_start env) s1 = (Ok out, s') ->
               exists r,
                 heap s' !! out = Some r
                 /\ (from_cache r = false
                     /\ metrics s' = count_fresh (measured env) (metrics s)
                     /\ (c0 :: qc <> [] ->
                         use_cache && enable_cache cfg = true ->
                         exists copy,
                           Dict.get (key (c0 :: qc)) (cache s')
                           = Some (copy, now_write env)
                           /\ heap s' !! copy = Some r))).
    { intros s1 Hm Hrun.
      destruct (answer_uncached_ok _ _ _ _ _ _ _ _ Hrun)
        as (result & Hout & Hfc & Hmet & Hentry).
      exists result. split; [exact Hout|]. split; [exact Hfc|].
      split; [now rewrite Hmet, Hm|]. intros _. exact Hentry. }
    destruct (use_cache && enable_cache cfg) eqn:Hcache.
    + rewrite answer_cached_run. unfold s0 at 1 2 3 4 5.
      unfold with_metrics at 1 2 3 4 5. cbn [heap cache metrics].
      destruct (Dict.get _ (cache s)) as [[cached ts]|] eqn:Hget.
      * destruct (_ >? _).
        -- intros Hrun.
           apply Hmiss in Hrun; [|reflexivity].
           destruct Hrun as (r & Hout & Hr).
           exists r. split; [exact Hout|now right].
        -- destruct (heap s !! cached) as [stored|] eqn:Hstored;
             [|discriminate].
           intros [= <- <-]. eexists. cbn [heap cache metrics].
           split; [apply DictFacts.lookup_snoc|]. left.
           repeat split. exists cached, ts, stored.
           split; [reflexivity|].
           split; [now apply DictFacts.lookup_snoc_old|reflexivity].
      * intros Hrun.
        apply Hmiss in Hrun; [|reflexivity].
           destruct Hrun as (r & Hout & Hr).
        exists r. split; [exact Hout|now right].
    + intros Hrun.
      apply Hmiss in Hrun; [|reflexivity].
      destruct Hrun as (r & Hout & Hfc & Hmet & _).
      exists r. split; [exact Hout|]. right.
      split; [exact Hfc|]. split; [exact Hmet|discriminate].
Qed.

(** *** Well-formed states *)

Lemma valid_cache_mono n n' c :
  (n <= n')%nat -> valid_cache n c -> valid_cache n' c.
Proof.
  intros Hle [Hnd Href]. split; [exact Hnd|].
  intros k stored ts Hin. specialize (Href k stored ts Hin). lia.
Qed.

Lemma valid_cache_del n k c : valid_cache n c -> valid_cache n (Dict.del k c).
Proof.
  intros [Hnd Href]. split; [now apply DictFacts.NoDup_keys_del|].
  intros k' stored ts Hin. eapply Href, DictFacts.in_del, Hin.
Qed.

Lemma valid_cache_set n k stored ts c :
  (stored < n)%nat -> valid_cache n c ->
  valid_cache n (Dict.set (V := ref * Z) k (stored, ts) c).
Proof.
  intros Hlt [Hnd Href]. split; [now apply DictFacts.NoDup_keys_set|].
  intros k' stored' ts' Hin.
  destruct (DictFacts.in_set _ _ _ _ _ Hin) as [[_ [= -> ->]]|Hin'];
    [exact Hlt|eapply Href, Hin'].
Qed.

Lemma initial_state_well_formed : well_formed initial_state.
Proof. split; [constructor|intros k stored ts []]. Qed.

Lemma set_cache_wf env question result s :
  well_formed s -> well_formed (snd (_set_cache env question result s)).
Proof.
  unfold well_formed. intros Hwf.
  rewrite set_cache_run. unfold Runs.insert_copy.
  assert (Hins : forall c,
             valid_cache (length (heap s)) c ->
             valid_cache
               (length (heap (snd (Runs.insert_copy lower md5_hexdigest env
                                     question result c s))))
               (cache (snd (Runs.insert_copy lower md5_hexdigest env
                              question result c s)))).
  { intros c Hc. unfold Runs.insert_copy.
    destruct (heap s !! result) as [r|]; cbn [snd heap cache with_cache];
      [|exact Hc].
    rewrite length_app. cbn [length].
    apply valid_cache_set; [lia|].
    eapply valid_cache_mono; [|exact Hc]. lia. }
  unfold Runs.insert_copy in Hins.
  destruct (_ <=? _); [|now apply Hins].
  destruct (Dict.min_key snd (cache s)); [|exact Hwf].
  now apply Hins, valid_cache_del.
Qed.

Lemma get_cache_wf env question s :
  well_formed s -> well_formed (snd (_get_cache env question s)).
Proof.
  unfold well_formed. intros Hwf. rewrite get_cache_run.
  destruct (Dict.get _ _) as [[cached ts]|]; [|exact Hwf].
  destruct (_ >? _); [|exact Hwf].
  cbn [snd with_cache heap cache]. now apply valid_cache_del.
Qed.

Lemma finalize_wf env question answer docs_scores allow s :
  well_formed s ->
  well_formed (snd (_finalize env question answer docs_scores (t_start env)
                              false allow s)).
Proof.
  intros Hwf. rewrite finalize_run. cbv zeta.
  set (s1 := {| heap := heap s ++ _; cache := cache s; metrics := _ |}).
  assert (H1 : well_formed s1).
  { unfold well_formed, s1. cbn [heap cache]. rewrite length_app.
    eapply valid_cache_mono; [|exact Hwf]. lia. }
  destruct allow; [|exact H1].
  pose proof (set_cache_wf env question (length (heap s)) s1 H1) as H2.
  destruct (_set_cache _ _ _ s1) as [[[]|e] s2]; exact H2.
Qed.

Lemma answer_uncached_wf env question_clean top_k use_cache use_rerank s :
  well_formed s ->
  well_formed (snd (answer_uncached env question_clean top_k use_cache
                                    use_rerank (t_start env) s)).
Proof.
  intros Hwf. rewrite answer_uncached_run.
  destruct (search env _ _); [now apply finalize_wf|exact Hwf].
Qed.

Lemma answer_cached_wf env question_clean s :
  well_formed s ->
  well_formed (snd (answer_cached env question_clean (t_start env) s)).
Proof.
  unfold well_formed. intros Hwf. rewrite answer_cached_run.
  destruct (Dict.get _ _) as [[cached ts]|]; [|exact Hwf].
  destruct (_ >? _).
  - cbn [snd with_cache heap cache]. now apply valid_cache_del.
  - cbv zeta. destruct (heap s !! cached); cbn [snd with_metrics heap cache];
      [|exact Hwf].
    rewrite length_app. eapply valid_cache_mono; [|exact Hwf]. lia.
Qed.

(** Every call of [query] takes a well-formed pipeline to a well-formed
    pipeline, whether it returns or raises. *)
Lemma query_wf env question top_k use_cache use_rerank s :
  well_formed s ->
  well_formed (snd (query env question top_k use_cache use_rerank s)).
Proof.
  intros Hwf.
  destruct (strip (or_empty question)) as [|c0 qc] eqn:Hq.
  - rewrite (query_empty _ _ _ _ _ _ Hq).
    unfold well_formed. cbn [snd heap cache]. rewrite length_app.
    eapply valid_cache_mono; [|exact Hwf]. lia.
  - rewrite query_run by congruence. rewrite Hq. cbv zeta.
    set (s0 := with_metrics _ s).
    assert (H0 : well_formed s0) by exact Hwf.
    destruct (use_cache && enable_cache cfg).
    + pose proof (answer_cached_wf env (c0 :: qc) s0 H0) as H1.
      destruct (answer_cached _ _ _ s0) as [[[out|]|e] s1]; cbn [snd] in *;
        [exact H1| |exact H1].
      now apply answer_uncached_wf.
    + now apply answer_uncached_wf.
Qed.

Lemma after_calls_wf calls s :
  well_formed s ->
  well_formed (after_calls lower is_decimal md5_hexdigest cfg calls s).
Proof.
  revert s. induction calls as [|c calls IH]; intros s Hwf; [exact Hwf|].
  simpl. apply IH. now apply query_wf.
Qed.

Lemma after_ops_wf ops s :
  well_formed s -> well_formed (after_ops lower md5_hexdigest cfg ops s).
Proof.
  revert s. induction ops as [|op ops IH]; intros s Hwf; [exact Hwf|].
  simpl. apply IH. destruct op as [env question|env question result];
    unfold run_op; [now apply get_cache_wf|].
  run. apply set_cache_wf.
  unfold well_formed in *. cbn [heap cache]. rewrite length_app.
  eapply valid_cache_mono; [|exact Hwf]. lia.
Qed.

(** In a well-formed pipeline an entry of the cache has its object: a
    cache hit cannot fail to copy it. *)
Lemma well_formed_entry s k stored ts :
  well_formed s -> Dict.get k (cache s) = Some (stored, ts) ->
  exists r, heap s !! stored = Some r.
Proof.
  intros [_ Href] Hget. apply DictFacts.lookup_valid.
  eapply Href, DictFacts.get_in, Hget.
Qed.

(** A call whose retrieval raises is counted in [total_queries] all the
    same, and in nothing else, when it did not start with a cache
    read. *)
Lemma query_raise_counts env question top_k use_rerank s e :
  strip (or_empty question) <> [] ->
  search env (strip (or_empty question)) (retrieval_count cfg top_k)
  = Raise e ->
  query env question top_k false use_rerank s
  = (Raise e, with_metrics (incr_total_queries (metrics s)) s).
Proof.
  intros Hq Hsearch. rewrite query_run by assumption. cbv zeta.
  cbn [andb]. rewrite answer_uncached_run, Hsearch. reflexivity.
Qed.

(** C8. A question that is not blank is asked twice with the cache in
    use, any calls in between. If the first call returns and, at the
    second call, the entry of the question is the one the first call
    left (it was neither evicted, nor dropped as expired, nor written
    again) and has not outlived the TTL, then the second call returns
    from the cache, [from_cache] true, with the answer of the first
    call. *)
Theorem repeated_question_is_served_from_cache
        env1 env2 (question : pystr) top_k1 top_k2 use_rerank1 use_rerank2
        s0 out1 s1 r1 between :
  strip question <> [] ->
  enable_cache cfg = true ->
  query env1 (Some question) top_k1 true use_rerank1 s0 = (Ok out1, s1) ->
  heap s1 !! out1 = Some r1 ->
  let s2 := after_calls lower is_decimal md5_hexdigest cfg between s1 in
  Dict.get (key (strip question)) (cache s2)
  = Dict.get (key (strip question)) (cache s1) ->
  (forall stored ts,
      Dict.get (key (strip question)) (cache s1) = Some (stored, ts) ->
      now_read env2 - ts <= seconds (cache_ttl cfg)) ->
  exists out2 s3 r2,
    query env2 (Some question) top_k2 true use_rerank2 s2 = (Ok out2, s3)
    /\ heap s3 !! out2 = Some r2
    /\ from_cache r2 = true
    /\ answer r2 = answer r1.
Proof.
  intros Hq Hen Hfirst Hout1 s2 Hsame Hlive.
  assert (Hentry : exists stored ts kept,
             Dict.get (key (strip question)) (cache s1) = Some (stored, ts)
             /\ heap s1 !! stored = Some kept
             /\ answer kept = answer r1).
  { destruct (query_ok _ _ _ _ _ _ _ _ Hfirst) as (r & Hr & Hcases).
    rewrite Hout1 in Hr. injection Hr as <-.
    destruct Hcases as [(_ & _ & Hc & cached & ts & stored & Hget & Hst & Ha)
                       |(_ & _ & Hcopy)].
    - exists cached, ts, stored. rewrite Hc. cbn [or_empty] in Hget.
      repeat split; [exact Hget|exact Hst|now symmetry].
    - cbn [or_empty] in Hcopy.
      destruct (Hcopy Hq) as (copy & Hget & Hst);
        [now rewrite Hen|].
      exists copy, (now_write env1), r1. repeat split; assumption. }
  destruct Hentry as (stored & ts & kept & Hget & Hkept & Hanswer).
  assert (Hkept2 : heap s2 !! stored = Some kept)
    by (apply after_calls_keeps; exact Hkept).
  rewrite <- Hsame in Hget.
  rewrite (query_hit env2 (Some question) top_k2 use_rerank2 s2
                     stored ts kept Hq Hen Hget
                     (Hlive stored ts ltac:(now rewrite <- Hsame)) Hkept2).
  eexists _, _, _. split; [reflexivity|]. cbn [heap].
  split; [apply DictFacts.lookup_snoc|].
  split; [reflexivity|exact Hanswer].
Qed.


End WithRuntime.

(** C4, as stated, fails: the call on the empty string, from the initial
    state, leaves [uncached_queries] at 1 and the uncached sum at the
    7 ms of the call. *)
Lemma blank_question_is_not_left_out_of_uncached :
  ~ (forall lower is_decimal md5_hexdigest cfg env question top_k
            use_cache use_rerank s,
        strip (or_empty question) = [] ->
        let m := metrics s in
        let m' := metrics (snd (query lower is_decimal md5_hexdigest cfg env
                                      question top_k use_cache use_rerank s)) in
        total_queries m' = total_queries m + 1
        /\ total_latency_ms_e2e m' = total_latency_ms_e2e m + measured env
        /\ uncached_queries m' = uncached_queries m
        /\ total_latency_ms_uncached m' = total_latency_ms_uncached m).
Proof.
  intros claim.
  specialize (claim ascii_lower ascii_digit Samples.identity_digest
                    default_config (Samples.env_at 0 7) (Some [])
                    None true true initial_state eq_refl).
  vm_compute in claim. destruct claim as (_ & _ & Huq & _).
  discriminate Huq.
Qed.

(** C5, as stated, fails at the boundary: an entry written at time 0 under
    the TTL of 3600 seconds is still served by a read at exactly
    3600 seconds. *)
Lemma cache_entry_still_served_at_ttl :
  ~ (forall lower md5_hexdigest cfg env_r question s stored T,
        List.NoDup (Dict.keys (cache s)) ->
        Dict.get (_get_cache_key lower md5_hexdigest question) (cache s)
        = Some (stored, T) ->
        (T + seconds (cache_ttl cfg) <= now_read env_r ->
         _get_cache lower md5_hexdigest cfg env_r question s
         = (Ok None,
            with_cache
              (Dict.del (_get_cache_key lower md5_hexdigest question)
                        (cache s)) s))
        /\ (now_read env_r < T + seconds (cache_ttl cfg) ->
            _get_cache lower md5_hexdigest cfg env_r question s
            = (Ok (Some stored), s))).
Proof.
  intros claim.
  destruct (claim ascii_lower Samples.identity_digest default_config
                  (Samples.env_at 3600000000 7)
                  Samples.revenue_question Samples.written 1%nat 0
                  ltac:(vm_compute; repeat constructor; intros [])
                  ltac:(vm_compute; reflexivity)) as [Hlate _].
  specialize (Hlate ltac:(vm_compute; discriminate)).
  vm_compute in Hlate. discriminate Hlate.
Qed.


End PipelineFacts.


(** ** The paths of [query] *)

Module QueryPaths.

Import RAGPipeline Runs Paths PipelineFacts.

Section WithRuntime.

Variable lower : pystr -> pystr.
Variable is_decimal : N -> bool.
Variable md5_hexdigest : pystr -> pystr.
Variable cfg : Config.

Local Abbreviation query := (query lower is_decimal md5_hexdigest cfg).
Local Abbreviation _get_cache := (_get_cache lower md5_hexdigest cfg).
Local Abbreviation _set_cache := (_set_cache lower md5_hexdigest cfg).
Local Abbreviation key := (_get_cache_key lower md5_hexdigest).
Local Abbreviation _finalize := (_finalize lower is_decimal md5_hexdigest cfg).
Local Abbreviation answer_cached := (answer_cached lower md5_hexdigest cfg).
Local Abbreviation answer_uncached :=
  (answer_uncached lower is_decimal md5_hexdigest cfg).
Local Abbreviation no_live_entry := (no_live_entry lower md5_hexdigest cfg).
Local Abbreviation key_computable := (key_computable lower cfg).
Local Abbreviation after_fresh := (after_fresh lower md5_hexdigest).
Local Abbreviation final_answer := (final_answer lower cfg).
Local Abbreviation final_passages := (final_passages lower cfg).

(** [_finalize] under a cache that has room for an entry, run. *)
Lemma finalize_fresh env question answer docs_scores allow s :
  0 < cache_max_size cfg ->
  exists c,
    _finalize env question answer docs_scores (t_start env) false allow s
    = (Ok (length (heap s)),
       {| heap := heap (after_fresh env question allow
                          (fresh_result is_decimal env answer docs_scores)
                          c s);
          cache := cache (after_fresh env question allow
                           (fresh_result is_decimal env answer docs_scores)
                           c s);
          metrics := count_finalize (measured env) (metrics s) |}).
Proof.
  intros Hmax. rewrite finalize_run. cbv zeta.
  set (result := fresh_result _ _ _ _).
  destruct allow; [|exists (cache s); reflexivity].
  rewrite set_cache_run. cbn [heap cache metrics].
  unfold Runs.insert_copy. cbn [heap cache metrics].
  rewrite DictFacts.lookup_snoc.
  destruct (_ <=? _) eqn:Hfull.
  - destruct (Dict.min_key snd (cache s)) as [oldest|] eqn:Hmin.
    + exists (Dict.del oldest (cache s)). reflexivity.
    + apply DictFacts.min_key_none in Hmin. rewrite Hmin in Hfull.
      apply Z.leb_le in Hfull. cbn [length] in Hfull. lia.
  - exists (cache s). reflexivity.
Qed.

(** The cache read of a call that finds no live entry: nothing is
    returned, and the heap and the metrics are as they were. *)
Lemma answer_cached_miss env question_clean use_cache s :
  use_cache && enable_cache cfg = true ->
  no_live_entry env question_clean use_cache s ->
  exists c,
    answer_cached env question_clean (t_start env) s
    = (Ok None, with_cache c s)
    /\ (c = cache s \/ c = Dict.del (key question_clean) (cache s)).
Proof.
  intros Hcache Hmiss. rewrite answer_cached_run.
  destruct (Dict.get _ _) as [[cached ts]|] eqn:Hget.
  - specialize (Hmiss Hcache cached ts Hget).
    destruct (_ >? _) eqn:Hexp; [|rewrite Z.gtb_ltb in Hexp; apply Z.ltb_ge in Hexp; lia].
    eexists. split; [reflexivity|now right].
  - exists (cache s). split; [|now left]. now destruct s.
Qed.

(** A call that answers afresh, run: the result is the new object, and
    its copy the one after it. *)
Lemma query_fresh env question top_k use_cache use_rerank s docs_scores :
  let question_clean := strip (or_empty question) in
  question_clean <> [] ->
  0 < cache_max_size cfg ->
  no_live_entry env question_clean use_cache s ->
  search env question_clean (retrieval_count cfg top_k) = Ok docs_scores ->
  exists c,
    query env question top_k use_cache use_rerank s
    = (Ok (length (heap s)),
       after_fresh env question_clean (use_cache && enable_cache cfg)
         (fresh_result is_decimal env
            (final_answer env question_clean use_rerank docs_scores)
            (final_passages question_clean use_rerank docs_scores))
         c s).
Proof.
  intros qc Hq Hmax Hmiss Hsearch. rewrite query_run by exact Hq.
  cbv zeta. fold qc.
  set (s0 := with_metrics _ s).
  assert (Hrun : forall s1,
             heap s1 = heap s -> metrics s1 = metrics s0 ->
             exists c,
               answer_uncached env qc top_k use_cache use_rerank
                               (t_start env) s1
               = (Ok (length (heap s)),
                  {| heap := heap (after_fresh env qc
                                     (use_cache && enable_cache cfg)
                                     (fresh_result is_decimal env
                                        (final_answer env qc use_rerank docs_scores)
                                        (final_passages qc use_rerank docs_scores))
                                     c s1);
                     cache := cache (after_fresh env qc
                                      (use_cache && enable_cache cfg)
                                      (fresh_result is_decimal env
                                         (final_answer env qc use_rerank docs_scores)
                                         (final_passages qc use_rerank docs_scores))
                                      c s1);
                     metrics := count_fresh (measured env) (metrics s) |})).
  { intros s1 Hh Hm. rewrite answer_uncached_run, Hsearch.
    destruct (finalize_fresh env qc
                (final_answer env qc use_rerank docs_scores)
                (final_passages qc use_rerank docs_scores)
                (use_cache && enable_cache cfg) s1 Hmax) as [c Hc].
    exists c. rewrite Hc, Hh, Hm. reflexivity. }
  destruct (use_cache && enable_cache cfg) eqn:Hcache.
  - destruct (answer_cached_miss env qc use_cache s0 Hcache) as (c0 & -> & _).
    { intros H cached ts Hget. exact (Hmiss H cached ts Hget). }
    destruct (Hrun (with_cache c0 s0) eq_refl eq_refl) as [c Hc].
    exists c. rewrite Hc. reflexivity.
  - destruct (Hrun s0 eq_refl eq_refl) as [c Hc].
    exists (cache s). rewrite Hc. reflexivity.
Qed.


Lemma after_fresh_result env question_clean write result c s :
  heap (after_fresh env question_clean write result c s) !! length (heap s)
  = Some result.
Proof.
  unfold Paths.after_fresh. destruct write; cbn [heap].
  - apply DictFacts.lookup_snoc_old, DictFacts.lookup_snoc.
  - apply DictFacts.lookup_snoc.
Qed.

(** [X9] When the vector store returns nothing for a question whose
    cache key can be computed (it encodes in UTF-8, or the cache is
    off), the call returns the fixed not-found answer with no source,
    no evidence and the confidence LOW, 0.0, [NO_SOURCES]; it is
    counted as an uncached query and, unlike the answer to a blank
    question, it is written to the cache when the cache is in use. *)
Theorem empty_retrieval_gets_not_found_answer
        env question top_k use_cache use_rerank s :
  strip (or_empty question) <> [] ->
  key_computable (strip (or_empty question)) use_cache ->
  0 < cache_max_size cfg ->
  no_live_entry env (strip (or_empty question)) use_cache s ->
  search env (strip (or_empty question)) (retrieval_count cfg top_k)
  = Ok [] ->
  exists out s' r,
    query env question top_k use_cache use_rerank s = (Ok out, s')
    /\ heap s' !! out = Some r
    /\ answer r = lit "No relevant information found in the document."
    /\ sources r = []
    /\ evidence r = []
    /\ confidence r = {| level := LOW; score := 0; reasons := [NO_SOURCES] |}
    /\ from_cache r = false
    /\ latency_ms r = measured env
    /\ metrics s' = count_fresh (measured env) (metrics s)
    /\ (use_cache && enable_cache cfg = true ->
        exists copy,
          Dict.get (key (strip (or_empty question))) (cache s')
          = Some (copy, now_write env)
          /\ heap s' !! copy = Some r)
    /\ (use_cache && enable_cache cfg = false -> cache s' = cache s).
Proof.
  intros Hq _ Hmax Hmiss Hsearch.
  destruct (query_fresh env question top_k use_cache use_rerank s []
                        Hq Hmax Hmiss Hsearch) as [c Hrun].
  eexists _, _, _. split; [exact Hrun|].
  split; [apply after_fresh_result|].
  cbn [final_answer final_passages fresh_result answer sources evidence
         confidence from_cache latency_ms].
  repeat split.
  - destruct (use_cache && enable_cache cfg); reflexivity.
  - intros ->. cbn [Paths.after_fresh cache heap]. eexists. split.
    + apply DictFacts.get_set_eq.
    + apply DictFacts.lookup_snoc.
  - intros ->. reflexivity.
Qed.

(** [X10] With [use_cache] off, or the cache disabled in the
    configuration, a call neither reads nor writes the cache, whether
    it returns or raises: the cache and the count of hits are as they
    were, and a result that is returned is not marked as cached. *)
Theorem disabled_cache_is_never_touched
        env question top_k use_cache use_rerank s :
  use_cache && enable_cache cfg = false ->
  cache (snd (query env question top_k use_cache use_rerank s)) = cache s
  /\ cache_hits (metrics (snd (query env question top_k use_cache
                                     use_rerank s)))
     = cache_hits (metrics s)
  /\ forall out r,
      fst (query env question top_k use_cache use_rerank s) = Ok out ->
      heap (snd (query env question top_k use_cache use_rerank s)) !! out
      = Some r ->
      from_cache r = false.
Proof.
  intros Hoff.
  destruct (strip (or_empty question)) as [|c0 qc] eqn:Hq.
  - rewrite (query_empty _ _ _ _ _ _ _ _ _ _ Hq). cbn [fst snd cache metrics heap].
    repeat split. intros out r [= <-].
    rewrite DictFacts.lookup_snoc. now intros [= <-].
  - rewrite query_run by congruence. cbv zeta. rewrite Hoff, Hq.
    rewrite answer_uncached_run.
    destruct (search env _ _) as [docs_scores|e].
    + rewrite finalize_run. cbv zeta. rewrite Hoff.
      cbn [fst snd cache metrics heap with_metrics].
      repeat split. intros out r [= <-].
      rewrite DictFacts.lookup_snoc. now intros [= <-].
    + cbn [fst snd cache metrics heap with_metrics].
      repeat split. discriminate.
Qed.

(** [X11] For a question whose cache key can be computed (it encodes
    in UTF-8, or the cache is off), an exception of the vector store
    comes out of [query] as it is. The call has been counted in
    [total_queries] and in nothing else: no latency is recorded, no
    object is created, and the cache has at most lost the expired
    entry of the question. *)
Theorem retrieval_failure_propagates
        env question top_k use_cache use_rerank s e :
  strip (or_empty question) <> [] ->
  key_computable (strip (or_empty question)) use_cache ->
  no_live_entry env (strip (or_empty question)) use_cache s ->
  search env (strip (or_empty question)) (retrieval_count cfg top_k)
  = Raise e ->
  exists s',
    query env question top_k use_cache use_rerank s = (Raise e, s')
    /\ heap s' = heap s
    /\ metrics s' = incr_total_queries (metrics s)
    /\ (cache s' = cache s
        \/ cache s' = Dict.del (key (strip (or_empty question))) (cache s)).
Proof.
  intros Hq _ Hmiss Hsearch. rewrite query_run by exact Hq. cbv zeta.
  set (s0 := with_metrics _ s).
  destruct (use_cache && enable_cache cfg) eqn:Hcache.
  - destruct (answer_cached_miss env (strip (or_empty question))
                                 use_cache s0 Hcache)
      as (c0 & -> & Hc0).
    { intros H cached ts Hget. exact (Hmiss H cached ts Hget). }
    rewrite answer_uncached_run, Hsearch.
    eexists. split; [reflexivity|]. cbn [heap metrics cache with_cache s0
                                           with_metrics].
    repeat split. exact Hc0.
  - rewrite answer_uncached_run, Hsearch.
    eexists. split; [reflexivity|]. cbn. repeat split. now left.
Qed.

(** [X12] A [cache_max_size] of zero or less leaves no room for any
    entry: on an empty cache a call that would write its answer, for a
    question that encodes in UTF-8, raises [ValueError] from the
    eviction, after the answer was computed and counted, and the cache
    stays empty. *)
Theorem cache_without_room_fails_the_call
        env question top_k use_rerank s docs_scores :
  strip (or_empty question) <> [] ->
  utf8_encodable (strip (lower (strip (or_empty question)))) = true ->
  enable_cache cfg = true ->
  cache_max_size cfg <= 0 ->
  cache s = [] ->
  search env (strip (or_empty question)) (retrieval_count cfg top_k)
  = Ok docs_scores ->
  exists s',
    query env question top_k true use_rerank s = (Raise ValueError, s')
    /\ metrics s' = count_fresh (measured env) (metrics s)
    /\ cache s' = [].
Proof.
  intros Hq _ Hen Hmax Hempty Hsearch. rewrite query_run by exact Hq.
  cbv zeta. rewrite Hen. cbn [andb].
  rewrite answer_cached_run. cbn [with_metrics cache heap metrics].
  rewrite Hempty. cbn [Dict.get].
  rewrite answer_uncached_run, Hsearch, finalize_run. cbv zeta.
  rewrite Hen. cbn [andb]. rewrite set_cache_run.
  cbn [with_metrics cache heap metrics]. rewrite Hempty.
  cbn [length Dict.min_key].
  replace (cache_max_size cfg <=? Z.of_nat 0) with true
    by (symmetry; apply Z.leb_le; simpl; lia).
  eexists. split; [reflexivity|]. cbn [metrics cache].
  split; reflexivity.
Qed.


(** [X13] The key of the cache ignores case and surrounding white
    space: after a question was answered with the cache in use, a
    question that differs from it only there is served from the cache,
    with the answer of the first, while the entry has not outlived the
    TTL. *)
Theorem questions_that_differ_in_case_share_an_entry
        env1 env2 (question1 question2 : pystr) top_k1 top_k2
        use_rerank1 use_rerank2 s0 out1 s1 r1 :
  strip question1 <> [] ->
  strip question2 <> [] ->
  enable_cache cfg = true ->
  strip (lower (strip question2)) = strip (lower (strip question1)) ->
  query env1 (Some question1) top_k1 true use_rerank1 s0 = (Ok out1, s1) ->
  heap s1 !! out1 = Some r1 ->
  (forall stored ts,
      Dict.get (key (strip question1)) (cache s1) = Some (stored, ts) ->
      now_read env2 - ts <= seconds (cache_ttl cfg)) ->
  exists out2 s2 r2,
    query env2 (Some question2) top_k2 true use_rerank2 s1 = (Ok out2, s2)
    /\ heap s2 !! out2 = Some r2
    /\ from_cache r2 = true
    /\ answer r2 = answer r1.
Proof.
  intros Hq1 Hq2 Hen Hkey Hfirst Hout1 Hlive.
  assert (Hsame : key (strip question2) = key (strip question1))
    by (unfold RAGPipeline._get_cache_key; now rewrite Hkey).
  assert (Hentry : exists stored ts kept,
             Dict.get (key (strip question1)) (cache s1) = Some (stored, ts)
             /\ heap s1 !! stored = Some kept
             /\ answer kept = answer r1).
  { destruct (query_ok _ _ _ _ _ _ _ _ _ _ _ _ Hfirst) as (r & Hr & Hcases).
    rewrite Hout1 in Hr. injection Hr as <-.
    destruct Hcases as [(_ & _ & Hc & cached & ts & stored & Hget & Hst & Ha)
                       |(_ & _ & Hcopy)].
    - exists cached, ts, stored. rewrite Hc. cbn [or_empty] in Hget.
      repeat split; [exact Hget|exact Hst|now symmetry].
    - cbn [or_empty] in Hcopy.
      destruct (Hcopy Hq1) as (copy & Hget & Hst); [now rewrite Hen|].
      exists copy, (now_write env1), r1. repeat split; assumption. }
  destruct Hentry as (stored & ts & kept & Hget & Hkept & Hanswer).
  pose proof (Hlive stored ts Hget) as Hfresh.
  rewrite <- Hsame in Hget.
  rewrite (query_hit lower is_decimal md5_hexdigest cfg
                     env2 (Some question2) top_k2 use_rerank2 s1
                     stored ts kept Hq2 Hen Hget Hfresh Hkept).
  eexists _, _, _. split; [reflexivity|]. cbn [heap].
  split; [apply DictFacts.lookup_snoc|].
  split; [reflexivity|exact Hanswer].
Qed.

(** A fresh answer hands out one dictionary and stores another. *)
Lemma after_fresh_copy env question_clean result c s :
  Dict.get (key question_clean)
           (cache (after_fresh env question_clean true result c s))
  = Some (S (length (heap s)), now_write env)
  /\ heap (after_fresh env question_clean true result c s)
       !! S (length (heap s)) = Some result.
Proof.
  unfold Paths.after_fresh. cbn [heap cache]. split.
  - rewrite DictFacts.get_set_eq, length_app. cbn [length].
    do 2 f_equal. lia.
  - replace (S (length (heap s))) with (length (heap s ++ [result]))
      by (rewrite length_app; cbn [length]; lia).
    apply DictFacts.lookup_snoc.
Qed.

(** [X14] A fresh answer to a question that encodes in UTF-8, written
    to the cache, is stored as a copy: the dictionary that the caller
    receives and the one that the cache keeps are two new objects with
    the same fields, so assigning to a key of the former leaves the
    latter as it is. *)
Theorem fresh_answer_is_cached_as_a_copy
        env question top_k use_rerank s docs_scores :
  strip (or_empty question) <> [] ->
  utf8_encodable (strip (lower (strip (or_empty question)))) = true ->
  enable_cache cfg = true ->
  0 < cache_max_size cfg ->
  no_live_entry env (strip (or_empty question)) true s ->
  search env (strip (or_empty question)) (retrieval_count cfg top_k)
  = Ok docs_scores ->
  exists out s' r copy,
    query env question top_k true use_rerank s = (Ok out, s')
    /\ heap s' !! out = Some r
    /\ from_cache r = false
    /\ Dict.get (key (strip (or_empty question))) (cache s')
       = Some (copy, now_write env)
    /\ heap s' !! copy = Some r
    /\ copy <> out
    /\ heap s !! out = None
    /\ heap s !! copy = None
    /\ forall f, heap (snd (store out f s')) !! copy = Some r.
Proof.
  intros Hq _ Hen Hmax Hmiss Hsearch.
  destruct (query_fresh env question top_k true use_rerank s docs_scores
                        Hq Hmax Hmiss Hsearch) as [c Hrun].
  rewrite Hen in Hrun. cbn [andb] in Hrun.
  destruct (after_fresh_copy env (strip (or_empty question))
              (fresh_result is_decimal env
                 (final_answer env (strip (or_empty question)) use_rerank
                               docs_scores)
                 (final_passages (strip (or_empty question)) use_rerank
                                 docs_scores)) c s) as [Hget Hcopy].
  eexists _, _, _, _. split; [exact Hrun|].
  split; [apply after_fresh_result|].
  split; [reflexivity|]. split; [exact Hget|]. split; [exact Hcopy|].
  split; [lia|].
  split; [apply lookup_ge_None_2; lia|].
  split; [apply lookup_ge_None_2; lia|].
  intros f. unfold store. rewrite after_fresh_result. cbn [snd heap].
  rewrite list_lookup_insert_ne by lia. exact Hcopy.
Qed.


Lemma set_cache_metrics env question result s :
  metrics (snd (_set_cache env question result s)) = metrics s.
Proof.
  rewrite set_cache_run. unfold Runs.insert_copy.
  destruct (_ <=? _); [destruct (Dict.min_key snd (cache s))|];
    try destruct (heap s !! result); reflexivity.
Qed.

(** What one call does to the metrics, whether it returns or raises:
    it is counted alone (retrieval raised), as a hit, or as a fresh
    answer. *)
Lemma query_metrics env question top_k use_cache use_rerank s :
  let m' := metrics (snd (query env question top_k use_cache use_rerank s)) in
  m' = incr_total_queries (metrics s)
  \/ m' = count_hit (measured env) (metrics s)
  \/ m' = count_fresh (measured env) (metrics s).
Proof.
  cbv zeta.
  destruct (strip (or_empty question)) as [|c0 qc] eqn:Hq.
  - rewrite (query_empty _ _ _ _ _ _ _ _ _ _ Hq). right; right. reflexivity.
  - rewrite query_run by congruence. cbv zeta. rewrite Hq.
    set (s0 := with_metrics _ s).
    assert (Hrun : forall s1,
               metrics s1 = metrics s0 ->
               let m' := metrics (snd (answer_uncached env (c0 :: qc) top_k
                                         use_cache use_rerank (t_start env)
                                         s1)) in
               m' = incr_total_queries (metrics s)
               \/ m' = count_fresh (measured env) (metrics s)).
    { intros s1 Hm. cbv zeta. rewrite answer_uncached_run.
      destruct (search env _ _) as [docs_scores|e]; [|now left].
      right. rewrite finalize_run. cbv zeta.
      destruct (use_cache && enable_cache cfg).
      - match goal with
        | |- context [_set_cache ?e ?q ?r ?st] =>
            pose proof (set_cache_metrics e q r st) as Hset;
            destruct (_set_cache e q r st) as [[[]|err] s2]
        end; cbn [snd metrics] in *; rewrite Hset, Hm; reflexivity.
      - cbn [snd metrics]. now rewrite Hm. }
    destruct (use_cache && enable_cache cfg).
    + rewrite answer_cached_run. cbn [with_metrics heap cache metrics s0].
      destruct (Dict.get _ _) as [[cached ts]|].
      * destruct (_ >? _).
        -- destruct (Hrun (with_cache (Dict.del (key (c0 :: qc)) (cache s)) s0)
                          eq_refl) as [H|H]; auto.
        -- cbv zeta. destruct (heap s !! cached); right; left; reflexivity.
      * destruct (Hrun s0 eq_refl) as [H|H]; auto.
    + destruct (Hrun s0 eq_refl) as [H|H]; auto.
Qed.

Lemma after_calls_snoc calls c s :
  after_calls lower is_decimal md5_hexdigest cfg (calls ++ [c]) s
  = snd (run_call lower is_decimal md5_hexdigest cfg c
                  (after_calls lower is_decimal md5_hexdigest cfg calls s)).
Proof. unfold after_calls. now rewrite List.fold_left_app. Qed.

Lemma counters_after_calls calls :
  let m := metrics (after_calls lower is_decimal md5_hexdigest cfg calls
                                initial_state) in
  total_queries m = Z.of_nat (length calls)
  /\ 0 <= cache_hits m
  /\ 0 <= uncached_queries m
  /\ cache_hits m + uncached_queries m <= total_queries m.
Proof.
  induction calls as [|c calls IH] using List.rev_ind;
    [cbn; repeat split; lia|].
  cbv zeta in *. rewrite after_calls_snoc, length_app. cbn [length].
  set (s := after_calls _ _ _ _ calls initial_state) in *.
  destruct IH as (Ht & Hh & Hu & Hle).
  unfold run_call.
  destruct (query_metrics (call_env c) (call_question c) (call_top_k c)
                          (call_use_cache c) (call_use_rerank c) s)
    as [H|[H|H]]; rewrite H;
    cbn [count_hit count_fresh count_finalize add_latency_uncached
           incr_uncached_queries add_latency_e2e incr_cache_hits
           incr_total_queries total_queries cache_hits uncached_queries];
    repeat split; lia.
Qed.

(** [X15] After any calls of [query] on a new pipeline, returned or
    raised, [total_queries] is the number of calls, and hits and
    uncached queries together do not exceed it (a call whose retrieval
    raised is in neither); the reported hit rate lies between 0
    and 1. *)
Theorem counters_stay_consistent (calls : list Call) :
  total_queries
    (metrics (after_calls lower is_decimal md5_hexdigest cfg calls
                          initial_state))
  = Z.of_nat (length calls)
  /\ 0 <= cache_hits
            (metrics (after_calls lower is_decimal md5_hexdigest cfg calls
                                  initial_state))
  /\ 0 <= uncached_queries
            (metrics (after_calls lower is_decimal md5_hexdigest cfg calls
                                  initial_state))
  /\ cache_hits
       (metrics (after_calls lower is_decimal md5_hexdigest cfg calls
                             initial_state))
     + uncached_queries
         (metrics (after_calls lower is_decimal md5_hexdigest cfg calls
                               initial_state))
     <= Z.of_nat (length calls)
  /\ (0 <= r_cache_hit_rate
             (get_metrics (after_calls lower is_decimal md5_hexdigest cfg
                                       calls initial_state))
      <= 1)%Q.
Proof.
  pose proof (counters_after_calls calls) as H. cbv zeta in H.
  destruct H as (Ht & Hh & Hu & Hle).
  split; [exact Ht|]. split; [exact Hh|]. split; [exact Hu|].
  split; [lia|].
  unfold get_metrics. cbn [r_cache_hit_rate].
  apply NumFacts.py_round_unit.
  destruct (_ =? 0) eqn:Hz; [split; discriminate|].
  apply Z.eqb_neq in Hz.
  set (m := metrics _) in *.
  assert (Hpos : (0 < inject_Z (total_queries m))%Q).
  { replace 0%Q with (inject_Z 0) by reflexivity. rewrite <- Zlt_Qlt. lia. }
  split.
  - apply Qle_shift_div_l; [exact Hpos|]. rewrite Qmult_0_l.
    replace 0%Q with (inject_Z 0) by reflexivity. now rewrite <- Zle_Qle.
  - apply Qle_shift_div_r; [exact Hpos|]. rewrite Qmult_1_l.
    rewrite <- Zle_Qle. lia.
Qed.

(** [X16] In a pipeline reached from a new one by calls of [query],
    whatever they were, the live entry of a question is always served:
    the dictionary it refers to exists, and the call returns a result
    marked as cached with the stored answer, sources and confidence. *)
Theorem live_entry_is_always_served
        (calls : list Call) env question top_k use_rerank cached ts :
  strip (or_empty question) <> [] ->
  enable_cache cfg = true ->
  Dict.get (key (strip (or_empty question)))
           (cache (after_calls lower is_decimal md5_hexdigest cfg calls
                               initial_state))
  = Some (cached, ts) ->
  now_read env - ts <= seconds (cache_ttl cfg) ->
  exists out s' r stored,
    query env question top_k true use_rerank
          (after_calls lower is_decimal md5_hexdigest cfg calls
                       initial_state)
    = (Ok out, s')
    /\ heap (after_calls lower is_decimal md5_hexdigest cfg calls
                         initial_state) !! cached = Some stored
    /\ heap s' !! out = Some r
    /\ from_cache r = true
    /\ answer r = answer stored
    /\ sources r = sources stored
    /\ confidence r = confidence stored.
Proof.
  intros Hq Hen Hget Hlive.
  set (s := after_calls _ _ _ _ calls initial_state) in *.
  assert (Hwf : well_formed s)
    by (apply after_calls_wf, initial_state_well_formed).
  destruct (well_formed_entry s _ _ _ Hwf Hget) as [stored Hstored].
  rewrite (query_hit lower is_decimal md5_hexdigest cfg env question top_k
                     use_rerank s cached ts stored Hq Hen Hget Hlive
                     Hstored).
  eexists _, _, _, stored. split; [reflexivity|].
  split; [exact Hstored|]. cbn [heap].
  split; [apply DictFacts.lookup_snoc|]. repeat split.
Qed.


Lemma format_sources_best_first (docs_scores : list (Document * Q)) :
  ranked docs_scores -> best_first (_format_sources docs_scores).
Proof.
  unfold ranked, best_first, _format_sources.
  induction 1 as [|ds l Hl IH Hds]; cbn [List.map]; constructor;
    [exact IH|].
  apply List.Forall_forall. intros src Hsrc.
  apply List.in_map_iff in Hsrc. destruct Hsrc as (ds' & <- & Hin).
  cbn [src_score]. apply NumFacts.py_round_mono.
  rewrite List.Forall_forall in Hds. now apply Hds.
Qed.

Lemma final_passages_ranked question_clean use_rerank docs_scores :
  (use_rerank = false -> ranked docs_scores) ->
  ranked (final_passages question_clean use_rerank docs_scores).
Proof.
  intros Hdocs. unfold Runs.final_passages.
  destruct docs_scores as [|ds0 docs_scores]; [constructor|].
  destruct use_rerank.
  - rewrite RerankerFacts.rerank_unfold. unfold slice_to.
    destruct (0 <=? _);
      apply RerankerFacts.descending_firstn,
            RerankerFacts.sort_desc_descending.
  - unfold slice_to.
    destruct (0 <=? _); apply RerankerFacts.descending_firstn;
      now apply Hdocs.
Qed.

Lemma final_passages_length question_clean use_rerank docs_scores :
  0 <= top_k_final cfg ->
  Z.of_nat (length (final_passages question_clean use_rerank docs_scores))
  <= top_k_final cfg.
Proof.
  intros Hk. unfold Runs.final_passages.
  destruct docs_scores as [|ds0 docs_scores]; [cbn; lia|].
  assert (Hcut : forall l : list (Document * Q),
             Z.of_nat (length (slice_to l (top_k_final cfg)))
             <= top_k_final cfg).
  { intros l. unfold slice_to.
    replace (0 <=? top_k_final cfg) with true
      by (symmetry; now apply Z.leb_le).
    rewrite List.length_firstn. lia. }
  destruct use_rerank; [|apply Hcut].
  rewrite RerankerFacts.rerank_unfold. apply Hcut.
Qed.

(** [X17] A fresh answer, to a question whose cache key can be
    computed (it encodes in UTF-8, or the cache is off), lists at most
    [top_k_final] sources, best first: their scores never increase
    down the list when the passages were reranked, or when the vector
    store returned them best first. The evidence is as long as the
    sources, up to three. *)
Theorem sources_come_best_first
        env question top_k use_cache use_rerank s docs_scores :
  strip (or_empty question) <> [] ->
  key_computable (strip (or_empty question)) use_cache ->
  0 < cache_max_size cfg ->
  0 <= top_k_final cfg ->
  no_live_entry env (strip (or_empty question)) use_cache s ->
  search env (strip (or_empty question)) (retrieval_count cfg top_k)
  = Ok docs_scores ->
  (use_rerank = false -> ranked docs_scores) ->
  exists out s' r,
    query env question top_k use_cache use_rerank s = (Ok out, s')
    /\ heap s' !! out = Some r
    /\ Z.of_nat (length (sources r)) <= top_k_final cfg
    /\ best_first (sources r)
    /\ length (evidence r) = Nat.min 3 (length (sources r)).
Proof.
  intros Hq _ Hmax Hk Hmiss Hsearch Hdocs.
  destruct (query_fresh env question top_k use_cache use_rerank s
                        docs_scores Hq Hmax Hmiss Hsearch) as [c Hrun].
  eexists _, _, _. split; [exact Hrun|].
  split; [apply after_fresh_result|].
  cbn [fresh_result sources evidence].
  rewrite EvidenceFacts.format_sources_length.
  split; [now apply final_passages_length|].
  split; [|apply EvidenceFacts.build_evidence_length].
  now apply format_sources_best_first, final_passages_ranked.
Qed.

End WithRuntime.
End QueryPaths.

(** ** The vector store *)

Module VectorStoreFacts.

Import VectorStore Reranker Paths.
Local Open Scope Q_scope.

(** The conversion of a distance: [1 / (1 + dist)]. *)
Lemma to_similarities_ok (results : list (Document * Q)) :
  List.Forall (fun r => 0 <= snd r) results ->
  to_similarities results
  = Found (List.map (fun r => (fst r, 1 / (1 + snd r))) results).
Proof.
  induction 1 as [|[doc dist] results Hd _ IH]; [reflexivity|].
  cbn [to_similarities List.map fst snd] in *.
  destruct (Qeq_bool (1 + dist) 0) eqn:E.
  - apply Qeq_bool_iff in E. lra.
  - now rewrite IH.
Qed.

Lemma similarity_range (dist : Q) : 0 <= dist -> 0 < 1 / (1 + dist) <= 1.
Proof.
  intros Hd. split.
  - apply Qlt_shift_div_l; lra.
  - apply Qle_shift_div_r; lra.
Qed.

(** A smaller distance is a larger similarity. *)
Lemma similarity_antitone (d1 d2 : Q) :
  0 <= d1 -> d1 <= d2 -> 1 / (1 + d2) <= 1 / (1 + d1).
Proof.
  intros H1 H12.
  apply Qle_shift_div_l; [lra|].
  unfold Qdiv. rewrite <- Qmult_assoc, (Qmult_comm (/ _)), Qmult_assoc.
  apply Qle_shift_div_r; [lra|]. lra.
Qed.

(** Sorting leaves a list that is already in order as it is. *)
Lemma sort_desc_ranked {A} (l : list (A * Q)) :
  StronglySorted (fun a b => snd b <= snd a) l -> sort_desc l = l.
Proof.
  induction 1 as [|x l Hl IH Hx]; [reflexivity|].
  unfold sort_desc in *. cbn [List.fold_right]. rewrite IH.
  destruct l as [|y l]; [reflexivity|]. cbn [insert_desc].
  destruct (Qlt_le_dec (snd x) (snd y)) as [Hlt|_]; [|reflexivity].
  apply List.Forall_inv in Hx. lra.
Qed.

Lemma nearest_first_ranked (results : list (Document * Q)) :
  List.Forall (fun r => 0 <= snd r) results ->
  nearest_first results ->
  ranked (List.map (fun r => (fst r, 1 / (1 + snd r))) results).
Proof.
  unfold nearest_first, ranked. intros Hpos Hsorted.
  induction Hsorted as [|r results Hs IH Hr]; cbn [List.map];
    constructor.
  - apply IH. now apply List.Forall_inv_tail in Hpos.
  - apply List.Forall_forall. intros r' Hr'.
    apply List.in_map_iff in Hr'. destruct Hr' as (r0 & <- & Hin).
    cbn [snd]. apply similarity_antitone.
    + now apply List.Forall_inv in Hpos.
    + rewrite List.Forall_forall in Hr. now apply Hr.
Qed.

(** [X18] On a loaded store whose collection returns distances that
    are not negative, [search] returns the results with each distance
    [dist] turned into the similarity [1 / (1 + dist)]: the same
    documents, each with the similarity of its own distance, reordered
    so that the similarities never increase down the list. Every
    similarity lies in (0, 1]. *)
Theorem search_returns_ranked_similarities
        (cfg : Config) (collection : Collection) (query : pystr)
        (k : option Z) (results : list (Document * Q)) :
  collection query (effective_k cfg k) = Some results ->
  List.Forall (fun r => 0 <= snd r) results ->
  exists out,
    search cfg {| db := Some collection |} query k = Found out
    /\ Permutation out
                   (List.map (fun r => (fst r, 1 / (1 + snd r))) results)
    /\ length out = length results
    /\ List.Forall (fun ds => 0 < snd ds <= 1) out
    /\ ranked out.
Proof.
  intros Hres Hpos. unfold search. cbn [db]. rewrite Hres.
  rewrite (to_similarities_ok _ Hpos).
  set (sims := List.map _ results).
  exists (sort_desc sims). split; [reflexivity|].
  pose proof (RerankerFacts.sort_desc_perm sims) as Hperm.
  split; [exact Hperm|].
  split.
  { rewrite (Permutation_length Hperm). apply List.length_map. }
  split.
  - apply List.Forall_forall. intros ds Hds.
    apply (Permutation_in _ Hperm) in Hds.
    apply List.in_map_iff in Hds. destruct Hds as (r & <- & Hr).
    cbn [snd]. apply similarity_range.
    rewrite List.Forall_forall in Hpos. now apply Hpos.
  - apply RerankerFacts.sort_desc_descending.
Qed.

(** [X19] When the collection returns its results nearest first, as a
    similarity search does, [search] keeps their order: a smaller distance
    is a larger similarity, and the sort moves nothing. *)
Theorem search_keeps_nearest_first_order
        (cfg : Config) (collection : Collection) (query : pystr)
        (k : option Z) (results : list (Document * Q)) :
  collection query (effective_k cfg k) = Some results ->
  List.Forall (fun r => 0 <= snd r) results ->
  nearest_first results ->
  search cfg {| db := Some collection |} query k
  = Found (List.map (fun r => (fst r, 1 / (1 + snd r))) results).
Proof.
  intros Hres Hpos Hnear. unfold search. cbn [db]. rewrite Hres.
  rewrite (to_similarities_ok _ Hpos). f_equal.
  apply sort_desc_ranked. now apply nearest_first_ranked.
Qed.

End VectorStoreFacts.

(** ** The evaluation *)

Module EvaluationFacts.

Import RAGPipeline Runs Evaluation PipelineFacts.

Lemma filter_length_le {A} (f : A -> bool) (l : list A) :
  (length (List.filter f l) <= length l)%nat.
Proof.
  induction l as [|a l IH]; cbn [List.filter length]; [lia|].
  destruct (f a); cbn [length]; lia.
Qed.

Lemma filter_length_all {A} (f : A -> bool) (l : list A) :
  length (List.filter f l) = length l <-> List.Forall (fun a => f a = true) l.
Proof.
  induction l as [|a l IH]; cbn [List.filter length].
  - split; [constructor|reflexivity].
  - pose proof (filter_length_le f l) as Hle.
    destruct (f a) eqn:E; cbn [length]; split.
    + intros [= H]. constructor; [exact E|now apply IH].
    + intros H. apply List.Forall_inv_tail in H. f_equal. now apply IH.
    + lia.
    + intros H. apply List.Forall_inv in H. congruence.
Qed.

Lemma sum_Q_bounds (xs : list Q) (a : Q) :
  List.Forall (fun x => 0 <= x <= 1)%Q xs ->
  (a <= List.fold_left Qplus xs a
   <= a + inject_Z (Z.of_nat (length xs)))%Q.
Proof.
  intros H. revert a. induction H as [|x xs [H0 H1] _ IH]; intros a.
  - cbn [List.fold_left length]. change (inject_Z (Z.of_nat 0)) with 0%Q.
    split; lra.
  - cbn [List.fold_left length]. destruct (IH (a + x)%Q) as [Hlo Hhi].
    rewrite Nat2Z.inj_succ, <- Z.add_1_r, inject_Z_plus.
    change (inject_Z 1) with 1%Q. split; lra.
Qed.

Lemma sum_Z_from (xs : list Z) (a : Z) :
  List.fold_left Z.add xs a = a + sum_Z xs.
Proof.
  unfold sum_Z. revert a.
  induction xs as [|x xs IH]; intros a; cbn [List.fold_left]; [lia|].
  rewrite (IH (a + x)), (IH (0 + x)). lia.
Qed.

Lemma sum_Z_cons (x : Z) (xs : list Z) : sum_Z (x :: xs) = x + sum_Z xs.
Proof.
  unfold sum_Z at 1. cbn [List.fold_left]. rewrite sum_Z_from. lia.
Qed.

Lemma sum_Z_add {A} (f g : A -> Z) (l : list A) :
  sum_Z (List.map (fun a => f a + g a) l)
  = sum_Z (List.map f l) + sum_Z (List.map g l).
Proof.
  induction l as [|a l IH]; [reflexivity|].
  cbn [List.map]. rewrite !sum_Z_cons, IH. lia.
Qed.

Lemma sum_Z_zero {A} (l : list A) : sum_Z (List.map (fun _ => 0) l) = 0.
Proof.
  induction l as [|a l IH]; [reflexivity|].
  cbn [List.map]. now rewrite sum_Z_cons, IH.
Qed.

(** Over names that are all different, the name of [x] is met once. *)
Lemma sum_Z_indicator (x : pystr) (names : list pystr) :
  List.NoDup names -> In x names ->
  sum_Z (List.map (fun name => if pystr_eqb x name then 1 else 0) names) = 1.
Proof.
  induction 1 as [|n names Hn Hnd IH]; [intros []|].
  cbn [List.map]. rewrite sum_Z_cons. intros [->|Hin].
  - rewrite DictFacts.pystr_eqb_refl.
    replace (sum_Z _) with 0; [lia|]. symmetry.
    erewrite List.map_ext_in; [apply sum_Z_zero|].
    intros n Hin. cbn beta. destruct (pystr_eqb x n) eqn:E; [|reflexivity].
    apply DictFacts.pystr_eqb_true in E. now subst.
  - rewrite IH by exact Hin.
    destruct (pystr_eqb x n) eqn:E; [|lia].
    apply DictFacts.pystr_eqb_true in E. now subst.
Qed.

(** The groups of names that are all different and include the name of
    every element share the elements out. *)
Lemma groups_partition {A} (field : A -> pystr) (names : list pystr)
      (l : list A) :
  List.NoDup names ->
  (forall a, In a l -> In (field a) names) ->
  sum_Z (List.map (fun name =>
                     Z.of_nat (length (List.filter
                                         (fun a => pystr_eqb (field a) name) l)))
                  names)
  = Z.of_nat (length l).
Proof.
  intros Hnd. induction l as [|a l IH]; intros Hin.
  - cbn [List.filter length]. apply sum_Z_zero.
  - cbn [List.filter].
    erewrite List.map_ext
      with (g := fun name =>
                   (if pystr_eqb (field a) name then 1 else 0)
                   + Z.of_nat (length (List.filter
                                         (fun a0 => pystr_eqb (field a0) name)
                                         l))).
    2:{ intros name. destruct (pystr_eqb (field a) name); cbn [length]; lia. }
    rewrite sum_Z_add, IH, sum_Z_indicator.
    + cbn [length]. lia.
    + exact Hnd.
    + apply Hin. now left.
    + intros a0 Ha0. apply Hin. now right.
Qed.

Lemma insert_str_perm x l : Permutation (insert_str x l) (x :: l).
Proof.
  induction l as [|y l IH]; cbn [insert_str]; [reflexivity|].
  destruct (str_leb x y); [reflexivity|].
  rewrite IH. apply perm_swap.
Qed.

Lemma sorted_set_perm xs : Permutation (sorted_set xs) (to_set xs).
Proof.
  unfold sorted_set. induction (to_set xs) as [|x l IH]; [reflexivity|].
  cbn [List.fold_right]. rewrite insert_str_perm. now constructor.
Qed.

Lemma sorted_set_NoDup xs : List.NoDup (sorted_set xs).
Proof.
  eapply Permutation_NoDup; [symmetry; apply sorted_set_perm|].
  apply List.NoDup_nodup.
Qed.

Lemma sorted_set_In x xs : In x (sorted_set xs) <-> In x xs.
Proof.
  split; intros H.
  - apply (Permutation_in _ (sorted_set_perm xs)) in H.
    now apply List.nodup_In in H.
  - apply (Permutation_in _ (Permutation_sym (sorted_set_perm xs))).
    now apply List.nodup_In.
Qed.

(** A breakdown shares the details out among its groups, and has no
    empty group. *)
Lemma breakdown_partition (field : Detail -> pystr) (results : list Detail) :
  sum_Z (List.map (fun g => g_count (snd g)) (breakdown field results))
  = Z.of_nat (length results)
  /\ List.Forall (fun g => 1 <= g_count (snd g)) (breakdown field results)
  /\ List.NoDup (List.map fst (breakdown field results)).
Proof.
  unfold breakdown. rewrite !List.map_map. cbn [fst snd group_of g_count].
  split; [|split].
  - apply groups_partition; [apply sorted_set_NoDup|].
    intros a Ha. apply sorted_set_In. now apply List.in_map.
  - apply List.Forall_forall. intros g Hg.
    apply List.in_map_iff in Hg. destruct Hg as (name & <- & Hname).
    cbn [snd g_count]. apply (proj1 (sorted_set_In _ _)) in Hname.
    apply List.in_map_iff in Hname. destruct Hname as (r & Hr & Hin).
    assert (Hone : forall l : list Detail,
               In r l -> 1 <= Z.of_nat (length l))
      by (intros [|d l] H; [destruct H|cbn [length]; lia]).
    apply Hone. apply List.filter_In. split; [exact Hin|]. rewrite Hr.
    apply DictFacts.pystr_eqb_refl.
  - rewrite List.map_id. apply sorted_set_NoDup.
Qed.

Section WithRuntime.

Variable lower : pystr -> pystr.
Variable is_decimal : N -> bool.
Variable md5_hexdigest : pystr -> pystr.
Variable cfg : Config.

Local Open Scope Q_scope.

Lemma keyword_match_score_range answer keywords :
  0 <= keyword_match_score lower answer keywords <= 1.
Proof.
  unfold keyword_match_score.
  destruct keywords as [|kw keywords]; [split; discriminate|].
  set (kws := kw :: keywords).
  set (hits := length (List.filter _ kws)).
  assert (Hle : (hits <= length kws)%nat) by apply filter_length_le.
  assert (Hpos : 0 < inject_Z (Z.of_nat (length kws))).
  { replace 0 with (inject_Z 0) by reflexivity. rewrite <- Zlt_Qlt.
    unfold kws. cbn [length]. lia. }
  split.
  - apply Qle_shift_div_l; [exact Hpos|]. rewrite Qmult_0_l.
    replace 0 with (inject_Z 0) by reflexivity. rewrite <- Zle_Qle. lia.
  - apply Qle_shift_div_r; [exact Hpos|]. rewrite Qmult_1_l.
    rewrite <- Zle_Qle. lia.
Qed.

(** [X21] The keyword score lies between 0 and 1. It is 0 when no
    keyword is expected, and otherwise 1 exactly when every keyword
    occurs in the answer, case put aside; a missing answer counts as
    the empty one. *)
Theorem keyword_match_score_is_a_coverage
        (answer : option pystr) (kw : pystr) (keywords : list pystr) :
  0 <= keyword_match_score lower answer (kw :: keywords) <= 1
  /\ keyword_match_score lower answer [] = 0
  /\ (keyword_match_score lower answer (kw :: keywords) == 1
      <-> List.Forall (fun k => contains (lower k)
                                  (lower (or_empty answer)) = true)
                      (kw :: keywords))
  /\ keyword_match_score lower None (kw :: keywords)
     = keyword_match_score lower (Some []) (kw :: keywords).
Proof.
  split; [apply keyword_match_score_range|].
  split; [reflexivity|]. split; [|reflexivity].
  unfold keyword_match_score.
  set (kws := kw :: keywords).
  set (f := fun k => contains (lower k) (lower (or_empty answer))).
  assert (Hne : ~ inject_Z (Z.of_nat (length kws)) == 0).
  { assert (Hpos : 0 < inject_Z (Z.of_nat (length kws))).
    { replace 0 with (inject_Z 0) by reflexivity. rewrite <- Zlt_Qlt.
      unfold kws. cbn [length]. lia. }
    intros H. rewrite H in Hpos. now apply Qlt_irrefl in Hpos. }
  fold f. split.
  - intros H. apply (filter_length_all f kws).
    assert (H' : inject_Z (Z.of_nat (length (List.filter f kws)))
                 == inject_Z (Z.of_nat (length kws))).
    { rewrite <- (Qmult_1_l (inject_Z (Z.of_nat (length kws)))).
      rewrite <- H. field. exact Hne. }
    unfold Qeq in H'. cbn [Qnum Qden inject_Z] in H'. lia.
  - intros H. apply (filter_length_all f kws) in H. rewrite H.
    field. exact Hne.
Qed.


Local Close Scope Q_scope.

Local Abbreviation query := (query lower is_decimal md5_hexdigest cfg).
Local Abbreviation run_items :=
  (run_items lower is_decimal md5_hexdigest cfg).
Local Abbreviation evaluate_rag :=
  (evaluate_rag lower is_decimal md5_hexdigest cfg).
Local Abbreviation evaluate_dataset :=
  (evaluate_dataset lower is_decimal md5_hexdigest cfg).

(** One call of the evaluation, run. *)
Lemma query_without_cache env (question : pystr) s :
  answerable cfg (mkItem question None None None None, env) ->
  exists r,
    query env (Some question) None false true s
    = (Ok (length (heap s)),
       {| heap := heap s ++ [r];
          cache := cache s;
          metrics := count_fresh (measured env) (metrics s) |}).
Proof.
  unfold answerable. cbn [fst snd item_question]. intros Hq.
  destruct (strip question) as [|c0 qc] eqn:Hstrip.
  - rewrite (query_empty lower is_decimal md5_hexdigest cfg env
                         (Some question) None false true s Hstrip).
    now eexists.
  - destruct Hq as [Hq|[docs_scores Hsearch]]; [discriminate|].
    rewrite query_run by (cbn [or_empty]; congruence). cbv zeta.
    cbn [andb or_empty]. rewrite Hstrip.
    rewrite answer_uncached_run. unfold retrieval_count.
    rewrite Hsearch, finalize_run. cbv zeta. cbn [andb].
    now eexists.
Qed.

Lemma run_items_cons idx item env dataset s :
  run_items idx ((item, env) :: dataset) s
  = match query env (Some (item_question item)) None false true s with
    | (Raise e, s1) => (Raise e, s1)
    | (Ok output, s1) =>
        match heap s1 !! output with
        | None => (Raise ValueError, s1)
        | Some out =>
            match run_items (idx + 1) dataset s1 with
            | (Raise e, s2) => (Raise e, s2)
            | (Ok results, s2) =>
                (Ok ({| d_id := match item_id item with
                                | Some i => i
                                | None => idx
                                end;
                        d_question := item_question item;
                        d_answer := answer out;
                        d_category := match item_category item with
                                      | Some c => c
                                      | None => lit "unknown"
                                      end;
                        d_difficulty := match item_difficulty item with
                                        | Some c => c
                                        | None => lit "unknown"
                                        end;
                        d_keyword_match :=
                          keyword_match_score lower (Some (answer out))
                            (match item_expected_keywords item with
                             | Some kws => kws
                             | None => []
                             end);
                        d_latency_ms := latency_ms out |} :: results),
                 s2)
            end
        end
    end.
Proof.
  cbn [Evaluation.run_items]. run.
  destruct (query _ _ _ _ _ _) as [[output|e] s1]; [|reflexivity].
  cbn [fst snd]. destruct (heap s1 !! output) as [out|]; [|reflexivity].
  destruct (run_items _ _ _) as [[results|e] s2]; reflexivity.
Qed.

Lemma run_items_length idx dataset s results s' :
  run_items idx dataset s = (Ok results, s') ->
  length results = length dataset.
Proof.
  revert idx s results s'.
  induction dataset as [|[item env] dataset IH]; intros idx s results s'.
  - cbn. now intros [= <- _].
  - rewrite run_items_cons.
    destruct (query _ _ _ _ _ _) as [[output|e] s1]; [|discriminate].
    destruct (heap s1 !! output) as [out|]; [|discriminate].
    destruct (run_items _ _ _) as [[rest|e] s2] eqn:Hrest; [|discriminate].
    intros [= <- _]. cbn [length]. f_equal. eapply IH, Hrest.
Qed.

Lemma run_items_ok idx dataset s :
  List.Forall (answerable cfg) dataset ->
  exists results s',
    run_items idx dataset s = (Ok results, s')
    /\ cache s' = cache s
    /\ total_queries (metrics s')
       = total_queries (metrics s) + Z.of_nat (length dataset)
    /\ cache_hits (metrics s') = cache_hits (metrics s)
    /\ uncached_queries (metrics s')
       = uncached_queries (metrics s) + Z.of_nat (length dataset)
    /\ List.Forall (fun d => (0 <= d_keyword_match d <= 1)%Q) results.
Proof.
  intros Hall. revert idx s.
  induction Hall as [|[item env] dataset Hitem _ IH]; intros idx s.
  - exists [], s. cbn. repeat split; try lia. constructor.
  - rewrite run_items_cons.
    destruct (query_without_cache env (item_question item) s Hitem)
      as [r ->].
    cbn [heap]. rewrite DictFacts.lookup_snoc.
    destruct (IH (idx + 1)
                 {| heap := heap s ++ [r]; cache := cache s;
                    metrics := count_fresh (measured env) (metrics s) |})
      as (results & s' & -> & Hc & Ht & Hh & Hu & Hkm).
    eexists _, s'. split; [reflexivity|].
    cbn [heap cache metrics count_fresh count_finalize
           add_latency_uncached incr_uncached_queries add_latency_e2e
           incr_total_queries total_queries cache_hits uncached_queries
           length] in *.
    split; [exact Hc|]. split; [lia|]. split; [exact Hh|].
    split; [lia|]. constructor; [|exact Hkm].
    cbn [d_keyword_match]. apply keyword_match_score_range.
Qed.

(** The report of the loop, when no call can raise. *)
Lemma evaluate_dataset_ok (dataset : list (Item * Env)) :
  List.Forall (answerable cfg) dataset ->
  exists report s,
    evaluate_dataset dataset = (Ok report, s)
    /\ total_questions report = Z.of_nat (length dataset)
    /\ length (details report) = length dataset
    /\ total_queries (metrics s) = Z.of_nat (length dataset)
    /\ uncached_queries (metrics s) = Z.of_nat (length dataset)
    /\ cache_hits (metrics s) = 0
    /\ cache s = []
    /\ (0 <= avg_keyword_match report <= 1)%Q.
Proof.
  intros Hall. unfold Evaluation.evaluate_dataset.
  destruct (run_items_ok 1 dataset initial_state Hall)
    as (results & s & Hrun & Hc & Ht & Hh & Hu & Hkm).
  rewrite Hrun. eexists _, s. split; [reflexivity|].
  cbn [total_questions details avg_keyword_match].
  pose proof (run_items_length _ _ _ _ _ Hrun) as Hlen.
  split; [reflexivity|]. split; [exact Hlen|].
  split; [exact Ht|]. split; [exact Hu|]. split; [exact Hh|].
  split; [exact Hc|].
  apply NumFacts.py_round_unit.
  destruct (_ =? 0) eqn:Hz; [split; discriminate|].
  apply Z.eqb_neq in Hz.
  assert (Hpos : (0 < inject_Z (Z.of_nat (length dataset)))%Q).
  { replace 0%Q with (inject_Z 0) by reflexivity. rewrite <- Zlt_Qlt. lia. }
  assert (Hsum : (0 <= sum_Q (List.map d_keyword_match results)
                  <= 0 + inject_Z (Z.of_nat (length dataset)))%Q).
  { rewrite <- Hlen, <- (List.length_map d_keyword_match results).
    apply sum_Q_bounds. apply List.Forall_forall. intros x Hx.
    apply List.in_map_iff in Hx. destruct Hx as (d & <- & Hd).
    rewrite List.Forall_forall in Hkm. now apply Hkm. }
  destruct Hsum as [Hlo Hhi]. split.
  - apply Qle_shift_div_l; [exact Hpos|]. now rewrite Qmult_0_l.
  - apply Qle_shift_div_r; [exact Hpos|]. rewrite Qmult_1_l.
    now rewrite Qplus_0_l in Hhi.
Qed.

(** [X22] When the dataset file exists and loads, the pipeline is
    constructed and no call can raise, [evaluate_rag] returns a report
    on every item, and it has asked each question once with the cache
    off: the pipeline it used has counted as many queries as items,
    all uncached, no hit, and its cache is empty. The average keyword
    match lies between 0 and 1. Where the file is missing it raises
    [FileNotFoundError], and where the pipeline cannot be constructed
    it raises before any question is asked. *)
Theorem evaluation_asks_every_question_uncached
        (dataset : list (Item * Env)) :
  List.Forall (answerable cfg) dataset ->
  (exists report s,
      evaluate_rag true (Some dataset) true = Returned report s
      /\ total_questions report = Z.of_nat (length dataset)
      /\ length (details report) = length dataset
      /\ total_queries (metrics s) = Z.of_nat (length dataset)
      /\ uncached_queries (metrics s) = Z.of_nat (length dataset)
      /\ cache_hits (metrics s) = 0
      /\ cache s = []
      /\ (0 <= avg_keyword_match report <= 1)%Q)
  /\ (forall json_load pipeline_built,
         evaluate_rag false json_load pipeline_built
         = Failed FileNotFoundError)
  /\ evaluate_rag true (Some dataset) false = Failed PipelineError.
Proof.
  intros Hall. split; [|split; reflexivity].
  destruct (evaluate_dataset_ok dataset Hall) as (report & s & Hrun & H).
  exists report, s. split; [|exact H].
  unfold Evaluation.evaluate_rag. cbn [negb]. now rewrite Hrun.
Qed.

(** [X23] In a report of [evaluate_rag], each of the two breakdowns
    shares the questions out: its names are all different, no group is
    empty (so no average divides by zero), and the counts add up to the
    number of questions. *)
Theorem evaluation_breakdowns_share_the_questions_out
        (path_exists : bool) (json_load : option (list (Item * Env)))
        (pipeline_built : bool) (report : Report) (s : State) :
  evaluate_rag path_exists json_load pipeline_built = Returned report s ->
  sum_Z (List.map (fun g => g_count (snd g)) (by_category report))
  = total_questions report
  /\ sum_Z (List.map (fun g => g_count (snd g)) (by_difficulty report))
     = total_questions report
  /\ List.Forall (fun g => 1 <= g_count (snd g)) (by_category report)
  /\ List.Forall (fun g => 1 <= g_count (snd g)) (by_difficulty report)
  /\ List.NoDup (List.map fst (by_category report))
  /\ List.NoDup (List.map fst (by_difficulty report)).
Proof.
  unfold Evaluation.evaluate_rag.
  destruct path_exists; [|discriminate]. cbn [negb].
  destruct json_load as [dataset|]; [|discriminate].
  destruct pipeline_built; [|discriminate]. cbn [negb].
  unfold Evaluation.evaluate_dataset.
  destruct (run_items 1 dataset initial_state) as [[results|e] s1] eqn:Hrun;
    [|discriminate].
  intros [= <- _].
  cbn [by_category by_difficulty total_questions].
  rewrite <- (run_items_length _ _ _ _ _ Hrun).
  destruct (breakdown_partition d_category results) as (H1 & H2 & H3).
  destruct (breakdown_partition d_difficulty results) as (H4 & H5 & H6).
  repeat split; assumption.
Qed.

End WithRuntime.

End EvaluationFacts.

(** ** The pipeline over the vector store, the PDF processor and the
    language model *)

Module ComponentFacts.

Import RAGPipeline Runs Paths PipelineFacts.

Section WithRuntime.

Variable lower : pystr -> pystr.
Variable is_decimal : N -> bool.
Variable md5_hexdigest : pystr -> pystr.
Variable cfg : Config.

Local Abbreviation query := (query lower is_decimal md5_hexdigest cfg).
Local Abbreviation key := (_get_cache_key lower md5_hexdigest).
Local Abbreviation answer_uncached :=
  (answer_uncached lower is_decimal md5_hexdigest cfg).
Local Abbreviation no_live_entry := (no_live_entry lower md5_hexdigest cfg).

Lemma search_zero_is_default (store : VectorStore.Store) (q : pystr) :
  VectorStore.as_pipeline_search cfg store q 0
  = VectorStore.as_pipeline_search cfg store q (top_k_retrieval cfg).
Proof.
  unfold VectorStore.as_pipeline_search, VectorStore.search,
    VectorStore.effective_k.
  cbn [Z.eqb]. now destruct (top_k_retrieval cfg =? 0).
Qed.

(** [X20] Over the vector store, a [top_k] of 0 does not ask for no
    passage: [search] takes a count of 0 for a missing one, so the
    call is the call without [top_k], which retrieves
    [top_k_retrieval] passages. *)
Theorem zero_top_k_means_the_default
        (store : VectorStore.Store) env question use_cache use_rerank s :
  (forall q k, search env q k = VectorStore.as_pipeline_search cfg store q k) ->
  query env question (Some 0) use_cache use_rerank s
  = query env question None use_cache use_rerank s.
Proof.
  intros Hsearch.
  destruct (strip (or_empty question)) as [|c0 qc] eqn:Hq.
  - now rewrite !(query_empty _ _ _ _ _ _ _ _ _ _ Hq).
  - rewrite !query_run by congruence. cbv zeta.
    assert (Hsame : forall s1,
               answer_uncached env (strip (or_empty question)) (Some 0)
                               use_cache use_rerank (t_start env) s1
               = answer_uncached env (strip (or_empty question)) None
                                 use_cache use_rerank (t_start env) s1).
    { intros s1. rewrite !answer_uncached_run. unfold retrieval_count.
      now rewrite !Hsearch, search_zero_is_default. }
    destruct (use_cache && enable_cache cfg); [|apply Hsame].
    destruct (RAGPipeline.answer_cached _ _ _ _ _ _ _)
      as [[[out|]|e] s1]; [reflexivity|apply Hsame|reflexivity].
Qed.

(** [X24] A failure of the language model is cached like an answer:
    for a question that encodes in UTF-8, [generate] turns the failure
    into the fallback sentence, the call returns that sentence as its
    answer and writes it to the cache, and the same question asked
    again within the TTL gets the fallback from the cache, whatever
    the model would answer by then. *)
Theorem model_failure_is_cached
        (invoke : list ContextBlock -> pystr -> option pystr)
        env1 env2 question top_k1 top_k2 use_rerank1 use_rerank2 s
        doc docs_scores :
  strip (or_empty question) <> [] ->
  utf8_encodable (strip (lower (strip (or_empty question)))) = true ->
  enable_cache cfg = true ->
  0 < cache_max_size cfg ->
  no_live_entry env1 (strip (or_empty question)) true s ->
  search env1 (strip (or_empty question)) (retrieval_count cfg top_k1)
  = Ok (doc :: docs_scores) ->
  (forall context q, generate env1 context q
                     = LLMClient.generate invoke context q) ->
  (forall context q, invoke context q = None) ->
  now_read env2 - now_write env1 <= seconds (cache_ttl cfg) ->
  exists out1 s1 r1 out2 s2 r2,
    query env1 question top_k1 true use_rerank1 s = (Ok out1, s1)
    /\ heap s1 !! out1 = Some r1
    /\ answer r1 = LLMClient.fallback
    /\ from_cache r1 = false
    /\ query env2 question top_k2 true use_rerank2 s1 = (Ok out2, s2)
    /\ heap s2 !! out2 = Some r2
    /\ answer r2 = LLMClient.fallback
    /\ from_cache r2 = true.
Proof.
  intros Hq _ Hen Hmax Hmiss Hsearch Hgen Hfail Hlive.
  destruct (QueryPaths.query_fresh lower is_decimal md5_hexdigest cfg
              env1 question top_k1 true use_rerank1 s (doc :: docs_scores)
              Hq Hmax Hmiss Hsearch) as [c Hrun].
  rewrite Hen in Hrun. cbn [andb] in Hrun.
  set (r1 := fresh_result is_decimal env1 _ _) in Hrun.
  assert (Hanswer : answer r1 = LLMClient.fallback).
  { unfold r1. cbn [fresh_result answer final_answer].
    rewrite Hgen. unfold LLMClient.generate. now rewrite Hfail. }
  destruct (QueryPaths.after_fresh_copy lower md5_hexdigest env1
              (strip (or_empty question)) r1 c s) as [Hget Hcopy].
  eexists _, _, r1, _, _, _. split; [exact Hrun|].
  split; [apply QueryPaths.after_fresh_result|].
  split; [exact Hanswer|]. split; [reflexivity|].
  split.
  { apply (query_hit lower is_decimal md5_hexdigest cfg env2 question
                     top_k2 use_rerank2 _ _ _ r1 Hq Hen Hget Hlive Hcopy). }
  cbn [heap]. split; [apply DictFacts.lookup_snoc|].
  split; [exact Hanswer|reflexivity].
Qed.

End WithRuntime.

(** [X25] [PDFProcessor.process] never returns: its first statement
    reads the local variable [text] before any assignment, which raises
    [UnboundLocalError] whatever the PDF and the splitter. So [create]
    builds no database (it does nothing when one exists and [force] is
    off, and raises otherwise), and a pipeline cannot be constructed
    where the database does not exist yet. *)
Theorem process_reads_text_before_assignment
        (str_replace : pystr -> pystr -> pystr -> pystr)
        (is_printable is_decimal : N -> bool)
        (load : unit -> option (list (pystr * option Z)))
        (split_documents : list (pystr * option Z) -> list (pystr * option Z))
        (exists_db force : bool) :
  PDFProcessor.process str_replace is_printable is_decimal load
                       split_documents
  = PDFProcessor.Failed PDFProcessor.UnboundLocalError
  /\ PDFProcessor.create str_replace is_printable is_decimal load
                         split_documents exists_db force
     = (if exists_db && negb force then PDFProcessor.Done None
        else PDFProcessor.Failed PDFProcessor.UnboundLocalError)
  /\ PDFProcessor.pipeline_init str_replace is_printable is_decimal load
                                split_documents false
     = PDFProcessor.Failed PDFProcessor.UnboundLocalError.
Proof.
  split; [reflexivity|]. split; [|reflexivity].
  unfold PDFProcessor.create. now destruct (exists_db && negb force).
Qed.

Lemma collapse_spaces_plain (in_run : bool) (s : pystr) :
  List.Forall (fun c => is_space c = true -> c = 32%N)
              (PDFProcessor.collapse_spaces in_run s).
Proof.
  revert in_run. induction s as [|c s IH]; intros in_run;
    cbn [PDFProcessor.collapse_spaces]; [constructor|].
  destruct (is_space c) eqn:E.
  - destruct in_run; [apply IH|].
    constructor; [reflexivity|apply IH].
  - constructor; [congruence|apply IH].
Qed.

Lemma strip_incl (s : pystr) (c : N) : In c (strip s) -> In c s.
Proof.
  unfold strip. intros H.
  destruct (EvidenceFacts.rstrip_prefix (lstrip s)) as [d1 H1].
  destruct (EvidenceFacts.lstrip_suffix s) as [d2 H2].
  rewrite H2. apply List.in_or_app. right.
  rewrite H1. apply List.in_or_app. now left.
Qed.

(** [X26] The cleaning of a page in [process] leaves no white space
    but plain spaces, and none at either end: every run of white space
    has become one space before the filter on printable characters, so
    the newlines and tabs that the filter lets through are never there.
    The text does not grow. *)
Theorem cleaned_page_holds_plain_spaces_only
        (is_printable : N -> bool) (page_content : pystr) :
  List.Forall (fun c => is_space c = true -> c = 32%N)
              (PDFProcessor.clean is_printable page_content)
  /\ (forall c, head (PDFProcessor.clean is_printable page_content) = Some c ->
                is_space c = false)
  /\ (forall c, last (PDFProcessor.clean is_printable page_content) = Some c ->
                is_space c = false)
  /\ (length (PDFProcessor.clean is_printable page_content)
      <= length page_content)%nat.
Proof.
  unfold PDFProcessor.clean. split; [|split; [|split]].
  - apply List.Forall_forall. intros c Hc.
    apply strip_incl in Hc. apply List.filter_In in Hc as [Hc _].
    pose proof (collapse_spaces_plain false page_content) as Hplain.
    rewrite List.Forall_forall in Hplain. now apply Hplain.
  - apply EvidenceFacts.strip_head.
  - apply EvidenceFacts.strip_last.
  - etransitivity; [apply EvidenceFacts.strip_length|].
    etransitivity; [apply EvaluationFacts.filter_length_le|].
    generalize false. induction page_content as [|c s IH]; intros b;
      cbn [PDFProcessor.collapse_spaces length]; [lia|].
    pose proof (IH true). pose proof (IH false).
    destruct (is_space c); [destruct b|]; cbn [length]; lia.
Qed.

End ComponentFacts.

(** ** The statements at concrete inputs *)

Module Witnesses.

Import RAGPipeline Runs Samples.


Lemma blank_question_at_spaces :
  strip (lit "   ") = []
  /\ exists out r s',
      sample_query (env_at 0 7) (Some (lit "   ")) None true true after_first
      = (Ok out, s')
      /\ heap s' !! out = Some r
      /\ answer r = lit "Empty question."
      /\ from_cache r = false
      /\ length (cache s') = length (cache after_first).
Proof.
  split; [reflexivity|].
  destruct (PipelineFacts.blank_question_gets_canned_result
              ascii_lower ascii_digit identity_digest default_config
              (env_at 0 7) (lit "   ") None true true after_first eq_refl)
    as (out & r & s' & Hrun & Hout & Ha & _ & _ & _ & Hf & _ & Hlen).
  exists out, r, s'. repeat split; assumption.
Defined.

Lemma blank_question_counted_at_spaces :
  strip (or_empty (Some (lit "   "))) = []
  /\ uncached_queries
       (metrics (snd (sample_query (env_at 0 7) (Some (lit "   ")) None
                                   true true after_first)))
     = uncached_queries (metrics after_first) + 1.
Proof.
  split; [reflexivity|].
  destruct (PipelineFacts.blank_question_counts_as_uncached
              ascii_lower ascii_digit identity_digest default_config
              (env_at 0 7) (Some (lit "   ")) None true true after_first
              eq_refl)
    as (_ & _ & Huq & _).
  exact Huq.
Defined.

Lemma cache_entry_at_the_hour :
  List.NoDup (Dict.keys (cache written))
  /\ Dict.get (_get_cache_key ascii_lower identity_digest revenue_question)
              (cache written) = Some (1%nat, 0)
  /\ _get_cache ascii_lower identity_digest default_config
                (env_at 3600000000 1) revenue_question written
     = (Ok (Some 1%nat), written)
  /\ fst (_get_cache ascii_lower identity_digest default_config
                     (env_at 3600000001 1) revenue_question written)
     = Ok None.
Proof.
  assert (Hnd : List.NoDup (Dict.keys (cache written)))
    by (vm_compute; repeat constructor; intros []).
  assert (Hget : Dict.get (_get_cache_key ascii_lower identity_digest
                                          revenue_question)
                          (cache written) = Some (1%nat, 0))
    by (vm_compute; reflexivity).
  split; [exact Hnd|]. split; [exact Hget|].
  split.
  - destruct (PipelineFacts.cache_entry_expires_strictly_after_ttl
                ascii_lower identity_digest default_config
                (env_at 3600000000 1) revenue_question written 1%nat 0
                Hnd Hget)
      as (_ & _ & Hearly).
    apply Hearly. vm_compute. discriminate.
  - destruct (PipelineFacts.cache_entry_expires_strictly_after_ttl
                ascii_lower identity_digest default_config
                (env_at 3600000001 1) revenue_question written 1%nat 0
                Hnd Hget)
      as (_ & Hlate & _).
    destruct Hlate as [Hrun _]; [vm_compute; reflexivity|].
    now rewrite Hrun.
Defined.

Lemma full_cache_evicts_the_revenue_entry :
  0 <= cache_max_size small_config
  /\ List.NoDup (Dict.keys (cache full_cache))
  /\ cache_max_size small_config <= Z.of_nat (length (cache full_cache))
  /\ (exists oldest_key stored ts,
        Dict.get oldest_key (cache full_cache) = Some (stored, ts)
        /\ (forall k r t, In (k, (r, t)) (cache full_cache) -> ts <= t)
        /\ S (length (Dict.del oldest_key (cache full_cache)))
           = length (cache full_cache))
  /\ Z.of_nat (length (cache (after_ops ascii_lower identity_digest
                                        small_config three_writes
                                        initial_state)))
     <= cache_max_size small_config.
Proof.
  assert (Hmax : 0 <= cache_max_size small_config)
    by (vm_compute; discriminate).
  assert (Hnd : List.NoDup (Dict.keys (cache full_cache))).
  { vm_compute. repeat constructor; simpl; intuition discriminate. }
  assert (Hfull : cache_max_size small_config
                  <= Z.of_nat (length (cache full_cache)))
    by (vm_compute; discriminate).
  split; [exact Hmax|]. split; [exact Hnd|]. split; [exact Hfull|].
  destruct (PipelineFacts.cache_write_evicts_oldest_and_size_is_bounded
              ascii_lower ascii_digit identity_digest small_config
              (env_at 9000000 7) staff_question 0%nat full_cache
              (snd (_set_cache ascii_lower identity_digest small_config
                               (env_at 9000000 7) staff_question 0%nat
                               full_cache))
              three_writes [] Hmax)
    as (Hevict & Hbound & _).
  split; [|exact Hbound].
  destruct (Hevict Hnd Hfull ltac:(vm_compute; reflexivity))
    as (oldest_key & stored & ts & copy & Hget & Hmin & _ & _ & Hlen & _).
  exists oldest_key, stored, ts. repeat split; assumption.
Defined.

Lemma second_ask_hits :
  exists out s' r,
    sample_query (env_at 1000000 2) (Some revenue_question) None true true
                 after_first
    = (Ok out, s')
    /\ heap s' !! out = Some r
    /\ from_cache r = true
    /\ latency_ms r = 2
    /\ heap s' !! 1%nat = heap after_first !! 1%nat
    /\ uncached_queries (metrics s') = uncached_queries (metrics after_first).
Proof.
  destruct (heap after_first !! 1%nat) as [stored|] eqn:Hstored;
    [|vm_compute in Hstored; discriminate Hstored].
  destruct (PipelineFacts.cache_hit_returns_stamped_copy
              ascii_lower ascii_digit identity_digest default_config
              (env_at 1000000 2) (Some revenue_question) None true
              after_first 1%nat 0 stored
              ltac:(vm_compute; discriminate)
              ltac:(reflexivity)
              ltac:(vm_compute; reflexivity)
              ltac:(vm_compute; discriminate)
              Hstored)
    as (out & s' & r & Hrun & Hout & _ & _ & Hfc & Hlat & _ & _ & _ & _ & _
        & Hkept & _ & _ & _ & _ & _ & Huq & _).
  exists out, s', r. repeat split; try assumption.
Defined.

Lemma asked_twice_same_answer :
  exists r1 out2 s3 r2,
    heap after_first !! 0%nat = Some r1
    /\ sample_query (env_at 2000000 3) (Some revenue_question) (Some 4)
                    true false
                    (after_calls ascii_lower ascii_digit identity_digest
                                 default_config
                                 [ask 1000000 1 staff_question] after_first)
       = (Ok out2, s3)
    /\ heap s3 !! out2 = Some r2
    /\ from_cache r2 = true
    /\ answer r2 = answer r1.
Proof.
  destruct (heap after_first !! 0%nat) as [r1|] eqn:Hr1;
    [|vm_compute in Hr1; discriminate Hr1].
  destruct (PipelineFacts.repeated_question_is_served_from_cache
              ascii_lower ascii_digit identity_digest default_config
              (env_at 0 7) (env_at 2000000 3) revenue_question
              None (Some 4) true false initial_state 0%nat after_first r1
              [ask 1000000 1 staff_question]
              ltac:(vm_compute; discriminate)
              ltac:(reflexivity)
              ltac:(vm_compute; reflexivity)
              Hr1
              ltac:(vm_compute; reflexivity))
    as (out2 & s3 & r2 & Hrun & Hout & Hfc & Hans).
  - intros stored ts Hget. vm_compute in Hget. injection Hget as <- <-.
    vm_compute. discriminate.
  - exists r1, out2, s3, r2. repeat split; assumption.
Defined.


End Witnesses.

(** ** More statements at concrete inputs *)

Module Instances.

Import RAGPipeline Runs Paths Samples Cases.

Lemma rerank_range_at_the_tests_passages :
  List.Forall (fun ds => 0 <= snd ds <= 1)%Q retrieved
  /\ List.Forall (fun ds => 0 <= snd ds <= 925 # 1000)%Q
                 (Reranker.rerank ascii_lower revenue_question retrieved 2).
Proof.
  assert (H : List.Forall (fun ds => 0 <= snd ds <= 1)%Q retrieved)
    by (repeat constructor; vm_compute; discriminate).
  split; [exact H|].
  exact (RerankerRange.rerank_scores_stay_in_range
           ascii_lower revenue_question retrieved 2 H).
Defined.

Lemma digits_over_plain_passages :
  In ANSWER_HAS_NUMBERS_WITHOUT_SUPPORT
     (reasons (_compute_confidence ascii_digit plain_passages
                                   (Some (lit "About 86 billion."))))
  /\ level (_compute_confidence ascii_digit plain_passages
                                (Some (lit "About 86 billion.")))
     <> HIGH.
Proof.
  assert (H : In ANSWER_HAS_NUMBERS_WITHOUT_SUPPORT
                 (reasons (_compute_confidence ascii_digit plain_passages
                             (Some (lit "About 86 billion.")))))
    by (vm_compute; auto).
  split; [exact H|].
  destruct (ConfidenceLevels.unsupported_numbers_never_rate_high
              ascii_digit plain_passages (Some (lit "About 86 billion.")) H)
    as (_ & _ & Hlevel).
  exact Hlevel.
Defined.

Lemma worked_example_passes_both_checks :
  level (_compute_confidence ascii_digit (worked_example [] [] []) None)
  = HIGH
  /\ ~ In LOW_TOP_SIMILARITY
         (reasons (_compute_confidence ascii_digit (worked_example [] [] [])
                                       None))
  /\ ~ In LOW_AVG_SIMILARITY
         (reasons (_compute_confidence ascii_digit (worked_example [] [] [])
                                       None)).
Proof.
  assert (H : level (_compute_confidence ascii_digit
                                         (worked_example [] [] []) None)
              = HIGH) by (vm_compute; reflexivity).
  split; [exact H|].
  destruct (ConfidenceLevels.high_level_needs_both_similarity_checks
              ascii_digit (worked_example [] [] []) None H)
    as (Htop & Havg & _).
  split; [exact Htop|exact Havg].
Defined.

Lemma nothing_found_for_the_revenue_question :
  exists out s' r,
    sample_query (env_over empty_search fake_generate 0 7)
                 (Some revenue_question) None true true initial_state
    = (Ok out, s')
    /\ heap s' !! out = Some r
    /\ answer r = lit "No relevant information found in the document."
    /\ sources r = []
    /\ length (cache s') = 1%nat.
Proof.
  destruct (QueryPaths.empty_retrieval_gets_not_found_answer
              ascii_lower ascii_digit identity_digest default_config
              (env_over empty_search fake_generate 0 7)
              (Some revenue_question) None true true initial_state
              ltac:(vm_compute; discriminate)
              ltac:(intros _; vm_compute; reflexivity)
              ltac:(reflexivity)
              ltac:(intros _ cached ts H; vm_compute in H; discriminate H)
              ltac:(reflexivity))
    as (out & s' & r & Hrun & Hout & Ha & Hs & _).
  exists out, s', r.
  split; [exact Hrun|]. split; [exact Hout|]. split; [exact Ha|].
  split; [exact Hs|].
  unfold sample_query in Hrun. vm_compute in Hrun.
  injection Hrun as _ <-. reflexivity.
Defined.

Lemma cache_off_after_the_first_call :
  false && enable_cache default_config = false
  /\ cache (snd (sample_query (env_at 1000000 2) (Some revenue_question)
                              None false true after_first))
     = cache after_first
  /\ cache_hits
       (metrics (snd (sample_query (env_at 1000000 2)
                                   (Some revenue_question) None false true
                                   after_first)))
     = cache_hits (metrics after_first).
Proof.
  split; [reflexivity|].
  destruct (QueryPaths.disabled_cache_is_never_touched
              ascii_lower ascii_digit identity_digest default_config
              (env_at 1000000 2) (Some revenue_question) None false true
              after_first eq_refl)
    as (Hcache & Hhits & _).
  split; [exact Hcache|exact Hhits].
Defined.

Lemma failing_store_at_the_revenue_question :
  exists s',
    sample_query (env_over failing_search fake_generate 0 7)
                 (Some revenue_question) None true true initial_state
    = (Raise RetrievalError, s')
    /\ heap s' = heap initial_state
    /\ metrics s' = incr_total_queries (metrics initial_state).
Proof.
  destruct (QueryPaths.retrieval_failure_propagates
              ascii_lower ascii_digit identity_digest default_config
              (env_over failing_search fake_generate 0 7)
              (Some revenue_question) None true true initial_state
              RetrievalError
              ltac:(vm_compute; discriminate)
              ltac:(intros _; vm_compute; reflexivity)
              ltac:(intros _ cached ts H; vm_compute in H; discriminate H)
              ltac:(reflexivity))
    as (s' & Hrun & Hheap & Hmetrics & _).
  exists s'. split; [exact Hrun|]. split; [exact Hheap|exact Hmetrics].
Defined.

Lemma no_room_at_the_revenue_question :
  cache_max_size no_room_config <= 0
  /\ exists s',
      query ascii_lower ascii_digit identity_digest no_room_config
            (env_at 0 7) (Some revenue_question) None true true
            initial_state
      = (Raise ValueError, s')
      /\ cache s' = [].
Proof.
  split; [vm_compute; discriminate|].
  destruct (QueryPaths.cache_without_room_fails_the_call
              ascii_lower ascii_digit identity_digest no_room_config
              (env_at 0 7) (Some revenue_question) None true
              initial_state
              [(doc10, 90 # 100); (doc11, 85 # 100); (doc49, 80 # 100)]%Q
              ltac:(vm_compute; discriminate)
              ltac:(vm_compute; reflexivity)
              ltac:(reflexivity)
              ltac:(vm_compute; discriminate)
              ltac:(reflexivity)
              ltac:(reflexivity))
    as (s' & Hrun & _ & Hcache).
  exists s'. split; [exact Hrun|exact Hcache].
Defined.

Lemma shouted_question_hits :
  strip (ascii_lower (strip shouted_question))
  = strip (ascii_lower (strip revenue_question))
  /\ exists r1 out2 s2 r2,
      heap after_first !! 0%nat = Some r1
      /\ sample_query (env_at 1000000 2) (Some shouted_question) None true
                      true after_first
         = (Ok out2, s2)
      /\ heap s2 !! out2 = Some r2
      /\ from_cache r2 = true
      /\ answer r2 = answer r1.
Proof.
  assert (Hkey : strip (ascii_lower (strip shouted_question))
                 = strip (ascii_lower (strip revenue_question)))
    by (vm_compute; reflexivity).
  split; [exact Hkey|].
  destruct (heap after_first !! 0%nat) as [r1|] eqn:Hr1;
    [|vm_compute in Hr1; discriminate Hr1].
  destruct (QueryPaths.questions_that_differ_in_case_share_an_entry
              ascii_lower ascii_digit identity_digest default_config
              (env_at 0 7) (env_at 1000000 2)
              revenue_question shouted_question None None true true
              initial_state 0%nat after_first r1
              ltac:(vm_compute; discriminate)
              ltac:(vm_compute; discriminate)
              ltac:(reflexivity)
              Hkey
              ltac:(vm_compute; reflexivity)
              Hr1)
    as (out2 & s2 & r2 & Hrun & Hout & Hfc & Hans).
  - intros stored ts Hget. vm_compute in Hget. injection Hget as <- <-.
    vm_compute. discriminate.
  - exists r1, out2, s2, r2. repeat split; assumption.
Defined.

Lemma first_answer_and_its_copy :
  exists out s' r copy,
    sample_query (env_at 0 7) (Some revenue_question) None true true
                 initial_state
    = (Ok out, s')
    /\ heap s' !! out = Some r
    /\ Dict.get (_get_cache_key ascii_lower identity_digest
                                (strip revenue_question))
                (cache s')
       = Some (copy, 0)
    /\ heap s' !! copy = Some r
    /\ copy <> out.
Proof.
  destruct (QueryPaths.fresh_answer_is_cached_as_a_copy
              ascii_lower ascii_digit identity_digest default_config
              (env_at 0 7) (Some revenue_question) None true initial_state
              [(doc10, 90 # 100); (doc11, 85 # 100); (doc49, 80 # 100)]%Q
              ltac:(vm_compute; discriminate)
              ltac:(vm_compute; reflexivity)
              ltac:(reflexivity)
              ltac:(reflexivity)
              ltac:(intros _ cached ts H; vm_compute in H; discriminate H)
              ltac:(reflexivity))
    as (out & s' & r & copy & Hrun & Hout & _ & Hget & Hcopy & Hne & _).
  exists out, s', r, copy. repeat split; assumption.
Defined.

Lemma entry_of_the_first_call_is_served :
  exists out s' r,
    sample_query (env_at 1000000 2) (Some revenue_question) None true true
                 (after_calls ascii_lower ascii_digit identity_digest
                              default_config [ask 0 7 revenue_question]
                              initial_state)
    = (Ok out, s')
    /\ heap s' !! out = Some r
    /\ from_cache r = true.
Proof.
  destruct (QueryPaths.live_entry_is_always_served
              ascii_lower ascii_digit identity_digest default_config
              [ask 0 7 revenue_question] (env_at 1000000 2)
              (Some revenue_question) None true 1%nat 0
              ltac:(vm_compute; discriminate)
              ltac:(reflexivity)
              ltac:(vm_compute; reflexivity)
              ltac:(vm_compute; discriminate))
    as (out & s' & r & stored & Hrun & _ & Hout & Hfc & _).
  exists out, s', r. repeat split; assumption.
Defined.

Lemma reranked_sources_of_the_revenue_question :
  exists out s' r,
    sample_query (env_at 0 7) (Some revenue_question) None true true
                 initial_state
    = (Ok out, s')
    /\ heap s' !! out = Some r
    /\ Z.of_nat (length (sources r)) <= 5
    /\ best_first (sources r).
Proof.
  destruct (QueryPaths.sources_come_best_first
              ascii_lower ascii_digit identity_digest default_config
              (env_at 0 7) (Some revenue_question) None true true
              initial_state
              [(doc10, 90 # 100); (doc11, 85 # 100); (doc49, 80 # 100)]%Q
              ltac:(vm_compute; discriminate)
              ltac:(intros _; vm_compute; reflexivity)
              ltac:(reflexivity)
              ltac:(vm_compute; discriminate)
              ltac:(intros _ cached ts H; vm_compute in H; discriminate H)
              ltac:(reflexivity)
              ltac:(intros H; discriminate H))
    as (out & s' & r & Hrun & Hout & Hlen & Hbest & _).
  exists out, s', r. repeat split; assumption.
Defined.

Lemma search_at_the_sample_store :
  exists out,
    VectorStore.search default_config
      {| VectorStore.db := Some reversed_collection |} revenue_question
      (Some 3)
    = VectorStore.Found out
    /\ length out = 3%nat
    /\ List.Forall (fun ds => 0 < snd ds <= 1)%Q out
    /\ ranked out.
Proof.
  destruct (VectorStoreFacts.search_returns_ranked_similarities
              default_config reversed_collection revenue_question (Some 3)
              [(doc49, 1 # 2); (doc11, 1 # 4); (doc10, 1 # 9)]%Q
              ltac:(reflexivity)
              ltac:(repeat constructor; vm_compute; discriminate))
    as (out & Hrun & _ & Hlen & Hrange & Hranked).
  exists out. repeat split; assumption.
Defined.

Lemma search_keeps_the_sample_order :
  VectorStore.nearest_first [(doc10, 1 # 9); (doc11, 1 # 4)]%Q
  /\ VectorStore.search default_config sample_store revenue_question
                        (Some 2)
     = VectorStore.Found [(doc10, 1 / (1 + (1 # 9)));
                          (doc11, 1 / (1 + (1 # 4)))]%Q.
Proof.
  assert (Hnear : VectorStore.nearest_first
                    [(doc10, 1 # 9); (doc11, 1 # 4)]%Q)
    by (repeat constructor; vm_compute; discriminate).
  split; [exact Hnear|].
  exact (VectorStoreFacts.search_keeps_nearest_first_order
           default_config sample_collection revenue_question (Some 2)
           [(doc10, 1 # 9); (doc11, 1 # 4)]%Q
           ltac:(reflexivity)
           ltac:(repeat constructor; vm_compute; discriminate)
           Hnear).
Defined.

Lemma zero_top_k_over_the_sample_store :
  sample_query (store_env 0 7) (Some revenue_question) (Some 0) true true
               initial_state
  = sample_query (store_env 0 7) (Some revenue_question) None true true
                 initial_state.
Proof.
  exact (ComponentFacts.zero_top_k_means_the_default
           ascii_lower ascii_digit identity_digest default_config
           sample_store (store_env 0 7) (Some revenue_question) true true
           initial_state
           ltac:(intros q k; reflexivity)).
Defined.

Lemma golden_dataset_is_evaluated :
  List.Forall (Evaluation.answerable default_config) golden
  /\ exists report s,
      Evaluation.evaluate_rag ascii_lower ascii_digit identity_digest
                              default_config true (Some golden) true
      = Evaluation.Returned report s
      /\ Evaluation.total_questions report = 3
      /\ total_queries (metrics s) = 3
      /\ cache_hits (metrics s) = 0
      /\ cache s = [].
Proof.
  assert (Hall : List.Forall (Evaluation.answerable default_config) golden)
    by (unfold golden;
        repeat (apply List.Forall_cons; [right; eexists; reflexivity|]);
        apply List.Forall_nil).
  split; [exact Hall|].
  destruct (EvaluationFacts.evaluation_asks_every_question_uncached
              ascii_lower ascii_digit identity_digest default_config
              golden Hall)
    as ((report & s & Hrun & Htotal & _ & Hq & _ & Hhits & Hcache & _) & _).
  exists report, s. repeat split; assumption.
Defined.

Lemma golden_dataset_breakdown :
  exists report s,
    Evaluation.evaluate_rag ascii_lower ascii_digit identity_digest
                            default_config true (Some golden) true
    = Evaluation.Returned report s
    /\ Evaluation.sum_Z
         (List.map (fun g => Evaluation.g_count (snd g))
                   (Evaluation.by_category report))
       = Evaluation.total_questions report
    /\ List.NoDup (List.map fst (Evaluation.by_category report)).
Proof.
  destruct (Evaluation.evaluate_rag ascii_lower ascii_digit identity_digest
                                    default_config true (Some golden) true)
    as [report s|e] eqn:Hrun; [|vm_compute in Hrun; discriminate Hrun].
  destruct (EvaluationFacts.evaluation_breakdowns_share_the_questions_out
              ascii_lower ascii_digit identity_digest default_config
              true (Some golden) true report s Hrun)
    as (Hsum & _ & _ & _ & Hnd & _).
  exists report, s. repeat split; assumption.
Defined.

Lemma failed_model_answer_is_served_again :
  exists out1 s1 r1 out2 s2 r2,
    sample_query (failing_model_env 0 7) (Some revenue_question) None true
                 true initial_state
    = (Ok out1, s1)
    /\ heap s1 !! out1 = Some r1
    /\ answer r1 = LLMClient.fallback
    /\ sample_query (env_at 1000000 2) (Some revenue_question) None true
                    true s1
       = (Ok out2, s2)
    /\ heap s2 !! out2 = Some r2
    /\ answer r2 = LLMClient.fallback
    /\ from_cache r2 = true.
Proof.
  destruct (ComponentFacts.model_failure_is_cached
              ascii_lower ascii_digit identity_digest default_config
              failing_model (failing_model_env 0 7) (env_at 1000000 2)
              (Some revenue_question) None None true true initial_state
              (doc10, 90 # 100)%Q [(doc11, 85 # 100); (doc49, 80 # 100)]%Q
              ltac:(vm_compute; discriminate)
              ltac:(vm_compute; reflexivity)
              ltac:(reflexivity)
              ltac:(reflexivity)
              ltac:(intros _ cached ts H; vm_compute in H; discriminate H)
              ltac:(reflexivity)
              ltac:(intros context q; reflexivity)
              ltac:(intros context q; reflexivity)
              ltac:(vm_compute; discriminate))
    as (out1 & s1 & r1 & out2 & s2 & r2 & H1 & H2 & H3 & _ & H5 & H6 & H7 & H8).
  exists out1, s1, r1, out2, s2, r2. repeat split; assumption.
Defined.

End Instances.
